(** * GALAH fits-standard: conversion of 2dfdr reductions ([convert/tdfdr.py])

    A shallow embedding of [from_2dfdr] and of the helpers it calls, with the
    properties of the conversion proved over it.

    The program is Python over the [astropy.io.fits] container library.  What
    is modelled of the library is what the program observes of it:

    - a header is a finite map from keyword to card (value and comment),
      together with the list of its commentary cards (HISTORY, COMMENT and
      blank); keywords are unique, as the FITS standard requires, and the
      position of a card inside a header is not modelled;
    - header values are strings, integers, binary64 floats and booleans, the
      types a card can hold; floats are Rocq's primitive binary64 floats, the
      arithmetic of Python's [float];
    - a Python exception is a value of [exn] and a computation that may raise
      returns a [result];
    - pixel arrays are double precision;
    - a velocity is a number with a unit, m/s or km/s; the quotient of two
      velocities is the quotient of the numbers with the quotient of the
      units beside it, as the units library leaves it;
    - the barycentric motion service ([motions.from_header]), the revision
      hash read when the module is loaded, the checksum functions of the
      container library and the file system are the fields of [Externals]. *)

From Stdlib Require Import ZArith Ascii String Sorted PrimFloat FloatOps SpecFloat.
From stdpp Require Import gmap strings pretty list fin_maps.

Local Open Scope string_scope.
Set Warnings "-clear-no-such-hyp".

(** ** Exceptions and results *)

(** The exception classes that the program can raise.  The specification
    calls the failed assertion of [verify_hermes_origin]
    [OriginMismatchError] and the failed lookup of [get_ccd_number]
    [UnknownChannelError]; in the code they are [AssertionError] and
    [KeyError]. *)
Inductive exn : Type :=
  | IOError
  | IndexError
  | KeyError
  | ValueError
  | AssertionError
  | TypeError
  | AttributeError
  | OverflowError.

Inductive result (A : Type) : Type :=
  | Ok (a : A)
  | Raise (e : exn).

Arguments Ok {A} a.
Arguments Raise {A} e.

Definition bind {A B : Type} (m : result A) (k : A -> result B) : result B :=
  match m with
  | Ok a => k a
  | Raise e => Raise e
  end.

Notation "x <- m ;; k" := (bind m (fun x => k))
  (at level 100, m at next level, right associativity).

Definition succeeded {A : Type} (r : result A) : bool :=
  match r with
  | Ok _ => true
  | Raise _ => false
  end.

(** A [for] loop whose body may raise and which threads an accumulator. *)
Fixpoint foldM {A B : Type} (f : A -> B -> result A) (a : A) (l : list B)
  : result A :=
  match l with
  | [] => Ok a
  | b :: l' => a' <- f a b ;; foldM f a' l'
  end.

(** A [for] loop that appends one result per item. *)
Fixpoint mapM_result {A B : Type} (f : A -> result B) (l : list A)
  : result (list B) :=
  match l with
  | [] => Ok []
  | a :: l' => b <- f a ;; bs <- mapM_result f l' ;; Ok (b :: bs)
  end.

(** [seq[i]] *)
Definition getitem {A : Type} (l : list A) (i : nat) : result A :=
  match l !! i with
  | Some a => Ok a
  | None => Raise IndexError
  end.

(** [seq.index(x)]: the first position of [x], [ValueError] when absent. *)
Fixpoint list_index (x : string) (l : list string) : result nat :=
  match l with
  | [] => Raise ValueError
  | y :: l' => if decide (y = x) then Ok 0 else i <- list_index x l' ;; Ok (S i)
  end.

(** ** Strings *)

(** The characters [str.strip()] removes: space, tab, newline, carriage
    return, vertical tab and form feed. *)
Definition is_space (a : ascii) : bool :=
  let n := nat_of_ascii a in
  Nat.eqb n 32 || (Nat.leb 9 n && Nat.leb n 13).

Fixpoint lstrip (s : string) : string :=
  match s with
  | EmptyString => EmptyString
  | String a s' => if is_space a then lstrip s' else s
  end.

Fixpoint rstrip (s : string) : string :=
  match s with
  | EmptyString => EmptyString
  | String a s' =>
      match rstrip s' with
      | EmptyString => if is_space a then EmptyString else String a EmptyString
      | r => String a r
      end
  end.

Definition strip (s : string) : string := rstrip (lstrip s).

(** [s.split(" ")]: the pieces of [s] between single spaces; never empty. *)
Fixpoint split_space (s : string) : list string :=
  match s with
  | EmptyString => [EmptyString]
  | String a s' =>
      if Ascii.eqb a " " then EmptyString :: split_space s'
      else match split_space s' with
           | [] => [String a EmptyString]
           | w :: ws => String a w :: ws
           end
  end.

(** ** Header values *)

Inductive value : Type :=
  | VStr (s : string)
  | VInt (z : Z)
  | VFloat (x : float)
  | VBool (b : bool).

(** Python's conversion of an [int] to a [float]: rounded to nearest even,
    [OverflowError] when the integer is beyond the largest float. *)
Definition float_of_int (z : Z) : result float :=
  let x := SF2Prim (binary_normalize prec emax z 0 false) in
  if is_infinity x then Raise OverflowError else Ok x.

(** [v * x] for a float [x], as the in-place [*=] of the program computes it:
    a float is multiplied, an integer or a boolean is converted first, and a
    string cannot be multiplied by a float. *)
Definition value_mul (v : value) (x : float) : result value :=
  match v with
  | VFloat y => Ok (VFloat (y * x))
  | VInt z => y <- float_of_int z ;; Ok (VFloat (y * x))
  | VBool b => Ok (VFloat ((if b then 1 else 0) * x))
  | VStr _ => Raise TypeError
  end.

(** [str.strip(v)], the unbound method mapped over the extension names. *)
Definition str_strip (v : value) : result string :=
  match v with
  | VStr s => Ok (strip s)
  | _ => Raise TypeError
  end.

(** [v.strip()], the method looked up on the value. *)
Definition strip_method (v : value) : result string :=
  match v with
  | VStr s => Ok (strip s)
  | _ => Raise AttributeError
  end.

(** Truth value of a header value. *)
Definition truthy (v : value) : bool :=
  match v with
  | VStr s => negb (String.eqb s EmptyString)
  | VInt z => negb (z =? 0)%Z
  | VFloat x => negb (PrimFloat.eqb x 0)
  | VBool b => b
  end.

(** ** Headers *)

Record card : Type := Card { cvalue : value; ccomment : string }.

Record fits_header : Type := Header {
  cards : gmap string card;
  commentary : list (string * value)
}.

Definition empty_header : fits_header := Header ∅ [].

Definition is_commentary (k : string) : bool :=
  existsb (String.eqb k) ["HISTORY"; "COMMENT"; EmptyString].

(** [k in header] *)
Definition header_contains (k : string) (h : fits_header) : bool :=
  bool_decide (is_Some (cards h !! k)).

(** [header[k]] *)
Definition header_getitem (k : string) (h : fits_header) : result value :=
  match cards h !! k with
  | Some c => Ok (cvalue c)
  | None => Raise KeyError
  end.

(** [header.get(k, default)] *)
Definition header_get (k : string) (default : value) (h : fits_header) : value :=
  match cards h !! k with
  | Some c => cvalue c
  | None => default
  end.

(** [header[k] = v]: the value of the card is replaced and its comment kept;
    a new card is added when there is none; a commentary keyword always adds
    a card. *)
Definition header_setitem (k : string) (v : value) (h : fits_header) : fits_header :=
  if is_commentary k then
    Header (cards h) (commentary h ++ [(k, v)])%list
  else
    let c := match cards h !! k with
             | Some c => ccomment c
             | None => EmptyString
             end in
    Header (<[k := Card v c]> (cards h)) (commentary h).

(** [header.set(k, v, comment)] *)
Definition header_set (k : string) (v : value) (c : string) (h : fits_header)
  : fits_header :=
  Header (<[k := Card v c]> (cards h)) (commentary h).

(** [header.comments[k]] *)
Definition comments_getitem (k : string) (h : fits_header) : result string :=
  match cards h !! k with
  | Some c => Ok (ccomment c)
  | None => Raise KeyError
  end.

(** [header.comments[k] = c] *)
Definition comments_setitem (k : string) (c : string) (h : fits_header)
  : result fits_header :=
  match cards h !! k with
  | Some old => Ok (Header (<[k := Card (cvalue old) c]> (cards h)) (commentary h))
  | None => Raise KeyError
  end.

(** [del header[k]]: every card of the keyword goes; a keyword that is absent
    is a [KeyError]. *)
Definition header_delitem (k : string) (h : fits_header) : result fits_header :=
  match cards h !! k with
  | Some _ => Ok (Header (delete k (cards h)) (commentary h))
  | None => Raise KeyError
  end.

(** [header.remove(k, ignore_missing=True)] *)
Definition header_remove (k : string) (h : fits_header) : fits_header :=
  Header (delete k (cards h)) (commentary h).

(** [header[k] *= x] *)
Definition header_imul (k : string) (x : float) (h : fits_header) : result fits_header :=
  v <- header_getitem k h ;;
  v' <- value_mul v x ;;
  Ok (header_setitem k v' h).

(** ** Data units and HDUs *)

Inductive payload : Type :=
  | NoData
  | Spectrum (samples : list float)
  | Image (rows : list (list float))
  | Table (columns : gmap string (list value)).

Inductive hdu_class : Type := PrimaryClass | ImageClass | TableClass.

Record hdu : Type := HDU {
  hclass : hdu_class;
  hheader : fits_header;
  hdata : payload
}.

Definition with_header (f : fits_header -> fits_header) (h : hdu) : hdu :=
  HDU (hclass h) (f (hheader h)) (hdata h).

Definition with_headerM (f : fits_header -> result fits_header) (h : hdu) : result hdu :=
  hd <- f (hheader h) ;; Ok (HDU (hclass h) hd (hdata h)).

(** [hdu.data[i, :]] *)
Definition image_row (h : hdu) (i : nat) : result (list float) :=
  match hdata h with
  | Image rows => getitem rows i
  | NoData => Raise TypeError
  | Spectrum _ | Table _ => Raise IndexError
  end.

(** [hdu.data[name]] *)
Definition table_column (h : hdu) (name : string) : result (list value) :=
  match hdata h with
  | Table columns =>
      match columns !! name with
      | Some col => Ok col
      | None => Raise KeyError
      end
  | NoData => Raise TypeError
  | Spectrum _ | Image _ => Raise IndexError
  end.

(** [hdu.data[i][name]] *)
Definition table_field (h : hdu) (i : nat) (name : string) : result value :=
  col <- table_column h name ;; getitem col i.

(** [np.where(column == x)[0]]: the indices, in ascending order, of the
    entries of a column of strings that equal [x]; an entry that is no string
    equals none. *)
Fixpoint where_from (n : nat) (x : string) (column : list value) : list nat :=
  match column with
  | [] => []
  | VStr s :: column' =>
      if decide (s = x) then n :: where_from (S n) x column'
      else where_from (S n) x column'
  | _ :: column' => where_from (S n) x column'
  end.

Definition np_where_eq (x : string) (column : list value) : list nat :=
  where_from 0 x column.

(** *** Construction of HDUs

    The cards that the library writes itself when it builds an HDU. *)

(** [str(n)] *)
Definition decimal (n : nat) : string := pretty n.

(** The number of turns of [range(v)]. *)
Definition count_of (v : value) : result nat :=
  match v with
  | VInt z => Ok (Z.to_nat z)
  | VBool b => Ok (if b then 1 else 0)
  | _ => Raise TypeError
  end.

(** The keywords of the columns of a table, each followed by the number of
    the column. *)
Definition table_keywords : list string :=
  ["TFORM"; "TSCAL"; "TZERO"; "TNULL"; "TTYPE"; "TUNIT"; "TDISP"; "TDIM";
   "THEAP"; "TBCOL"].

Definition structural_keywords : list string :=
  ["SIMPLE"; "XTENSION"; "BITPIX"; "NAXIS"; "EXTEND"; "PCOUNT"; "GCOUNT";
   "GROUPS"; "BSCALE"; "BZERO"; "TFIELDS"].

(** [name + str(idx + 1) for idx in range(n)] *)
Definition numbered (name : string) (n : nat) : list string :=
  map (fun idx => name +:+ decimal (S idx)) (seq 0 n).

(** [Header._strip]: the cards that describe the structure of the HDU the
    header came from are dropped: NAXISn up to NAXIS, the column keywords up
    to TFIELDS, and the structural keywords. *)
Definition header_strip (h : fits_header) : result fits_header :=
  naxis <- count_of (header_get "NAXIS" (VInt 0) h) ;;
  tfields <- count_of (header_get "TFIELDS" (VInt 0) h) ;;
  let h := foldl (flip header_remove) h (numbered "NAXIS" naxis) in
  let h := foldl (fun h name => foldl (flip header_remove) h (numbered name tfields))
                 h table_keywords in
  Ok (foldl (flip header_remove) h structural_keywords).

(** BITPIX, NAXIS and NAXIS1 for a data unit of the conversion. *)
Definition update_header (data : payload) (h : fits_header) : fits_header :=
  match data with
  | Spectrum samples =>
      header_setitem "NAXIS1" (VInt (Z.of_nat (length samples)))
        (header_setitem "NAXIS" (VInt 1)
          (header_setitem "BITPIX" (VInt (-64)) h))
  | _ => h
  end.

(** [fits.PrimaryHDU(data=flux, header=header)]: a minimal primary header,
    extended with a stripped copy of [header], then brought in line with the
    data. *)
Definition PrimaryHDU (data : list float) (header : fits_header) : result hdu :=
  orig <- header_strip header ;;
  let minimal :=
    header_set "NAXIS" (VInt 0) "number of array dimensions"
      (header_set "BITPIX" (VInt 8) "array data type"
        (header_set "SIMPLE" (VBool true) "conforms to FITS standard" orig)) in
  Ok (HDU PrimaryClass (update_header (Spectrum data) minimal) (Spectrum data)).

(** [fits.ImageHDU(data=data, header=None)] *)
Definition ImageHDU (data : option (list float)) : hdu :=
  let minimal :=
    header_set "GCOUNT" (VInt 1) "number of groups"
      (header_set "PCOUNT" (VInt 0) "number of parameters"
        (header_set "NAXIS" (VInt 0) "number of array dimensions"
          (header_set "BITPIX" (VInt 8) "array data type"
            (header_set "XTENSION" (VStr "IMAGE") "Image extension"
               empty_header)))) in
  match data with
  | Some samples =>
      HDU ImageClass (update_header (Spectrum samples) minimal) (Spectrum samples)
  | None => HDU ImageClass minimal NoData
  end.

(** [HDUList.update_extend]: the primary header says whether extensions
    follow. *)
Definition update_extend (hdulist : list hdu) : list hdu :=
  match hdulist with
  | primary :: first_ext :: rest =>
      match hclass primary with
      | PrimaryClass =>
          let hdr := hheader primary in
          let hdr' :=
            match cards hdr !! "EXTEND" with
            | Some c => if truthy (cvalue c) then hdr
                        else header_setitem "EXTEND" (VBool true) hdr
            | None => header_set "EXTEND" (VBool true) EmptyString hdr
            end in
          HDU PrimaryClass hdr' (hdata primary) :: first_ext :: rest
      | _ => hdulist
      end
  | _ => hdulist
  end.

(** [fits.HDUList(hdus)] *)
Definition HDUList (hdus : list hdu) : list hdu := update_extend hdus.

(** [hdulist.append(hdu)] *)
Definition hdulist_append (hdulist : list hdu) (h : hdu) : list hdu :=
  update_extend (hdulist ++ [h])%list.

(** ** Velocities

    A velocity is a quantity of the units library: a number and a unit.  Two
    units are enough for the program, the unit of the speed-of-light constant
    (m/s) and the unit of the header cards (km/s). *)

Inductive unit_of_velocity : Type := m_per_s | km_per_s.

Record quantity : Type := Quantity { qvalue : float; qunit : unit_of_velocity }.

(** The size of a unit in SI. *)
Definition unit_scale (u : unit_of_velocity) : float :=
  match u with
  | m_per_s => 1
  | km_per_s => 1000
  end.

(** [q.to(u)]: the number is multiplied by the quotient of the scales. *)
Definition quantity_to (u : unit_of_velocity) (q : quantity) : quantity :=
  Quantity (qvalue q * (unit_scale (qunit q) / unit_scale u)) u.

(** A quotient of two quantities.  The library divides the two numbers as
    they are and puts the quotient of the two units beside the result; it
    does not reduce km/m to the number 1000.  [.value] of the quotient is the
    number as it stands. *)
Record quotient : Type := Quotient {
  quotient_value : float;
  numerator_unit : unit_of_velocity;
  denominator_unit : unit_of_velocity
}.

(** [a / b] *)
Definition quantity_truediv (a b : quantity) : quotient :=
  Quotient (qvalue a / qvalue b) (qunit a) (qunit b).

(** [astropy.constants.c] *)
Definition speed_of_light : quantity := Quantity 299792458 m_per_s.

(** [np.pi] *)
Definition np_pi : float := 0x1.921fb54442d18p+1.

(** ** What the program takes from outside *)

Class Externals : Type := {
  (** [fits.open(filename)]: the container stored under a name, or the error
      of a failed opening. *)
  fits_open : string -> result (list hdu);
  (** [motions.from_header(header)]: the barycentric and the heliocentric
      velocity, in this order, or the error the service raises. *)
  motions_from_header : fits_header -> result (quantity * quantity);
  (** the output of [git rev-parse --short HEAD], read at import *)
  WG6_GIT_HASH : string;
  (** the two sums of the FITS checksum convention *)
  compute_datasum : payload -> string;
  compute_checksum : fits_header -> payload -> string;
  (** the time stamp written in the comments of the checksum cards *)
  checksum_when : string
}.

(** [hdu.add_checksum()]: DATASUM is written first, then CHECKSUM, computed
    over the HDU with the CHECKSUM card present and set to zeros. *)
Definition add_checksum `{Externals} (h : hdu) : hdu :=
  let hdr := header_set "DATASUM" (VStr (compute_datasum (hdata h)))
               ("data unit checksum updated " +:+ checksum_when) (hheader h) in
  let hdr := header_set "CHECKSUM" (VStr "0000000000000000")
               ("HDU checksum updated " +:+ checksum_when) hdr in
  let csum := compute_checksum hdr (hdata h) in
  HDU (hclass h) (header_setitem "CHECKSUM" (VStr csum) hdr) (hdata h).

(** [hdu.verify_checksum()] and [hdu.verify_datasum()] together: the stored
    sums are those of the HDU as it is now. *)
Definition checksum_valid `{Externals} (h : hdu) : Prop :=
  (exists c, cards (hheader h) !! "DATASUM"
             = Some (Card (VStr (compute_datasum (hdata h))) c)) /\
  (exists c, cards (hheader h) !! "CHECKSUM"
             = Some (Card (VStr (compute_checksum
                    (header_setitem "CHECKSUM" (VStr "0000000000000000") (hheader h))
                    (hdata h))) c)).

(** ** The program *)

(** [WG6_VER = 6.4] *)
Definition WG6_VER : float := 0x1.999999999999ap+2.

(** [get_ccd_number(image)] *)
Definition get_ccd_number (image : list hdu) : result (Z * string) :=
  primary <- getitem image 0 ;;
  comment <- comments_getitem "SPLYTEMP" (hheader primary) ;;
  ccd_name <- getitem (split_space comment) 0 ;;
  ccd_number <-
    (if decide (ccd_name = "BLUE") then Ok 1%Z
     else if decide (ccd_name = "GREEN") then Ok 2%Z
     else if decide (ccd_name = "RED") then Ok 3%Z
     else if decide (ccd_name = "IR") then Ok 4%Z
     else Raise KeyError) ;;
  Ok (ccd_number, ccd_name).

(** [verify_hermes_origin(image)] *)
Definition verify_hermes_origin (image : list hdu) : result unit :=
  primary <- getitem image 0 ;;
  origin <- header_getitem "ORIGIN" (hheader primary) ;;
  origin <- strip_method origin ;;
  if decide (origin = "AAO") then
    primary <- getitem image 0 ;;
    instrume <- header_getitem "INSTRUME" (hheader primary) ;;
    instrume <- strip_method instrume ;;
    if decide (instrume = "HERMES-2dF") then Ok tt else Raise AssertionError
  else Raise AssertionError.

Record extensions : Type := Extensions {
  ext_data : nat;
  ext_variance : nat;
  ext_fibres : nat
}.

(** [read_2dfdr_extensions(image)] *)
Definition read_2dfdr_extensions (image : list hdu) : result extensions :=
  extnames <- mapM_result str_strip
                (map (fun h => header_get "EXTNAME" (VStr EmptyString) (hheader h)) image) ;;
  variance <- list_index "VARIANCE" extnames ;;
  fibres <- list_index "FIBRES" extnames ;;
  Ok (Extensions 0 variance fibres).

Definition wavelength_keys : list string :=
  ["CRVAL1"; "CDELT1"; "CRPIX1"; "CTYPE1"; "CUNIT1"].

(** The loop that copies the wavelength axis of [source] into [h], values and
    comments (lines 71-73, 84-86 and 203-205). *)
Definition copy_wavelength_axis (source : fits_header) (h : hdu) : result hdu :=
  foldM (fun h key =>
           v <- header_getitem key source ;;
           let h := with_header (header_setitem key v) h in
           c <- comments_getitem key source ;;
           with_headerM (comments_setitem key c) h)
        h wavelength_keys.

(** [dummy_normalisation_hdus(hdulist)] *)
Definition dummy_normalisation_hdus `{Externals} (hdulist : option (list hdu))
  : result (list hdu) :=
  let hdu_normed_flux := ImageHDU None in
  hdu_normed_flux <-
    match hdulist with
    | Some l => first <- getitem l 0 ;;
                copy_wavelength_axis (hheader first) hdu_normed_flux
    | None => Ok hdu_normed_flux
    end ;;
  let hdu_normed_flux :=
    with_header (header_setitem "EXTNAME" (VStr "normalised_spectrum"))
      hdu_normed_flux in
  hdu_normed_flux <-
    with_headerM (comments_setitem "EXTNAME" "Normalised spectrum flux")
      hdu_normed_flux ;;
  let hdu_normed_flux := add_checksum hdu_normed_flux in
  let hdu_normed_sigma := ImageHDU None in
  hdu_normed_sigma <-
    match hdulist with
    | Some l => first <- getitem l 0 ;;
                copy_wavelength_axis (hheader first) hdu_normed_sigma
    | None => Ok hdu_normed_sigma
    end ;;
  let hdu_normed_sigma :=
    with_header (header_setitem "EXTNAME" (VStr "normalised_sigma"))
      hdu_normed_sigma in
  hdu_normed_sigma <-
    with_headerM (comments_setitem "EXTNAME" "Normalised flux sigma")
      hdu_normed_sigma ;;
  let hdu_normed_sigma := add_checksum hdu_normed_sigma in
  Ok [hdu_normed_flux; hdu_normed_sigma].

Definition default_headers : list (string * string) :=
  [("VRAD", "Radial velocity (km/s)");
   ("U_VRAD", "Uncertainty on radial velocity (km/s)");
   ("TEFF", "Effective temperature");
   ("LOGG", "Surface gravity");
   ("FE_H", "Metallicity ([Fe/H])");
   ("ALPHA_FE", "Alpha-enhancement ([alpha/Fe])")].

(** [dummy_ccf_hdu(hdulist)]; the argument is not used. *)
Definition dummy_ccf_hdu `{Externals} (hdulist : option (list hdu))
  : result hdu :=
  let hdu_ccf := ImageHDU None in
  let hdu_ccf := with_header (header_setitem "EXTNAME" (VStr "CCF")) hdu_ccf in
  hdu_ccf <- with_headerM
               (comments_setitem "EXTNAME" "CCF from best-fitting template")
               hdu_ccf ;;
  hdu_ccf <- foldM (fun h '(key, comment) =>
                      let h := with_header (header_setitem key (VStr "NaN")) h in
                      with_headerM (comments_setitem key comment) h)
                   hdu_ccf default_headers ;;
  Ok (add_checksum hdu_ccf).

(** An entry of [keywords]: a bare string, or a pair of a catalogue column
    and the header keyword it is stored under. *)
Inductive keyword : Type :=
  | Str (k : string)
  | Pair (from_keyword to_keyword : string).

Definition keywords : list keyword :=
  [Str "NAME"; Str "RA"; Str "DEC"; Str "PMRA"; Str "PMDEC";
   Pair "MAGNITUDE" "MAG"; Pair "COMMENT" "DESCR"].

(** [s == entry]: a string equals a bare string with the same characters and
    never equals a pair. *)
Definition str_eq_keyword (s : string) (entry : keyword) : bool :=
  match entry with
  | Str k => String.eqb s k
  | Pair _ _ => false
  end.

(** [s in entries] *)
Definition str_in (s : string) (entries : list keyword) : bool :=
  existsb (str_eq_keyword s) entries.

(** [keyword_comments], in the order of the dictionary display; each entry
    writes the comment of another card, so the order of the loop over it does
    not matter. *)
Definition keyword_comments : list (string * string) :=
  [("NAME", "Input source name");
   ("DESCR", "Input source comment");
   ("MAG", "Input source magnitude");
   ("RA", "Right Ascension (degrees)");
   ("DEC", "Declination (degrees)");
   ("PMRA", "Proper motion in RA (mas/yr)");
   ("PMDEC", "Proper motion in DEC (mas/yr)");
   ("FIBRE", "Fibre number")].

(** Lines 156-166 of [from_2dfdr]: the header shared by the objects of an
    exposure. *)
Definition build_header_template `{Externals} (image : list hdu) (ext : extensions)
  : result fits_header :=
  data_hdu <- getitem image (ext_data ext) ;;
  let header_template := hheader data_hdu in
  header_template <-
    foldM (fun h column => header_delitem column h) header_template
          ["CDELT2"; "CRPIX2"; "CRVAL2"; "CTYPE2"; "CUNIT2"] ;;
  ccd <- get_ccd_number image ;;
  let '(ccd_number, ccd_name) := ccd in
  let header_template := header_setitem "CCD" (VInt ccd_number) header_template in
  header_template <- comments_setitem "CCD" (ccd_name +:+ " camera") header_template ;;
  let header_template := header_setitem "WG6_VER" (VFloat WG6_VER) header_template in
  let header_template := header_setitem "WG6_HASH" (VStr WG6_GIT_HASH) header_template in
  header_template <-
    comments_setitem "WG6_VER" "WG6 standardisation code version" header_template ;;
  comments_setitem "WG6_HASH" "WG6 standardisation commit hash" header_template.

(** Lines 175-183: the catalogue fields of one fibre are copied into the
    header. *)
Definition add_fibre_information (fibres_hdu : hdu) (program_index : nat)
    (header : fits_header) : result fits_header :=
  let header := header_setitem "FIBRE" (VInt (Z.of_nat program_index + 1)) header in
  foldM (fun header entry =>
           match entry with
           | Str k =>
               v <- table_field fibres_hdu program_index k ;;
               Ok (header_setitem k v header)
           | Pair from_keyword to_keyword =>
               v <- table_field fibres_hdu program_index from_keyword ;;
               Ok (header_setitem to_keyword v header)
           end)
        header keywords.

(** Lines 185-188: right ascension and declination, radians to degrees. *)
Definition radians_to_degrees (header : fits_header) : result fits_header :=
  if str_in "RA" keywords && str_in "DEC" keywords then
    header <- header_imul "RA" (180 / np_pi) header ;;
    header_imul "DEC" (180 / np_pi) header
  else Ok header.

(** The factor of lines 220-221: [1. + (v_bary/speed_of_light).value]. *)
Definition doppler_factor (v_bary : quantity) : float :=
  1 + quotient_value (quantity_truediv v_bary speed_of_light).

(** Lines 219-221, for one HDU. *)
Definition motion_correction (v_bary : quantity) (h : hdu) : result hdu :=
  h <- with_headerM (header_imul "CRVAL1" (doppler_factor v_bary)) h ;;
  with_headerM (header_imul "CDELT1" (doppler_factor v_bary)) h.

(** Lines 173-192: the header of one program object, from the template and
    the catalogue. *)
Definition object_header (image : list hdu) (ext : extensions)
    (header_template : fits_header) (program_index : nat) : result fits_header :=
  let header := header_template in
  fibres_hdu <- getitem image (ext_fibres ext) ;;
  header <- add_fibre_information fibres_hdu program_index header ;;
  header <- radians_to_degrees header ;;
  foldM (fun h '(key, comment) => comments_setitem key comment h)
        header keyword_comments.

(** Lines 195-207: the flux HDU and the sigma HDU. *)
Definition input_hdus (flux variance : list float) (header : fits_header)
  : result (hdu * hdu) :=
  hdu_flux <- PrimaryHDU flux header ;;
  let hdu_flux :=
    with_header (header_setitem "EXTNAME" (VStr "input_spectrum")) hdu_flux in
  hdu_flux <- with_headerM (comments_setitem "EXTNAME" "Spectrum flux") hdu_flux ;;
  let hdu_sigma := ImageHDU (Some (map PrimFloat.sqrt variance)) in
  hdu_sigma <- copy_wavelength_axis (hheader hdu_flux) hdu_sigma ;;
  let hdu_sigma :=
    with_header (header_setitem "EXTNAME" (VStr "input_sigma")) hdu_sigma in
  hdu_sigma <- with_headerM (comments_setitem "EXTNAME" "Flux sigma") hdu_sigma ;;
  Ok (hdu_flux, hdu_sigma).

(** Lines 209-221: the velocities are asked for and stored, and the
    wavelength axis of both HDUs is rescaled. *)
Definition barycentric_correction `{Externals} (header : fits_header)
    (hdu_flux hdu_sigma : hdu) : result (hdu * hdu) :=
  velocities <- motions_from_header header ;;
  let '(v_bary, v_helio) := velocities in
  let hdu_flux :=
    with_header (header_setitem "V_BARY"
                   (VFloat (qvalue (quantity_to km_per_s v_bary)))) hdu_flux in
  let hdu_flux :=
    with_header (header_setitem "V_HELIO"
                   (VFloat (qvalue (quantity_to km_per_s v_helio)))) hdu_flux in
  hdu_flux <- with_headerM
                (comments_setitem "V_BARY" "Barycentric motion (km/s)") hdu_flux ;;
  hdu_flux <- with_headerM
                (comments_setitem "V_HELIO" "Heliocentric motion (km/s)") hdu_flux ;;
  let hdu_flux :=
    with_header (header_setitem "HISTORY"
                   (VStr "Corrected for barycentric motion (V_BARY)")) hdu_flux in
  hdu_flux <- motion_correction v_bary hdu_flux ;;
  hdu_sigma <- motion_correction v_bary hdu_sigma ;;
  Ok (hdu_flux, hdu_sigma).

(** Lines 223-230: the HDU list, its checksums and the placeholders. *)
Definition assemble `{Externals} (dummy_hdus : bool) (hdu_flux hdu_sigma : hdu)
  : result (list hdu) :=
  let hdulist := HDUList [hdu_flux; hdu_sigma] in
  let hdulist := map add_checksum hdulist in
  if dummy_hdus then
    normalisation <- dummy_normalisation_hdus (Some hdulist) ;;
    let hdulist := (hdulist ++ normalisation)%list in
    ccf <- dummy_ccf_hdu (Some hdulist) ;;
    Ok (hdulist_append hdulist ccf)
  else Ok hdulist.

(** The body of the loop of [from_2dfdr] (lines 171-232): the product of one
    program object. *)
Definition extract_source `{Externals} (image : list hdu) (ext : extensions)
    (header_template : fits_header) (dummy_hdus : bool) (program_index : nat)
  : result (list hdu) :=
  data_hdu <- getitem image (ext_data ext) ;;
  flux <- image_row data_hdu program_index ;;
  variance_hdu <- getitem image (ext_variance ext) ;;
  variance <- image_row variance_hdu program_index ;;
  header <- object_header image ext header_template program_index ;;
  hdus <- input_hdus flux variance header ;;
  hdus <- barycentric_correction header (fst hdus) (snd hdus) ;;
  assemble dummy_hdus (fst hdus) (snd hdus).

(** Line 169: the indices of the program fibres. *)
Definition program_indices (image : list hdu) (ext : extensions)
  : result (list nat) :=
  fibres_hdu <- getitem image (ext_fibres ext) ;;
  types <- table_column fibres_hdu "TYPE" ;;
  Ok (np_where_eq "P" types).

(** Lines 138-232 of [from_2dfdr]: all that happens between the opening and
    the closing of the exposure. *)
Definition extract_sources `{Externals} (image : list hdu) (dummy_hdus : bool)
  : result (list (list hdu)) :=
  ext <- read_2dfdr_extensions image ;;
  _ <- verify_hermes_origin image ;;
  header_template <- build_header_template image ext ;;
  indices <- program_indices image ext ;;
  mapM_result (extract_source image ext header_template dummy_hdus) indices.

(** The containers that are open: [fits.open] adds the name it opened and
    [image.close()] takes it away. *)
Definition world : Type := list string.

Fixpoint close (name : string) (w : world) : world :=
  match w with
  | [] => []
  | n :: w' => if decide (n = name) then w' else n :: close name w'
  end.

(** [from_2dfdr(reduced_filename, dummy_hdus)]: what is returned or raised,
    and the containers left open. *)
Definition from_2dfdr `{Externals} (reduced_filename : string) (dummy_hdus : bool)
    (w : world) : result (list (list hdu)) * world :=
  match fits_open reduced_filename with
  | Raise e => (Raise e, w)
  | Ok image =>
      let w := reduced_filename :: w in
      match extract_sources image dummy_hdus with
      | Raise e => (Raise e, w)
      | Ok extracted_sources => (Ok extracted_sources, close reduced_filename w)
      end
  end.

(** ** Reading a product *)

Definition card_of (k : string) (h : hdu) : option card :=
  cards (hheader h) !! k.

Definition value_at (k : string) (h : hdu) : option value :=
  cvalue <$> card_of k h.

Definition extname (h : hdu) : option value := value_at "EXTNAME" h.

(** [types[i] == "P"] *)
Definition is_program (v : value) : bool :=
  match v with
  | VStr s => String.eqb s "P"
  | _ => false
  end.

(** ** Vocabulary of the properties *)

(** The fibre catalogue of an exposure: the extension that
    [read_2dfdr_extensions] finds under the name FIBRES. *)
Definition fibre_table (image : list hdu) : result hdu :=
  ext <- read_2dfdr_extensions image ;;
  getitem image (ext_fibres ext).

(** The keys that lines 176-183 write into the header of an object. *)
Definition catalogue_keys : list string :=
  ["FIBRE"; "NAME"; "RA"; "DEC"; "PMRA"; "PMDEC"; "MAG"; "DESCR"].

(** The keys of the flux header that the loop body writes after the template
    is copied. *)
Definition object_keys : list string :=
  (catalogue_keys
   ++ ["EXTNAME"; "V_BARY"; "V_HELIO"; "CRVAL1"; "CDELT1"; "CHECKSUM"; "DATASUM"])%list.

(** The keywords that [header_strip] may drop. *)
Definition reserved (k : string) : bool :=
  bool_decide (k ∈ structural_keywords)
  || String.prefix "NAXIS" k
  || existsb (fun name => String.prefix name k) table_keywords.

(** The cards that the library writes in the header of an image extension
    that holds a spectrum. *)
Definition image_extension_keys : list string :=
  ["XTENSION"; "BITPIX"; "NAXIS"; "NAXIS1"; "PCOUNT"; "GCOUNT"].

Definition checksum_keys : list string := ["CHECKSUM"; "DATASUM"].

(** The keys of the sigma header before the checksums are added. *)
Definition sigma_keys : gset string :=
  list_to_set (image_extension_keys ++ wavelength_keys ++ ["EXTNAME"])%list.

(** [h'] is [h] with the card [key] multiplied by the Doppler factor of
    [v_bary], its comment kept. *)
Definition rescaled (v_bary : quantity) (key : string) (h h' : hdu) : Prop :=
  exists c v',
    cards (hheader h) !! key = Some c /\
    value_mul (cvalue c) (doppler_factor v_bary) = Ok v' /\
    cards (hheader h') !! key = Some (Card v' (ccomment c)).

Definition history_note : string * value :=
  ("HISTORY", VStr "Corrected for barycentric motion (V_BARY)").

(** The primary header of a list that [update_extend] has seen needs no
    further change. *)
Definition extend_settled (h : hdu) : Prop :=
  hclass h = PrimaryClass ->
  exists c, cards (hheader h) !! "EXTEND" = Some c /\ truthy (cvalue c) = true.

(** The Doppler factor in the words of the specification: [v_bary] is
    brought to the unit of the speed of light before it is divided by it. *)
Definition doppler_factor_spec (v_bary : quantity) : float :=
  1 + qvalue (quantity_to (qunit speed_of_light) v_bary) / qvalue speed_of_light.

(** The channel mapping in the words of the specification. *)
Definition ccd_of_channel (token : string) : option Z :=
  if decide (token = "BLUE") then Some 1%Z
  else if decide (token = "GREEN") then Some 2%Z
  else if decide (token = "RED") then Some 3%Z
  else if decide (token = "IR") then Some 4%Z
  else None.

(** The instrument identity of a primary HDU differs from the expected
    one. *)
Definition origin_mismatch (primary : hdu) : Prop :=
  (exists o, value_at "ORIGIN" primary = Some (VStr o) /\ strip o <> "AAO") \/
  (exists s, value_at "INSTRUME" primary = Some (VStr s) /\
             strip s <> "HERMES-2dF").

(** The product [p] of the fibre with index [i] carries the fibre number
    [i + 1]. *)
Definition fibre_numbered (i : nat) (p : list hdu) : Prop :=
  exists flux rest,
    p = flux :: rest /\
    extname flux = Some (VStr "input_spectrum") /\
    value_at "FIBRE" flux = Some (VInt (Z.of_nat i + 1)).

(** The coordinates in the flux header of [p] are those of row [i] of the
    catalogue, multiplied by [180./np.pi]. *)
Definition coordinates_in_degrees (fibres : hdu) (i : nat) (p : list hdu) : Prop :=
  exists flux rest ra dec ra' dec',
    p = flux :: rest /\
    extname flux = Some (VStr "input_spectrum") /\
    table_field fibres i "RA" = Ok ra /\
    table_field fibres i "DEC" = Ok dec /\
    value_mul ra (180 / np_pi) = Ok ra' /\
    value_mul dec (180 / np_pi) = Ok dec' /\
    value_at "RA" flux = Some ra' /\
    value_at "DEC" flux = Some dec' /\
    (forall x, ra = VFloat x -> value_at "RA" flux = Some (VFloat (x * (180 / np_pi)))) /\
    (forall x, dec = VFloat x -> value_at "DEC" flux = Some (VFloat (x * (180 / np_pi)))) /\
    (ra = VFloat np_pi -> value_at "RA" flux = Some (VFloat 180)).

(** The sigma extension of [p] has the wavelength axis of its flux
    extension, card for card. *)
Definition axis_shared (p : list hdu) : Prop :=
  exists flux sigma rest,
    p = flux :: sigma :: rest /\
    extname flux = Some (VStr "input_spectrum") /\
    extname sigma = Some (VStr "input_sigma") /\
    forall key, key ∈ wavelength_keys ->
      is_Some (card_of key flux) /\ card_of key sigma = card_of key flux.

(** The names of the extensions of a product, in order. *)
Definition extension_names (dummy_hdus : bool) : list string :=
  if dummy_hdus
  then ["input_spectrum"; "input_sigma"; "normalised_spectrum";
        "normalised_sigma"; "CCF"]
  else ["input_spectrum"; "input_sigma"].

(** The keys of the flux header that the sigma header must not have. *)
Definition flux_only_keys : list string :=
  (["V_BARY"; "V_HELIO"] ++ catalogue_keys)%list.

(** What the sigma header of [p] holds and what it leaves to the flux
    header. *)
Definition sigma_header_frame (p : list hdu) : Prop :=
  exists flux sigma rest,
    p = flux :: sigma :: rest /\
    extname flux = Some (VStr "input_spectrum") /\
    extname sigma = Some (VStr "input_sigma") /\
    (forall K, is_Some (card_of K sigma) <->
               K ∈ (image_extension_keys ++ wavelength_keys
                    ++ ["EXTNAME"] ++ checksum_keys)%list) /\
    commentary (hheader sigma) = [] /\
    (forall K, K ∈ flux_only_keys ->
               card_of K sigma = None /\ is_Some (card_of K flux)) /\
    history_note ∈ commentary (hheader flux).

(** ** A small exposure

    Three fibres (program, sky, program) of four samples each, as 2dfdr
    writes them: the primary image, the VARIANCE image and the FIBRES
    table. *)

Definition sample_primary_header : fits_header :=
  Header
    (list_to_map
       [("SIMPLE", Card (VBool true) EmptyString);
        ("BITPIX", Card (VInt (-64)) EmptyString);
        ("NAXIS", Card (VInt 2) EmptyString);
        ("NAXIS1", Card (VInt 4) EmptyString);
        ("NAXIS2", Card (VInt 3) EmptyString);
        ("ORIGIN", Card (VStr "AAO     ") "Originating Institution");
        ("INSTRUME", Card (VStr "HERMES-2dF") "Instrument in use");
        ("SPLYTEMP", Card (VStr "T") "GREEN spectrograph template");
        ("CRVAL1", Card (VFloat 5000) "Co-ordinate value of axis 1");
        ("CDELT1", Card (VFloat 0.5) "Co-ordinate increment along axis 1");
        ("CRPIX1", Card (VFloat 2) "Reference pixel along axis 1");
        ("CTYPE1", Card (VStr "Wavelength") "Label for axis 1");
        ("CUNIT1", Card (VStr "Angstroms") "Units for axis 1");
        ("CRVAL2", Card (VFloat 0) "Co-ordinate value of axis 2");
        ("CDELT2", Card (VFloat 1) "Co-ordinate increment along axis 2");
        ("CRPIX2", Card (VFloat 1) "Reference pixel along axis 2");
        ("CTYPE2", Card (VStr "Fibre Number") "Label for axis 2");
        ("CUNIT2", Card (VStr EmptyString) "Units for axis 2")])
    [("HISTORY", VStr "Reduced by 2dfdr")].

Definition sample_fibres : payload :=
  Table
    (list_to_map
       [("TYPE", [VStr "P"; VStr "S"; VStr "P"]);
        ("NAME", [VStr "star_a"; VStr "sky"; VStr "star_b"]);
        ("RA", [VFloat np_pi; VFloat 1; VFloat 2]);
        ("DEC", [VFloat (-1); VFloat 0.5; VFloat 0.25]);
        ("PMRA", [VFloat 0; VFloat 0; VFloat 3]);
        ("PMDEC", [VFloat 0; VFloat 0; VFloat (-2)]);
        ("MAGNITUDE", [VFloat 12.5; VFloat 0; VFloat 13]);
        ("COMMENT", [VStr "target"; VStr EmptyString; VStr "target"])]).

Definition sample_data_hdu (header : fits_header) : hdu :=
  HDU PrimaryClass header (Image [[1; 2; 3; 4]; [0; 0; 0; 0]; [5; 6; 7; 8]]%float).

Definition sample_variance_hdu : hdu :=
  HDU ImageClass
      (header_setitem "EXTNAME" (VStr "VARIANCE") (hheader (ImageHDU None)))
      (Image [[4; 4; 9; 16]; [1; 1; 1; 1]; [0.25; 1; 4; 9]]%float).

Definition sample_fibres_hdu : hdu :=
  HDU TableClass
      (header_setitem "EXTNAME" (VStr "FIBRES  ") (hheader (ImageHDU None)))
      sample_fibres.

Definition sample_image : list hdu :=
  [sample_data_hdu sample_primary_header; sample_variance_hdu; sample_fibres_hdu].

(** The same exposure, taken with another instrument. *)
Definition foreign_image : list hdu :=
  [sample_data_hdu (header_setitem "INSTRUME" (VStr "2dF") sample_primary_header);
   sample_variance_hdu; sample_fibres_hdu].

(** An exposure of another instrument that has no VARIANCE extension. *)
Definition foreign_image_without_variance : list hdu :=
  [sample_data_hdu (header_setitem "INSTRUME" (VStr "2dF") sample_primary_header);
   sample_fibres_hdu].

(** The velocities of the sample runs, in km/s. *)
Definition sample_v_bary : quantity := Quantity 30 km_per_s.
Definition sample_v_helio : quantity := Quantity 29.5 km_per_s.

(** A run in which the motion service answers in km/s. *)
Definition sample_externals (image : list hdu) : Externals := {|
  fits_open name := if decide (name = "combined.fits") then Ok image
                    else Raise IOError;
  motions_from_header _ := Ok (sample_v_bary, sample_v_helio);
  WG6_GIT_HASH := "a1b2c3d";
  compute_datasum data :=
    match data with
    | Spectrum samples => decimal (length samples)
    | _ => "0"
    end;
  compute_checksum hdr data := decimal (size (cards hdr));
  checksum_when := "2015-02-01T00:00:00"
|}.

Definition sample_run (dummy : bool) :=
  @from_2dfdr (sample_externals sample_image) "combined.fits" dummy [].

(** A run in which the motion service fails. *)
Definition failing_motion_externals (image : list hdu) : Externals := {|
  fits_open := @fits_open (sample_externals image);
  motions_from_header _ := Raise ValueError;
  WG6_GIT_HASH := @WG6_GIT_HASH (sample_externals image);
  compute_datasum := @compute_datasum (sample_externals image);
  compute_checksum := @compute_checksum (sample_externals image);
  checksum_when := @checksum_when (sample_externals image)
|}.

(** ** Further vocabulary *)

(** The name of an extension as [read_2dfdr_extensions] compares it. *)
Definition stripped_extname (h : hdu) : result string :=
  str_strip (header_get "EXTNAME" (VStr EmptyString) (hheader h)).

(** A string of the characters that [strip] removes. *)
Fixpoint all_space (s : string) : bool :=
  match s with
  | EmptyString => true
  | String a s' => is_space a && all_space s'
  end.

(** The keys of the fibre axis, which line 157 deletes from the template. *)
Definition second_axis_keys : list string :=
  ["CDELT2"; "CRPIX2"; "CRVAL2"; "CTYPE2"; "CUNIT2"].



(** The entries of [keywords] whose value is stored as it is read: the
    column, the header keyword and the comment of [keyword_comments]. *)
Definition copied_fields : list (string * string * string) :=
  [("NAME", "NAME", "Input source name");
   ("PMRA", "PMRA", "Proper motion in RA (mas/yr)");
   ("PMDEC", "PMDEC", "Proper motion in DEC (mas/yr)");
   ("MAGNITUDE", "MAG", "Input source magnitude");
   ("COMMENT", "DESCR", "Input source comment")].

(** The cards that the library writes in the header of an image extension
    that holds no data. *)
Definition empty_extension_keys : list string :=
  ["XTENSION"; "BITPIX"; "NAXIS"; "PCOUNT"; "GCOUNT"].


(** The three placeholders of [p]: the two normalised ones have the
    wavelength axis of the flux extension of [p], card for card, and the CCF
    has none of it and holds its six default cards. *)
Definition placeholders_of (p : list hdu) : Prop :=
  exists flux sigma n1 n2 ccf,
    p = [flux; sigma; n1; n2; ccf] /\
    (forall key, key ∈ wavelength_keys ->
       is_Some (card_of key flux) /\
       card_of key n1 = card_of key flux /\
       card_of key n2 = card_of key flux /\
       card_of key ccf = None) /\
    Forall (fun '(key, comment) =>
              card_of key ccf = Some (Card (VStr "NaN") comment))
           default_headers.

(** The flux header of [p] carries the stamps of the template and none of
    the cards of the fibre axis. *)
Definition template_stamped `{Externals} (p : list hdu) : Prop :=
  exists flux rest,
    p = flux :: rest /\
    card_of "WG6_VER" flux
      = Some (Card (VFloat WG6_VER) "WG6 standardisation code version") /\
    card_of "WG6_HASH" flux
      = Some (Card (VStr WG6_GIT_HASH) "WG6 standardisation commit hash") /\
    forall K, K ∈ second_axis_keys -> card_of K flux = None.


(** The flux header of the product [p] of the fibre with index [i] has the
    fields of row [i] of the catalogue under their keywords, with the
    comments of [keyword_comments]. *)
Definition catalogue_copied (fibres : hdu) (i : nat) (p : list hdu) : Prop :=
  exists flux rest,
    p = flux :: rest /\
    Forall (fun '(column, key, comment) =>
              exists v, table_field fibres i column = Ok v /\
                        card_of key flux = Some (Card v comment))
           copied_fields /\
    card_of "FIBRE" flux = Some (Card (VInt (Z.of_nat i + 1)) "Fibre number") /\
    ccomment <$> card_of "RA" flux = Some "Right Ascension (degrees)" /\
    ccomment <$> card_of "DEC" flux = Some "Declination (degrees)".

(** The velocities in the flux header of [p] are those that the motion
    service returns for the header [hdr], in km/s. *)
Definition velocities_stored `{Externals} (hdr : fits_header) (p : list hdu)
  : Prop :=
  exists flux rest v_bary v_helio,
    p = flux :: rest /\
    motions_from_header hdr = Ok (v_bary, v_helio) /\
    value_at "RA" flux = cvalue <$> cards hdr !! "RA" /\
    value_at "DEC" flux = cvalue <$> cards hdr !! "DEC" /\
    card_of "V_BARY" flux
      = Some (Card (VFloat (qvalue v_bary * (unit_scale (qunit v_bary) / 1000)))
                   "Barycentric motion (km/s)") /\
    card_of "V_HELIO" flux
      = Some (Card (VFloat (qvalue v_helio * (unit_scale (qunit v_helio) / 1000)))
                   "Heliocentric motion (km/s)").



(** ** Further exposures *)

(** An exposure without the FIBRES extension. *)
Definition image_without_fibres : list hdu :=
  [sample_data_hdu sample_primary_header; sample_variance_hdu].

(** An exposure whose catalogue has sky fibres only. *)
Definition sky_fibres_hdu : hdu :=
  HDU TableClass
      (header_setitem "EXTNAME" (VStr "FIBRES") (hheader (ImageHDU None)))
      (Table (list_to_map
         [("TYPE", [VStr "S"; VStr "S"; VStr "N"]);
          ("NAME", [VStr "sky"; VStr "sky"; VStr "PARKED"])])).

Definition sky_image : list hdu :=
  [sample_data_hdu sample_primary_header; sample_variance_hdu; sky_fibres_hdu].

(** An exposure whose flux image has fewer rows than its catalogue. *)
Definition short_data_hdu : hdu :=
  HDU PrimaryClass sample_primary_header
      (Image [[1; 2; 3; 4]; [0; 0; 0; 0]]%float).

Definition short_image : list hdu :=
  [short_data_hdu; sample_variance_hdu; sample_fibres_hdu].






(** * Properties *)

(** ** Results *)

Lemma bind_Ok {A B : Type} (m : result A) (k : A -> result B) (b : B) :
  bind m k = Ok b -> exists a, m = Ok a /\ k a = Ok b.
Proof. destruct m; simpl; [eauto | discriminate]. Qed.

Lemma Ok_inj {A : Type} (a b : A) : Ok a = Ok b -> a = b.
Proof. by intros [= ->]. Qed.

(** Inversion of a successful computation into its successful steps. *)
Ltac inv_result :=
  repeat match goal with
  | H : bind _ _ = Ok _ |- _ =>
      let a := fresh "a" in
      let E := fresh "E" in
      apply bind_Ok in H as (a & E & H)
  | H : Ok _ = Ok _ |- _ => apply Ok_inj in H
  | H : (_, _) = (_, _) |- _ => apply pair_equal_spec in H as [? ?]
  | H : Raise _ = Ok _ |- _ => discriminate H
  | H : (let '(_, _) := ?p in _) = Ok _ |- _ => destruct p
  end.

Lemma mapM_result_Forall2 {A B : Type} (f : A -> result B) (l : list A)
    (bs : list B) :
  mapM_result f l = Ok bs -> Forall2 (fun a b => f a = Ok b) l bs.
Proof.
  revert bs. induction l as [|a l IH]; simpl; intros bs Hm; inv_result.
  - subst. constructor.
  - subst. constructor; auto.
Qed.

Lemma Forall2_right {A B : Type} (R : A -> B -> Prop) (Q : B -> Prop)
    (l : list A) (k : list B) :
  Forall2 R l k -> (forall x y, R x y -> Q y) -> Forall Q k.
Proof. induction 1; intros HQ; constructor; eauto. Qed.

Lemma with_headerM_Ok (g : fits_header -> result fits_header) (h h' : hdu) :
  with_headerM g h = Ok h' ->
  exists hd, g (hheader h) = Ok hd /\ h' = HDU (hclass h) hd (hdata h).
Proof. unfold with_headerM. intros Hm. inv_result. subst. eauto. Qed.

(** ** Headers *)

Section header_facts.
  Implicit Types (h : fits_header) (k K : string) (v : value).

Lemma header_setitem_lookup_ne k v h K :
    K <> k -> cards (header_setitem k v h) !! K = cards h !! K.
  Proof.
    intros Hne. unfold header_setitem.
    destruct (is_commentary k); simpl; [done|].
    by rewrite lookup_insert_ne.
  Qed.

Lemma header_setitem_commentary k v h :
    is_commentary k = false ->
    commentary (header_setitem k v h) = commentary h.
  Proof. intros Hc. unfold header_setitem. by rewrite Hc. Qed.

Lemma header_setitem_cards k v h :
    is_commentary k = false ->
    cards (header_setitem k v h)
    = <[k := Card v (default EmptyString (ccomment <$> cards h !! k))]> (cards h).
  Proof.
    intros Hc. unfold header_setitem. rewrite Hc. simpl.
    by destruct (cards h !! k).
  Qed.

Lemma header_setitem_inv k v h :
    is_commentary k = false ->
    exists c, header_setitem k v h
              = Header (<[k := Card v c]> (cards h)) (commentary h).
  Proof. intros Hc. unfold header_setitem. rewrite Hc. by eexists. Qed.

Lemma header_setitem_value k v h :
    is_commentary k = false ->
    cvalue <$> cards (header_setitem k v h) !! k = Some v.
  Proof.
    intros Hc. destruct (header_setitem_inv k v h Hc) as [c ->]. simpl.
    by rewrite lookup_insert_eq.
  Qed.

Lemma header_setitem_is_Some k v h K :
    is_Some (cards h !! K) -> is_Some (cards (header_setitem k v h) !! K).
  Proof.
    intros HK. unfold header_setitem. destruct (is_commentary k); simpl; [done|].
    destruct (decide (k = K)) as [->|Hne].
    - rewrite lookup_insert_eq. eauto.
    - by rewrite lookup_insert_ne.
  Qed.

Lemma header_set_lookup_ne k v c h K :
    K <> k -> cards (header_set k v c h) !! K = cards h !! K.
  Proof. intros Hne. unfold header_set. simpl. by rewrite lookup_insert_ne. Qed.

Lemma header_set_lookup_eq k v c h :
    cards (header_set k v c h) !! k = Some (Card v c).
  Proof. unfold header_set. simpl. by rewrite lookup_insert_eq. Qed.

Lemma header_set_commentary k v c h :
    commentary (header_set k v c h) = commentary h.
  Proof. done. Qed.

Lemma header_set_cards k v c h :
    cards (header_set k v c h) = <[k := Card v c]> (cards h).
  Proof. done. Qed.

Lemma header_setitem_history v h :
    header_setitem "HISTORY" v h
    = Header (cards h) (commentary h ++ [("HISTORY", v)])%list.
  Proof. reflexivity. Qed.

Lemma comments_setitem_Ok k c h h' :
    comments_setitem k c h = Ok h' ->
    exists old, cards h !! k = Some old /\
                h' = Header (<[k := Card (cvalue old) c]> (cards h)) (commentary h).
  Proof.
    unfold comments_setitem. destruct (cards h !! k) as [old|]; [|done].
    intros [= <-]. eauto.
  Qed.

Lemma header_imul_Ok k x h h' :
    is_commentary k = false ->
    header_imul k x h = Ok h' ->
    exists old v',
      cards h !! k = Some old /\ value_mul (cvalue old) x = Ok v' /\
      h' = Header (<[k := Card v' (ccomment old)]> (cards h)) (commentary h).
  Proof.
    intros Hc. unfold header_imul, header_getitem, header_setitem.
    rewrite Hc. destruct (cards h !! k) as [old|]; simpl; [|done].
    intros Hm. inv_result. subst. eauto.
  Qed.

Lemma header_delitem_Ok k h h' :
    header_delitem k h = Ok h' ->
    is_Some (cards h !! k) /\
    h' = Header (delete k (cards h)) (commentary h).
  Proof.
    unfold header_delitem. destruct (cards h !! k); [|done].
    intros [= <-]. eauto.
  Qed.

Lemma comments_setitem_lookup_ne k c h h' K :
    comments_setitem k c h = Ok h' -> K <> k -> cards h' !! K = cards h !! K.
  Proof.
    intros (old & _ & ->)%comments_setitem_Ok Hne. simpl.
    by rewrite lookup_insert_ne.
  Qed.

Lemma comments_setitem_value k c h h' K :
    comments_setitem k c h = Ok h' ->
    cvalue <$> cards h' !! K = cvalue <$> cards h !! K.
  Proof.
    intros (old & Hold & ->)%comments_setitem_Ok. simpl.
    destruct (decide (k = K)) as [<-|Hne].
    - by rewrite lookup_insert_eq, Hold.
    - by rewrite lookup_insert_ne.
  Qed.

Lemma comments_setitem_comment k c h h' :
    comments_setitem k c h = Ok h' -> ccomment <$> cards h' !! k = Some c.
  Proof.
    intros (old & Hold & ->)%comments_setitem_Ok. simpl.
    by rewrite lookup_insert_eq.
  Qed.

Lemma comments_setitem_card k c v h h' :
    comments_setitem k c h = Ok h' ->
    cvalue <$> cards h !! k = Some v ->
    cards h' !! k = Some (Card v c).
  Proof.
    intros (old & Hold & ->)%comments_setitem_Ok. simpl.
    rewrite lookup_insert_eq, Hold. simpl. congruence.
  Qed.

Lemma comments_setitem_commentary k c h h' :
    comments_setitem k c h = Ok h' -> commentary h' = commentary h.
  Proof. by intros (old & Hold & ->)%comments_setitem_Ok. Qed.

Lemma header_imul_lookup_ne k x h h' K :
    header_imul k x h = Ok h' -> K <> k -> cards h' !! K = cards h !! K.
  Proof.
    unfold header_imul. intros Hm Hne. inv_result. subst.
    by apply header_setitem_lookup_ne.
  Qed.

Lemma header_imul_commentary k x h h' :
    is_commentary k = false ->
    header_imul k x h = Ok h' -> commentary h' = commentary h.
  Proof. by intros Hc (old & v' & _ & _ & ->)%header_imul_Ok. Qed.

Lemma header_imul_card k x h h' :
    is_commentary k = false ->
    header_imul k x h = Ok h' ->
    exists old v',
      cards h !! k = Some old /\ value_mul (cvalue old) x = Ok v' /\
      cards h' !! k = Some (Card v' (ccomment old)).
  Proof.
    intros Hc (old & v' & Hold & Hv & ->)%header_imul_Ok; [|done]. simpl.
    exists old, v'. by rewrite lookup_insert_eq.
  Qed.

Lemma header_imul_is_Some k x h h' K :
    header_imul k x h = Ok h' ->
    is_Some (cards h !! K) -> is_Some (cards h' !! K).
  Proof.
    unfold header_imul. intros Hm HK. inv_result. subst.
    by apply header_setitem_is_Some.
  Qed.
End header_facts.

(** The loop that writes the comments of the catalogue fields changes no
    value. *)
Lemma set_comments_Ok (l : list (string * string)) (h h' : fits_header) :
  foldM (fun h '(key, comment) => comments_setitem key comment h) h l = Ok h' ->
  (forall K, cvalue <$> cards h' !! K = cvalue <$> cards h !! K) /\
  (forall K, K ∉ l.*1 -> cards h' !! K = cards h !! K) /\
  commentary h' = commentary h.
Proof.
  revert h. induction l as [|[k c] l IH]; simpl; intros h Hm; inv_result.
  - by subst.
  - destruct (IH _ Hm) as (Hv & Hf & Hc). split_and!.
    + intros K. rewrite Hv. by eapply comments_setitem_value.
    + intros K [Hne HK]%not_elem_of_cons. rewrite Hf by done.
      by eapply comments_setitem_lookup_ne.
    + rewrite Hc. by eapply comments_setitem_commentary.
Qed.

Ltac key_ne :=
  solve [ discriminate | assumption | apply not_eq_sym; assumption ].

Ltac inv_Some :=
  repeat match goal with
  | H : Some _ = Some _ |- _ => injection H as H; try subst
  end.

(** A closed key is not in a closed list of keys. *)
Ltac solve_notin :=
  repeat (apply not_elem_of_cons; split; [key_ne|]); apply not_elem_of_nil.

(** One goal for each element of a closed list. *)
Ltac cases_elem H :=
  repeat (apply elem_of_cons in H as [->|H]); [..| by apply elem_of_nil in H].

Ltac split_notin H :=
  repeat (apply not_elem_of_cons in H as [? H]).

(** Lookup of a key through a stack of [header_setitem]. *)
Ltac through_setitem :=
  repeat first
    [ rewrite header_setitem_value by reflexivity
    | rewrite header_setitem_lookup_ne by key_ne
    | rewrite header_set_lookup_ne by key_ne ].




(** A run that is known to succeed by evaluation did not raise. *)
Ltac run_succeeded Hrun :=
  exfalso;
  match type of Hrun with
  | ?run = (Raise _, _) =>
      let Hok := fresh "Hok" in
      assert (succeeded (fst run) = true) as Hok by (vm_compute; reflexivity);
      rewrite Hrun in Hok; discriminate Hok
  end.


(** ** The header of one object *)

Lemma add_fibre_information_Ok fibres i h h' :
  add_fibre_information fibres i h = Ok h' ->
  exists ra dec,
    table_field fibres i "RA" = Ok ra /\
    table_field fibres i "DEC" = Ok dec /\
    cvalue <$> cards h' !! "RA" = Some ra /\
    cvalue <$> cards h' !! "DEC" = Some dec /\
    cvalue <$> cards h' !! "FIBRE" = Some (VInt (Z.of_nat i + 1)) /\
    (forall K, K ∈ catalogue_keys -> is_Some (cards h' !! K)) /\
    (forall K, K ∉ catalogue_keys -> cards h' !! K = cards h !! K) /\
    commentary h' = commentary h.
Proof.
  unfold add_fibre_information. simpl foldM. intros Hm. inv_result. subst.
  eexists _, _. split_and!; try eassumption.
  - by through_setitem.
  - by through_setitem.
  - by through_setitem.
  - intros K HK. unfold catalogue_keys in HK.
    apply (fmap_is_Some cvalue).
    repeat (apply elem_of_cons in HK as [-> | HK]);
      try (through_setitem; by eauto).
    by apply elem_of_nil in HK.
  - intros K HK. unfold catalogue_keys in HK. split_notin HK.
    by through_setitem.
  - by rewrite !header_setitem_commentary.
Qed.

Lemma radians_to_degrees_Ok h h' :
  radians_to_degrees h = Ok h' ->
  exists ra dec ra' dec',
    cvalue <$> cards h !! "RA" = Some ra /\
    cvalue <$> cards h !! "DEC" = Some dec /\
    value_mul ra (180 / np_pi) = Ok ra' /\
    value_mul dec (180 / np_pi) = Ok dec' /\
    cvalue <$> cards h' !! "RA" = Some ra' /\
    cvalue <$> cards h' !! "DEC" = Some dec' /\
    (forall K, K <> "RA" -> K <> "DEC" -> cards h' !! K = cards h !! K) /\
    (forall K, is_Some (cards h !! K) -> is_Some (cards h' !! K)) /\
    commentary h' = commentary h.
Proof.
  unfold radians_to_degrees. simpl andb. cbv iota. intros Hm. inv_result.
  destruct (header_imul_card "RA" _ _ _ eq_refl E) as (ra & ra' & Hra & Hra' & Ha).
  destruct (header_imul_card "DEC" _ _ _ eq_refl Hm) as (dec & dec' & Hdec & Hdec' & Hh').
  rewrite (header_imul_lookup_ne _ _ _ _ "DEC" E) in Hdec by done.
  exists (cvalue ra), (cvalue dec), ra', dec'. split_and!; try done.
  - by rewrite Hra.
  - by rewrite Hdec.
  - by rewrite (header_imul_lookup_ne _ _ _ _ "RA" Hm), Ha.
  - by rewrite Hh'.
  - intros K H1 H2.
    by rewrite (header_imul_lookup_ne _ _ _ _ K Hm), (header_imul_lookup_ne _ _ _ _ K E).
  - intros K HK. eapply header_imul_is_Some; [done|].
    by eapply header_imul_is_Some.
  - rewrite (header_imul_commentary "DEC" _ _ _ eq_refl Hm).
    by rewrite (header_imul_commentary "RA" _ _ _ eq_refl E).
Qed.

Lemma object_header_Ok image ext tmpl i hdr :
  object_header image ext tmpl i = Ok hdr ->
  exists fibres ra dec ra' dec',
    getitem image (ext_fibres ext) = Ok fibres /\
    table_field fibres i "RA" = Ok ra /\
    table_field fibres i "DEC" = Ok dec /\
    value_mul ra (180 / np_pi) = Ok ra' /\
    value_mul dec (180 / np_pi) = Ok dec' /\
    cvalue <$> cards hdr !! "RA" = Some ra' /\
    cvalue <$> cards hdr !! "DEC" = Some dec' /\
    cvalue <$> cards hdr !! "FIBRE" = Some (VInt (Z.of_nat i + 1)) /\
    (forall K, K ∈ catalogue_keys -> is_Some (cards hdr !! K)) /\
    (forall K, K ∉ catalogue_keys -> cards hdr !! K = cards tmpl !! K) /\
    commentary hdr = commentary tmpl.
Proof.
  unfold object_header. intros Hm. inv_result.
  apply add_fibre_information_Ok in E0
    as (ra & dec & Tra & Tdec & Hra & Hdec & Hfib & Hin & Hout & Hc).
  apply radians_to_degrees_Ok in E1
    as (ra0 & dec0 & ra' & dec' & Hra0 & Hdec0 & Mra & Mdec & Hra' & Hdec'
        & Hout' & Hin' & Hc').
  apply set_comments_Ok in Hm as (Hv & Hf & Hc'').
  rewrite Hra in Hra0. rewrite Hdec in Hdec0. inv_Some.
  exists a, ra0, dec0, ra', dec'. split_and!; try done.
  - by rewrite Hv.
  - by rewrite Hv.
  - rewrite Hv. rewrite Hout' by done. done.
  - intros K HK. apply (fmap_is_Some cvalue). rewrite Hv.
    apply fmap_is_Some. auto.
  - intros K HK. rewrite Hf.
    + unfold catalogue_keys in HK. split_notin HK.
      rewrite Hout' by done. apply Hout. unfold catalogue_keys.
      repeat (apply not_elem_of_cons; split; [done|]). apply not_elem_of_nil.
    + unfold catalogue_keys in HK. split_notin HK. simpl.
      repeat (apply not_elem_of_cons; split; [done|]). apply not_elem_of_nil.
  - by rewrite Hc'', Hc', Hc.
Qed.


(** ** The HDUs that the library builds *)

Lemma prefix_append (name s : string) : String.prefix name (name +:+ s) = true.
Proof.
  induction name as [|a name IH]; simpl; [by destruct s|].
  by destruct (ascii_dec a a).
Qed.

Lemma remove_all_lookup (ks : list string) (h : fits_header) (K : string) :
  K ∉ ks -> cards (foldl (flip header_remove) h ks) !! K = cards h !! K.
Proof.
  revert h. induction ks as [|k ks IH]; intros h HK; simpl; [done|].
  apply not_elem_of_cons in HK as [Hne HK].
  rewrite IH by done. simpl. by rewrite lookup_delete_ne.
Qed.

Lemma remove_all_commentary (ks : list string) (h : fits_header) :
  commentary (foldl (flip header_remove) h ks) = commentary h.
Proof. revert h. induction ks as [|k ks IH]; intros h; simpl; [done|]. by rewrite IH. Qed.

Lemma numbered_prefix (name : string) (n : nat) (K : string) :
  K ∈ numbered name n -> String.prefix name K = true.
Proof.
  unfold numbered. intros (idx & -> & _)%list_elem_of_fmap. apply prefix_append.
Qed.

Lemma remove_table_keywords_lookup (names : list string) (n : nat)
    (h : fits_header) (K : string) :
  existsb (fun name => String.prefix name K) names = false ->
  cards (foldl (fun h name => foldl (flip header_remove) h (numbered name n)) h names)
    !! K = cards h !! K.
Proof.
  revert h. induction names as [|name names IH]; intros h HK; simpl in *; [done|].
  apply orb_false_elim in HK as [Hname HK]. rewrite IH by done.
  apply remove_all_lookup. intros Hin%numbered_prefix. congruence.
Qed.

Lemma remove_table_keywords_commentary (names : list string) (n : nat)
    (h : fits_header) :
  commentary (foldl (fun h name => foldl (flip header_remove) h (numbered name n)) h names)
  = commentary h.
Proof.
  revert h. induction names as [|name names IH]; intros h; simpl; [done|].
  by rewrite IH, remove_all_commentary.
Qed.

Lemma header_strip_Ok (h h' : fits_header) :
  header_strip h = Ok h' ->
  commentary h' = commentary h /\
  forall K, reserved K = false -> cards h' !! K = cards h !! K.
Proof.
  unfold header_strip. intros Hm. inv_result. subst. split.
  - by rewrite remove_all_commentary, remove_table_keywords_commentary,
      remove_all_commentary.
  - intros K HK. unfold reserved in HK.
    apply orb_false_elim in HK as [HK Htab].
    apply orb_false_elim in HK as [Hstruct Hnaxis].
    apply bool_decide_eq_false in Hstruct.
    rewrite remove_all_lookup by done.
    rewrite remove_table_keywords_lookup by done.
    apply remove_all_lookup. intros Hin%numbered_prefix. congruence.
Qed.

(** A key that is not reserved differs from each key the library writes. *)
Ltac not_reserved H :=
  let E := fresh in intros E; rewrite E in H; discriminate H.

Lemma PrimaryHDU_Ok (data : list float) (h : fits_header) (u : hdu) :
  PrimaryHDU data h = Ok u ->
  hclass u = PrimaryClass /\ hdata u = Spectrum data /\
  commentary (hheader u) = commentary h /\
  forall K, reserved K = false -> cards (hheader u) !! K = cards h !! K.
Proof.
  unfold PrimaryHDU. intros Hm. inv_result. subst.
  apply header_strip_Ok in E as [Hc Hf]. unfold update_header.
  cbn [hclass hdata hheader]. split_and!; try done.
  intros K HK.
  rewrite !header_setitem_lookup_ne by not_reserved HK.
  rewrite !header_set_lookup_ne by not_reserved HK. auto.
Qed.

Lemma ImageHDU_dom_data (samples : list float) :
  dom (cards (hheader (ImageHDU (Some samples))))
  = list_to_set ["XTENSION"; "BITPIX"; "NAXIS"; "NAXIS1"; "PCOUNT"; "GCOUNT"].
Proof.
  unfold ImageHDU, update_header. cbn [hclass hdata hheader].
  rewrite !header_setitem_cards by reflexivity.
  rewrite !dom_insert_L, !header_set_cards, !dom_insert_L.
  unfold empty_header. cbn [cards]. rewrite dom_empty_L. set_solver.
Qed.

Lemma ImageHDU_commentary (data : option (list float)) :
  commentary (hheader (ImageHDU data)) = [].
Proof. by destruct data. Qed.


(** ** The copy of the wavelength axis *)

Section copy_axis.
  Variable source : fits_header.

  (** One turn of the loop of [copy_wavelength_axis]. *)
Let copy_card (h : hdu) (key : string) : result hdu :=
    v <- header_getitem key source ;;
    let h := with_header (header_setitem key v) h in
    c <- comments_getitem key source ;;
    with_headerM (comments_setitem key c) h.

Lemma copy_card_Ok (h h' : hdu) (key : string) :
    is_commentary key = false ->
    copy_card h key = Ok h' ->
    exists c, cards source !! key = Some c /\
      h' = HDU (hclass h)
               (Header (<[key := c]> (cards (hheader h))) (commentary (hheader h)))
               (hdata h).
  Proof.
    intros Hk. unfold copy_card, header_getitem, comments_getitem, with_headerM,
      with_header.
    destruct (cards source !! key) as [[v c]|]; [|done].
    cbn [bind hheader hclass hdata cvalue ccomment]. intros Hm. inv_result.
    apply comments_setitem_Ok in E as (old & Hold & ->). subst.
    exists (Card v c). split; [done|]. f_equal.
    destruct (header_setitem_inv key v (hheader h) Hk) as [c' Hc'].
    rewrite Hc' in *. cbn [cards commentary] in *.
    rewrite lookup_insert_eq in Hold. inv_Some. cbn [cvalue].
    by rewrite insert_insert_eq.
  Qed.

Lemma copy_cards_Ok (l : list string) (h h' : hdu) :
    Forall (fun key => is_commentary key = false) l ->
    foldM copy_card h l = Ok h' ->
    hclass h' = hclass h /\ hdata h' = hdata h /\
    commentary (hheader h') = commentary (hheader h) /\
    (forall key, key ∈ l ->
       is_Some (cards source !! key) /\
       cards (hheader h') !! key = cards source !! key) /\
    (forall K, K ∉ l -> cards (hheader h') !! K = cards (hheader h) !! K) /\
    dom (cards (hheader h')) = dom (cards (hheader h)) ∪ list_to_set l.
  Proof.
    intros Hl. revert h. induction Hl as [|key l Hkey Hl IH]; intros h Hm.
    - cbn [foldM] in Hm. inv_result. subst. split_and!; try done.
      + by intros key ?%elem_of_nil.
      + set_solver.
    - cbn [foldM] in Hm. inv_result.
      apply copy_card_Ok in E as (c & Hc & ->); [|done].
      destruct (IH _ Hm) as (Hcl & Hd & Hcm & Hin & Hout & Hdom).
      cbn [hclass hdata hheader cards commentary] in *. split_and!; try done.
      + intros K [->|HK]%elem_of_cons; [|auto].
        split; [by eauto|].
        destruct (decide (key ∈ l)) as [Hi|Hn]; [by apply Hin|].
        by rewrite Hout, lookup_insert_eq.
      + intros K [Hne HK]%not_elem_of_cons.
        by rewrite Hout, lookup_insert_ne.
      + rewrite Hdom, dom_insert_L. set_solver.
  Qed.
End copy_axis.

Lemma copy_wavelength_axis_Ok (source : fits_header) (h h' : hdu) :
  copy_wavelength_axis source h = Ok h' ->
  hclass h' = hclass h /\ hdata h' = hdata h /\
  commentary (hheader h') = commentary (hheader h) /\
  (forall key, key ∈ wavelength_keys ->
     is_Some (cards source !! key) /\
     cards (hheader h') !! key = cards source !! key) /\
  (forall K, K ∉ wavelength_keys -> cards (hheader h') !! K = cards (hheader h) !! K) /\
  dom (cards (hheader h')) = dom (cards (hheader h)) ∪ list_to_set wavelength_keys.
Proof.
  unfold copy_wavelength_axis. apply copy_cards_Ok.
  unfold wavelength_keys. by repeat constructor.
Qed.

(** Setting the name of an extension and its comment. *)
Lemma set_extname_Ok (name : string) (comment : string) (h h' : hdu) :
  with_headerM (comments_setitem "EXTNAME" comment)
    (with_header (header_setitem "EXTNAME" (VStr name)) h) = Ok h' ->
  hclass h' = hclass h /\ hdata h' = hdata h /\
  commentary (hheader h') = commentary (hheader h) /\
  cards (hheader h') !! "EXTNAME" = Some (Card (VStr name) comment) /\
  (forall K, K <> "EXTNAME" -> cards (hheader h') !! K = cards (hheader h) !! K) /\
  dom (cards (hheader h')) = dom (cards (hheader h)) ∪ {["EXTNAME"]}.
Proof.
  unfold with_headerM, with_header. cbn [hclass hdata hheader]. intros Hm.
  inv_result. subst. cbn [hclass hdata hheader].
  apply comments_setitem_Ok in E as (old & Hold & ->).
  destruct (header_setitem_inv "EXTNAME" (VStr name) (hheader h) eq_refl) as [c' Hc'].
  rewrite Hc' in *. cbn [cards commentary] in *.
  rewrite lookup_insert_eq in Hold. inv_Some. cbn [cvalue].
  split_and!; try done.
  - by rewrite lookup_insert_eq.
  - intros K HK. by rewrite !lookup_insert_ne.
  - rewrite !dom_insert_L. set_solver.
Qed.

Lemma input_hdus_Ok (flux variance : list float) (hdr : fits_header)
    (hdu_flux hdu_sigma : hdu) :
  input_hdus flux variance hdr = Ok (hdu_flux, hdu_sigma) ->
  (hclass hdu_flux = PrimaryClass /\
   hdata hdu_flux = Spectrum flux /\
   commentary (hheader hdu_flux) = commentary hdr /\
   cards (hheader hdu_flux) !! "EXTNAME"
     = Some (Card (VStr "input_spectrum") "Spectrum flux") /\
   (forall K, reserved K = false -> K <> "EXTNAME" ->
      cards (hheader hdu_flux) !! K = cards hdr !! K)) /\
  (hclass hdu_sigma = ImageClass /\
   hdata hdu_sigma = Spectrum (map PrimFloat.sqrt variance) /\
   commentary (hheader hdu_sigma) = [] /\
   cards (hheader hdu_sigma) !! "EXTNAME"
     = Some (Card (VStr "input_sigma") "Flux sigma") /\
   (forall key, key ∈ wavelength_keys ->
      is_Some (cards (hheader hdu_flux) !! key) /\
      cards (hheader hdu_sigma) !! key = cards (hheader hdu_flux) !! key) /\
   dom (cards (hheader hdu_sigma)) = sigma_keys).
Proof.
  unfold input_hdus. intros Hm. inv_result. subst.
  apply PrimaryHDU_Ok in E as (Fc & Fd & Fcm & Ff).
  apply set_extname_Ok in E0 as (Fc' & Fd' & Fcm' & Fn & Ff' & _).
  apply copy_wavelength_axis_Ok in E1 as (Sc & Sd & Scm & Sin & Sout & Sdom).
  apply set_extname_Ok in E2 as (Sc' & Sd' & Scm' & Sn & Sf' & Sdom').
  split; split_and!.
  - congruence.
  - congruence.
  - congruence.
  - done.
  - intros K HK Hne. rewrite Ff' by done. auto.
  - by rewrite Sc', Sc.
  - by rewrite Sd', Sd.
  - rewrite Scm', Scm. apply ImageHDU_commentary.
  - done.
  - intros key Hkey. destruct (Sin key Hkey) as [Hs Heq]. split; [done|].
    rewrite Sf'; [done|]. intros ->. unfold wavelength_keys in Hkey.
    set_solver.
  - rewrite Sdom', Sdom, ImageHDU_dom_data.
    unfold sigma_keys, image_extension_keys, wavelength_keys.
    set_solver.
Qed.


(** ** The barycentric correction *)

Lemma imul_hdu_Ok (key : string) (x : float) (h h' : hdu) :
  is_commentary key = false ->
  with_headerM (header_imul key x) h = Ok h' ->
  hclass h' = hclass h /\ hdata h' = hdata h /\
  commentary (hheader h') = commentary (hheader h) /\
  (exists c v',
     cards (hheader h) !! key = Some c /\ value_mul (cvalue c) x = Ok v' /\
     cards (hheader h') !! key = Some (Card v' (ccomment c))) /\
  (forall K, K <> key -> cards (hheader h') !! K = cards (hheader h) !! K) /\
  dom (cards (hheader h')) = dom (cards (hheader h)).
Proof.
  intros Hk. unfold with_headerM. intros Hm. inv_result. subst.
  cbn [hclass hdata hheader].
  apply header_imul_Ok in E as (old & v' & Hold & Hv & ->); [|done].
  cbn [cards commentary]. split_and!.
  - done.
  - done.
  - done.
  - exists old, v'. by rewrite lookup_insert_eq.
  - intros K HK. by rewrite lookup_insert_ne.
  - apply dom_insert_lookup_L. eauto.
Qed.

Lemma motion_correction_Ok (v_bary : quantity) (h h' : hdu) :
  motion_correction v_bary h = Ok h' ->
  hclass h' = hclass h /\ hdata h' = hdata h /\
  commentary (hheader h') = commentary (hheader h) /\
  rescaled v_bary "CRVAL1" h h' /\ rescaled v_bary "CDELT1" h h' /\
  (forall K, K <> "CRVAL1" -> K <> "CDELT1" ->
     cards (hheader h') !! K = cards (hheader h) !! K) /\
  dom (cards (hheader h')) = dom (cards (hheader h)).
Proof.
  unfold motion_correction. intros Hm. inv_result.
  apply (imul_hdu_Ok "CRVAL1") in E
    as (Ac & Ad & Acm & (c1 & v1 & Hc1 & Hv1 & Ha1) & Af & Adom); [|done].
  apply (imul_hdu_Ok "CDELT1") in Hm
    as (Bc & Bd & Bcm & (c2 & v2 & Hc2 & Hv2 & Hb2) & Bf & Bdom); [|done].
  split_and!.
  - congruence.
  - congruence.
  - congruence.
  - exists c1, v1. split_and!; [done..|]. by rewrite Bf.
  - exists c2, v2. split_and!; [|done..]. by rewrite <- Af.
  - intros K H1 H2. by rewrite Bf, Af.
  - congruence.
Qed.

Section correction.
  Context `{Externals}.

Lemma barycentric_correction_Ok (hdr : fits_header) (f s f' s' : hdu) :
    barycentric_correction hdr f s = Ok (f', s') ->
    exists v_bary v_helio,
      motions_from_header hdr = Ok (v_bary, v_helio) /\
      (hclass f' = hclass f /\ hdata f' = hdata f /\
       commentary (hheader f') = (commentary (hheader f) ++ [history_note])%list /\
       cards (hheader f') !! "V_BARY"
         = Some (Card (VFloat (qvalue (quantity_to km_per_s v_bary)))
                      "Barycentric motion (km/s)") /\
       cards (hheader f') !! "V_HELIO"
         = Some (Card (VFloat (qvalue (quantity_to km_per_s v_helio)))
                      "Heliocentric motion (km/s)") /\
       rescaled v_bary "CRVAL1" f f' /\ rescaled v_bary "CDELT1" f f' /\
       (forall K, K ∉ ["V_BARY"; "V_HELIO"; "CRVAL1"; "CDELT1"] ->
          cards (hheader f') !! K = cards (hheader f) !! K)) /\
      (hclass s' = hclass s /\ hdata s' = hdata s /\
       commentary (hheader s') = commentary (hheader s) /\
       rescaled v_bary "CRVAL1" s s' /\ rescaled v_bary "CDELT1" s s' /\
       (forall K, K <> "CRVAL1" -> K <> "CDELT1" ->
          cards (hheader s') !! K = cards (hheader s) !! K) /\
       dom (cards (hheader s')) = dom (cards (hheader s))).
  Proof.
    unfold barycentric_correction. intros Hm.
    apply bind_Ok in Hm as ([v_bary v_helio] & Hmot & Hm).
    apply bind_Ok in Hm as (f1 & E0 & Hm).
    apply bind_Ok in Hm as (f2 & E1 & Hm).
    apply bind_Ok in Hm as (f3 & E2 & Hm).
    apply bind_Ok in Hm as (s3 & E3 & Hm).
    apply Ok_inj, pair_equal_spec in Hm as [-> ->].
    exists v_bary, v_helio.
    apply motion_correction_Ok in E2 as (Fc & Fd & Fcm & F1 & F2 & Ff & _).
    apply motion_correction_Ok in E3 as (Sc & Sd & Scm & S1 & S2 & Sf & Sdom).
    apply with_headerM_Ok in E0 as (a1 & E0 & ->).
    apply with_headerM_Ok in E1 as (a2 & E1 & ->).
    unfold rescaled in *. unfold with_header in *.
    cbn [hheader hclass hdata] in *.
    pose proof (comments_setitem_comment _ _ _ _ E1) as Chelio.
    pose proof (comments_setitem_comment _ _ _ _ E0) as Cbary.
    pose proof (comments_setitem_value _ _ _ _ "V_HELIO" E1) as Vhelio.
    pose proof (comments_setitem_value _ _ _ _ "V_BARY" E0) as Vbary.
    pose proof (comments_setitem_lookup_ne _ _ _ _ "V_BARY" E1 ltac:(done)) as Kbary.
    rewrite (comments_setitem_value _ _ _ _ "V_HELIO" E0) in Vhelio.
    rewrite header_setitem_value in Vhelio by done.
    rewrite header_setitem_lookup_ne, header_setitem_value in Vbary by done.
    rewrite header_setitem_history in Fcm, F1, F2, Ff. cbn [cards commentary] in *.
    split; [done|]. split; split_and!.
    - done.
    - done.
    - rewrite Fcm. f_equal.
      rewrite (comments_setitem_commentary _ _ _ _ E1).
      rewrite (comments_setitem_commentary _ _ _ _ E0).
      by rewrite !header_setitem_commentary.
    - rewrite Ff, Kbary by done. clear -Cbary Vbary.
      destruct (cards a1 !! "V_BARY") as [[v c]|]; simpl in *; congruence.
    - rewrite Ff by done. clear -Chelio Vhelio.
      destruct (cards a2 !! "V_HELIO") as [[v c]|]; simpl in *; congruence.
    - destruct F1 as (c & v' & Hc & Hv & Hf'). exists c, v'. split_and!; [|done..].
      rewrite <- Hc.
      rewrite (comments_setitem_lookup_ne _ _ _ _ "CRVAL1" E1) by done.
      rewrite (comments_setitem_lookup_ne _ _ _ _ "CRVAL1" E0) by done.
      by rewrite !header_setitem_lookup_ne.
    - destruct F2 as (c & v' & Hc & Hv & Hf'). exists c, v'. split_and!; [|done..].
      rewrite <- Hc.
      rewrite (comments_setitem_lookup_ne _ _ _ _ "CDELT1" E1) by done.
      rewrite (comments_setitem_lookup_ne _ _ _ _ "CDELT1" E0) by done.
      by rewrite !header_setitem_lookup_ne.
    - intros K HK. split_notin HK. rewrite Ff by done.
      rewrite (comments_setitem_lookup_ne _ _ _ _ K E1) by done.
      rewrite (comments_setitem_lookup_ne _ _ _ _ K E0) by done.
      by rewrite !header_setitem_lookup_ne.
    - done.
    - done.
    - done.
    - done.
    - done.
    - done.
    - done.
  Qed.
End correction.


(** ** Checksums and assembly *)

Section assembly.
  Context `{Externals}.

Lemma add_checksum_frame (h : hdu) :
    hclass (add_checksum h) = hclass h /\
    hdata (add_checksum h) = hdata h /\
    commentary (hheader (add_checksum h)) = commentary (hheader h) /\
    (forall K, K <> "CHECKSUM" -> K <> "DATASUM" ->
       cards (hheader (add_checksum h)) !! K = cards (hheader h) !! K) /\
    dom (cards (hheader (add_checksum h)))
      = dom (cards (hheader h)) ∪ {["CHECKSUM"; "DATASUM"]}.
  Proof.
    unfold add_checksum. cbn [hclass hdata hheader]. split_and!.
    - done.
    - done.
    - by rewrite header_setitem_commentary.
    - intros K H1 H2.
      by rewrite header_setitem_lookup_ne, !header_set_lookup_ne.
    - rewrite header_setitem_cards by done.
      rewrite dom_insert_L, !header_set_cards, !dom_insert_L. set_solver.
  Qed.

Lemma add_checksum_valid (h : hdu) : checksum_valid (add_checksum h).
  Proof.
    unfold checksum_valid, add_checksum. cbn [hclass hdata hheader].
    set (hdr1 := header_set "DATASUM" _ _ _).
    set (hdr2 := header_set "CHECKSUM" _ _ hdr1).
    split.
    - eexists. rewrite header_setitem_lookup_ne by done.
      unfold hdr2. rewrite header_set_lookup_ne by done.
      unfold hdr1. apply header_set_lookup_eq.
    - assert (header_setitem "CHECKSUM" (VStr "0000000000000000")
                (header_setitem "CHECKSUM" (VStr (compute_checksum hdr2 (hdata h))) hdr2)
              = hdr2) as ->.
      { unfold header_setitem. cbn [is_commentary existsb String.eqb Ascii.eqb
          Bool.eqb orb cards commentary].
        rewrite lookup_insert_eq. cbn [ccomment].
        unfold hdr2 at 1 3 4 5. unfold header_set. cbn [cards commentary].
        rewrite lookup_insert_eq. cbn [ccomment].
        by rewrite !insert_insert_eq. }
      destruct (header_setitem_inv "CHECKSUM"
                  (VStr (compute_checksum hdr2 (hdata h))) hdr2 eq_refl) as [c ->].
      cbn [cards]. rewrite lookup_insert_eq. eauto.
  Qed.

Lemma update_extend_settled (primary : hdu) (rest : list hdu) :
    extend_settled primary -> update_extend (primary :: rest) = primary :: rest.
  Proof.
    intros Hs. destruct rest as [|e rest]; [done|].
    unfold extend_settled in Hs. unfold update_extend.
    destruct primary as [cl hdr data].
    cbn [hclass hheader hdata] in *. destruct cl; try done.
    destruct (Hs eq_refl) as (c & -> & ->). done.
  Qed.

Lemma HDUList_pair (f s : hdu) :
    exists f', HDUList [f; s] = [f'; s] /\
      hclass f' = hclass f /\ hdata f' = hdata f /\
      commentary (hheader f') = commentary (hheader f) /\
      (forall K, K <> "EXTEND" -> cards (hheader f') !! K = cards (hheader f) !! K) /\
      extend_settled f'.
  Proof.
    unfold HDUList, update_extend. destruct f as [cl hdr data].
    cbn [hclass hheader hdata].
    destruct cl; try (eexists; split; [done|]; by split_and!).
    eexists; split; [done|]. cbn [hclass hheader hdata].
    destruct (cards hdr !! "EXTEND") as [c|] eqn:Hc.
    - destruct (truthy (cvalue c)) eqn:Ht.
      + split_and!; try done. intros _. eauto.
      + split_and!; try done.
        * intros K HK. by rewrite header_setitem_lookup_ne.
        * intros _. destruct (header_setitem_inv "EXTEND" (VBool true) hdr eq_refl)
            as [c' ->]. cbn [cards hheader]. rewrite lookup_insert_eq. eauto.
    - split_and!; try done.
      + intros K HK. by rewrite header_set_lookup_ne.
      + intros _. cbn [hheader]. rewrite header_set_lookup_eq. eauto.
  Qed.

Lemma add_checksum_settled (h : hdu) :
    extend_settled h -> extend_settled (add_checksum h).
  Proof.
    destruct (add_checksum_frame h) as (Hc & _ & _ & Hf & _).
    unfold extend_settled. rewrite Hc, Hf by done. auto.
  Qed.

Lemma dummy_normalisation_hdus_Ok (hdulist : option (list hdu)) (ns : list hdu) :
    dummy_normalisation_hdus hdulist = Ok ns ->
    exists n1 n2, ns = [n1; n2] /\
      extname n1 = Some (VStr "normalised_spectrum") /\
      extname n2 = Some (VStr "normalised_sigma") /\
      checksum_valid n1 /\ checksum_valid n2.
  Proof.
    unfold dummy_normalisation_hdus. intros Hm.
    apply bind_Ok in Hm as (a1 & _ & Hm).
    apply bind_Ok in Hm as (b1 & E1 & Hm).
    apply bind_Ok in Hm as (a2 & _ & Hm).
    apply bind_Ok in Hm as (b2 & E2 & Hm).
    apply Ok_inj in Hm as <-.
    apply set_extname_Ok in E1 as (_ & _ & _ & N1 & _).
    apply set_extname_Ok in E2 as (_ & _ & _ & N2 & _).
    eexists _, _. split; [done|]. unfold extname, value_at, card_of.
    destruct (add_checksum_frame b1) as (_ & _ & _ & F1 & _).
    destruct (add_checksum_frame b2) as (_ & _ & _ & F2 & _).
    rewrite F1, F2, N1, N2 by done.
    split_and!; try done; apply add_checksum_valid.
  Qed.

Lemma dummy_ccf_hdu_Ok (hdulist : option (list hdu)) (ccf : hdu) :
    dummy_ccf_hdu hdulist = Ok ccf ->
    extname ccf = Some (VStr "CCF") /\ checksum_valid ccf.
  Proof.
    unfold dummy_ccf_hdu. intros Hm.
    apply bind_Ok in Hm as (a & E & Hm).
    apply bind_Ok in Hm as (b & Hloop & Hm).
    apply Ok_inj in Hm as <-.
    apply set_extname_Ok in E as (_ & _ & _ & N & _).
    split; [|apply add_checksum_valid].
    unfold extname, value_at, card_of.
    destruct (add_checksum_frame b) as (_ & _ & _ & F & _).
    rewrite F by done.
    assert (forall l h h',
      foldM (fun h '(key, comment) =>
               let h := with_header (header_setitem key (VStr "NaN")) h in
               with_headerM (comments_setitem key comment) h) h l = Ok h' ->
      "EXTNAME" ∉ l.*1 ->
      cards (hheader h') !! "EXTNAME" = cards (hheader h) !! "EXTNAME") as Hgen.
    { clear. induction l as [|[k c] l IH]; intros h h' Hm Hk.
      - cbn [foldM] in Hm. by apply Ok_inj in Hm as ->.
      - cbn [foldM] in Hm. apply bind_Ok in Hm as (h1 & E & Hm).
        cbn [fmap list_fmap fst] in Hk. apply not_elem_of_cons in Hk as [Hne Hk].
        rewrite (IH _ _ Hm Hk).
        apply with_headerM_Ok in E as (hd & E & ->). cbn [hheader].
        rewrite (comments_setitem_lookup_ne _ _ _ _ "EXTNAME" E) by done.
        unfold with_header. cbn [hheader].
        by rewrite header_setitem_lookup_ne. }
    rewrite (Hgen _ _ _ Hloop), N; [done|].
    unfold default_headers. cbn [fmap list_fmap fst].
    repeat (apply not_elem_of_cons; split; [done|]). apply not_elem_of_nil.
  Qed.

Lemma assemble_Ok (dummy_hdus : bool) (f s : hdu) (p : list hdu) :
    assemble dummy_hdus f s = Ok p ->
    exists flux sigma placeholders,
      p = flux :: sigma :: placeholders /\
      (hclass flux = hclass f /\ hdata flux = hdata f /\
       commentary (hheader flux) = commentary (hheader f) /\
       (forall K, K ∉ ["EXTEND"; "CHECKSUM"; "DATASUM"] ->
          cards (hheader flux) !! K = cards (hheader f) !! K)) /\
      (hclass sigma = hclass s /\ hdata sigma = hdata s /\
       commentary (hheader sigma) = commentary (hheader s) /\
       (forall K, K <> "CHECKSUM" -> K <> "DATASUM" ->
          cards (hheader sigma) !! K = cards (hheader s) !! K) /\
       dom (cards (hheader sigma))
         = dom (cards (hheader s)) ∪ {["CHECKSUM"; "DATASUM"]}) /\
      Forall checksum_valid p /\
      extname <$> placeholders
        = (if dummy_hdus
           then [Some (VStr "normalised_spectrum"); Some (VStr "normalised_sigma");
                 Some (VStr "CCF")]
           else []).
  Proof.
    unfold assemble.
    destruct (HDUList_pair f s) as (f' & -> & Fc & Fd & Fcm & Ff & Fs).
    cbn [map].
    destruct (add_checksum_frame f') as (Gc & Gd & Gcm & Gf & _).
    destruct (add_checksum_frame s) as (Sc & Sd & Scm & Sf & Sdom).
    assert (forall K, K ∉ ["EXTEND"; "CHECKSUM"; "DATASUM"] ->
              cards (hheader (add_checksum f')) !! K = cards (hheader f) !! K) as Hfr.
    { intros K HK. split_notin HK. by rewrite Gf, Ff. }
    destruct dummy_hdus; intros Hm.
    - apply bind_Ok in Hm as (ns & Hn & Hm).
      apply bind_Ok in Hm as (ccf & Hccf & Hm).
      apply Ok_inj in Hm as <-.
      apply dummy_normalisation_hdus_Ok in Hn as (n1 & n2 & -> & N1 & N2 & V1 & V2).
      apply dummy_ccf_hdu_Ok in Hccf as (Nc & Vc).
      unfold hdulist_append. cbn [app].
      rewrite update_extend_settled by by apply add_checksum_settled.
      eexists _, _, _. split; [done|]. split_and!; try congruence; try done.
      + repeat (apply Forall_cons; split; [first [done | apply add_checksum_valid]|]).
        apply Forall_nil_2.
      + cbn [fmap list_fmap]. by rewrite N1, N2, Nc.
    - apply Ok_inj in Hm as <-.
      eexists _, _, _. split; [done|]. split_and!; try congruence; try done.
      repeat (apply Forall_cons; split; [apply add_checksum_valid|]).
      apply Forall_nil_2.
  Qed.
End assembly.


(** ** The product of one program object *)

Section product.
  Context `{Externals}.

Lemma extract_source_Ok (image : list hdu) (ext : extensions)
      (tmpl : fits_header) (dummy_hdus : bool) (i : nat) (p : list hdu) :
    extract_source image ext tmpl dummy_hdus i = Ok p ->
    exists fibres ra dec ra' dec' v_bary v_helio hdr flux sigma placeholders,
      p = flux :: sigma :: placeholders /\
      (getitem image (ext_fibres ext) = Ok fibres /\
       table_field fibres i "RA" = Ok ra /\
       table_field fibres i "DEC" = Ok dec /\
       value_mul ra (180 / np_pi) = Ok ra' /\
       value_mul dec (180 / np_pi) = Ok dec' /\
       object_header image ext tmpl i = Ok hdr /\
       motions_from_header hdr = Ok (v_bary, v_helio)) /\
      (value_at "RA" flux = Some ra' /\
       value_at "DEC" flux = Some dec' /\
       value_at "FIBRE" flux = Some (VInt (Z.of_nat i + 1)) /\
       card_of "V_BARY" flux
         = Some (Card (VFloat (qvalue (quantity_to km_per_s v_bary)))
                      "Barycentric motion (km/s)") /\
       card_of "V_HELIO" flux
         = Some (Card (VFloat (qvalue (quantity_to km_per_s v_helio)))
                      "Heliocentric motion (km/s)") /\
       extname flux = Some (VStr "input_spectrum") /\
       commentary (hheader flux) = (commentary tmpl ++ [history_note])%list /\
       (forall K, K ∈ catalogue_keys -> is_Some (card_of K flux)) /\
       (forall K, reserved K = false -> K ∉ object_keys ->
          card_of K flux = cards tmpl !! K)) /\
      (forall key, key ∈ ["CRVAL1"; "CDELT1"] ->
         exists c v',
           cards tmpl !! key = Some c /\
           value_mul (cvalue c) (doppler_factor v_bary) = Ok v' /\
           card_of key flux = Some (Card v' (ccomment c)) /\
           card_of key sigma = Some (Card v' (ccomment c))) /\
      (extname sigma = Some (VStr "input_sigma") /\
       commentary (hheader sigma) = [] /\
       dom (cards (hheader sigma)) = sigma_keys ∪ {["CHECKSUM"; "DATASUM"]} /\
       (forall key, key ∈ wavelength_keys ->
          is_Some (card_of key flux) /\ card_of key sigma = card_of key flux)) /\
      Forall checksum_valid p /\
      extname <$> placeholders
        = (if dummy_hdus
           then [Some (VStr "normalised_spectrum"); Some (VStr "normalised_sigma");
                 Some (VStr "CCF")]
           else []).
  Proof.
    unfold extract_source. intros Hm.
    apply bind_Ok in Hm as (data_hdu & _ & Hm).
    apply bind_Ok in Hm as (flux_row & _ & Hm).
    apply bind_Ok in Hm as (variance_hdu & _ & Hm).
    apply bind_Ok in Hm as (variance & _ & Hm).
    apply bind_Ok in Hm as (hdr & Hhdr & Hm).
    apply bind_Ok in Hm as ([f0 s0] & Hin & Hm).
    apply bind_Ok in Hm as ([f1 s1] & Hcor & Hm).
    cbn [fst snd] in *.
    pose proof Hhdr as Hhdr'.
    apply object_header_Ok in Hhdr
      as (fibres & ra & dec & ra' & dec' & Hfib & Tra & Tdec & Mra & Mdec
          & Ara & Adec & Afibre & Ain & Aout & Acm).
    apply input_hdus_Ok in Hin
      as ((B1c & B1d & B1cm & B1n & B1f) & (B2c & B2d & B2cm & B2n & B2w & B2dom)).
    apply barycentric_correction_Ok in Hcor
      as (v_bary & v_helio & Hmot
          & (C1c & C1d & C1cm & C1b & C1h & C1v & C1d' & C1f)
          & (C2c & C2d & C2cm & C2v & C2d' & C2f & C2dom)).
    apply assemble_Ok in Hm
      as (flux & sigma & placeholders & -> & (D1c & D1d & D1cm & D1f)
          & (D2c & D2d & D2cm & D2f & D2dom) & Hvalid & Hnames).
    (* the cards of the final flux HDU, from those of the object header *)
    assert (forall K, reserved K = false ->
              K ∉ ["EXTNAME"; "V_BARY"; "V_HELIO"; "CRVAL1"; "CDELT1";
                   "CHECKSUM"; "DATASUM"] ->
              card_of K flux = cards hdr !! K) as Hflux.
    { intros K Hres HK. split_notin HK. unfold card_of.
      rewrite D1f.
      - rewrite C1f.
        + by apply B1f.
        + solve_notin.
      - repeat (apply not_elem_of_cons; split;
                [first [key_ne | by not_reserved Hres]|]).
        apply not_elem_of_nil. }
    assert (forall K, K ∉ ["EXTEND"; "CHECKSUM"; "DATASUM"] ->
              K ∈ ["V_BARY"; "V_HELIO"; "CRVAL1"; "CDELT1"] ->
              card_of K flux = cards (hheader f1) !! K) as Hflux1.
    { intros K HK _. unfold card_of. by apply D1f. }
    assert (forall key, key ∈ ["CRVAL1"; "CDELT1"] ->
              rescaled v_bary key f0 f1 /\ rescaled v_bary key s0 s1 /\
              cards (hheader f0) !! key = cards tmpl !! key /\
              cards (hheader s0) !! key = cards (hheader f0) !! key /\
              card_of key flux = cards (hheader f1) !! key /\
              card_of key sigma = cards (hheader s1) !! key) as Hresc.
    { intros key Hkey.
      assert (key ∈ wavelength_keys) as Hw by (unfold wavelength_keys; set_solver).
      assert ((rescaled v_bary key f0 f1) /\ (rescaled v_bary key s0 s1))
        as [R1 R2] by (cases_elem Hkey; done).
      split; [done|]. split; [done|].
      assert (reserved key = false /\ (key ∉ catalogue_keys) /\ key <> "EXTNAME"
              /\ key <> "CHECKSUM" /\ key <> "DATASUM" /\ key <> "EXTEND")
        as (Hr & Hc & Hn & Hk1 & Hk2 & Hk3).
      { cases_elem Hkey; (split_and!; [done| |done..]); unfold catalogue_keys;
          solve_notin. }
      split_and!.
      - rewrite B1f, Aout by done. done.
      - by apply B2w.
      - unfold card_of. apply D1f.
        solve_notin.
      - unfold card_of. by apply D2f. }
    exists fibres, ra, dec, ra', dec', v_bary, v_helio, hdr, flux, sigma, placeholders.
    split; [done|]. split; [by split_and!|]. split; [split_and!|split_and!].
    - unfold value_at. rewrite Hflux; [done|done|].
      solve_notin.
    - unfold value_at. rewrite Hflux; [done|done|].
      solve_notin.
    - unfold value_at. rewrite Hflux; [done|done|].
      solve_notin.
    - rewrite Hflux1; [done| |set_solver].
      solve_notin.
    - rewrite Hflux1; [done| |set_solver].
      solve_notin.
    - unfold extname, value_at, card_of. rewrite D1f, C1f, B1n; [done| |].
      + solve_notin.
      + solve_notin.
    - by rewrite D1cm, C1cm, B1cm, Acm.
    - intros K HK. rewrite Hflux; [by apply Ain| |].
      + unfold catalogue_keys in HK. cases_elem HK; done.
      + unfold catalogue_keys in HK. cases_elem HK; solve_notin.
    - intros K Hres HK. unfold object_keys in HK.
      apply not_elem_of_app in HK as [HK1 HK2].
      rewrite Hflux by done. by apply Aout.
    - intros key Hkey.
      destruct (Hresc key Hkey) as (R1 & R2 & E1 & E2 & E3 & E4).
      destruct R1 as (c & v' & Hc & Hv & Hf1).
      destruct R2 as (c2 & v2 & Hc2 & Hv2 & Hs1).
      assert (c2 = c) as -> by congruence.
      assert (v2 = v') as -> by congruence.
      exists c, v'. split_and!; congruence.
    - unfold extname, value_at, card_of. by rewrite D2f, C2f, B2n.
    - by rewrite D2cm, C2cm.
    - by rewrite D2dom, C2dom, B2dom.
    - intros key Hkey.
      destruct (decide (key ∈ ["CRVAL1"; "CDELT1"])) as [Hk|Hk].
      + destruct (Hresc key Hk) as (R1 & R2 & E1 & E2 & E3 & E4).
        destruct R1 as (c & v' & Hc & Hv & Hf1).
        destruct R2 as (c2 & v2 & Hc2 & Hv2 & Hs1).
        assert (c2 = c) as -> by congruence.
        assert (v2 = v') as -> by congruence.
        rewrite E3, E4, Hf1, Hs1. eauto.
      + split_notin Hk. destruct (B2w key Hkey) as [Hs Heq].
        assert ((reserved key = false) /\ key <> "CHECKSUM" /\ key <> "DATASUM"
                /\ (key ∉ ["EXTEND"; "CHECKSUM"; "DATASUM"])
                /\ (key ∉ ["V_BARY"; "V_HELIO"; "CRVAL1"; "CDELT1"]))
          as (Hr & Hk1 & Hk2 & Hk3 & Hk4).
        { unfold wavelength_keys in Hkey.
          cases_elem Hkey; try done; (split_and!; [done..| |]); solve_notin. }
        unfold card_of. rewrite D1f, C1f, D2f, C2f by done.
        by rewrite Heq.
    - done.
    - done.
  Qed.
End product.


(** ** The run as a whole *)

Lemma where_from_spec (x : string) (column : list value) (n i : nat) :
  i ∈ where_from n x column <->
  exists j, i = n + j /\ column !! j = Some (VStr x).
Proof.
  revert n. induction column as [|v column IH]; intros n; cbn [where_from].
  - split; [by intros ?%elem_of_nil | by intros (j & _ & ?)].
  - assert (i ∈ where_from (S n) x column <->
            exists j, i = n + S j /\ (v :: column) !! S j = Some (VStr x)) as Htail.
    { rewrite IH. split; intros (j & -> & Hj); exists j; split; (lia || done). }
    destruct v as [s| | |];
      try (rewrite Htail; split;
           [ intros (j & -> & Hj); eauto
           | intros ([|j] & -> & Hj); [done | eauto] ]).
    destruct (decide (s = x)) as [->|Hne].
    + rewrite elem_of_cons, Htail. split.
      * intros [->|(j & -> & Hj)]; [exists 0; split; [lia|done] | eauto].
      * intros ([|j] & -> & Hj); [left; lia | right; eauto].
    + rewrite Htail. split.
      * intros (j & -> & Hj); eauto.
      * intros ([|j] & -> & Hj); [cbn in Hj; congruence | eauto].
Qed.

Lemma where_from_sorted (x : string) (column : list value) (n : nat) :
  StronglySorted lt (where_from n x column).
Proof.
  revert n. induction column as [|v column IH]; intros n; cbn [where_from].
  - constructor.
  - destruct v as [s| | |]; try apply IH.
    destruct (decide (s = x)); [|apply IH].
    constructor; [apply IH|].
    apply Forall_forall. intros i (j & -> & _)%where_from_spec. lia.
Qed.

Lemma where_from_length (column : list value) (n : nat) :
  length (where_from n "P" column) = length (List.filter is_program column).
Proof.
  revert n. induction column as [|v column IH]; intros n; cbn [where_from List.filter].
  - done.
  - destruct v as [s| | |]; cbn [is_program]; try apply IH.
    destruct (decide (s = "P")) as [->|Hne].
    + cbn. by rewrite IH.
    + apply String.eqb_neq in Hne. rewrite Hne. apply IH.
Qed.

Lemma foldM_delitem_raises (l : list string) (h : fits_header) (e : exn) :
  foldM (fun h column => header_delitem column h) h l = Raise e -> e = KeyError.
Proof.
  revert h. induction l as [|k l IH]; intros h; cbn [foldM]; [done|].
  destruct (header_delitem k h) as [h1|e1] eqn:E; cbn [bind]; [apply IH|].
  unfold header_delitem in E. destruct (cards h !! k); congruence.
Qed.

Lemma foldM_delitem_Ok (l : list string) (h h' : fits_header) :
  foldM (fun h column => header_delitem column h) h l = Ok h' ->
  commentary h' = commentary h /\
  (forall K, K ∈ l -> cards h' !! K = None) /\
  (forall K, K ∉ l -> cards h' !! K = cards h !! K).
Proof.
  revert h. induction l as [|k l IH]; intros h Hm; cbn [foldM] in Hm.
  - apply Ok_inj in Hm as ->. split_and!; [done| |done].
    by intros K ?%elem_of_nil.
  - apply bind_Ok in Hm as (h1 & E & Hm).
    apply header_delitem_Ok in E as (_ & ->).
    destruct (IH _ Hm) as (Hc & Hin & Hout). cbn [cards commentary] in *.
    split_and!; [done| |].
    + intros K [->|HK]%elem_of_cons; [|auto].
      destruct (decide (k ∈ l)); [auto|].
      by rewrite Hout, lookup_delete_eq.
    + intros K [Hne HK]%not_elem_of_cons. by rewrite Hout, lookup_delete_ne.
Qed.

Section run.
  Context `{Externals}.

Lemma build_header_template_Ok (image : list hdu) (ext : extensions)
      (tmpl : fits_header) :
    build_header_template image ext = Ok tmpl ->
    exists data_hdu ccd_number ccd_name,
      getitem image (ext_data ext) = Ok data_hdu /\
      get_ccd_number image = Ok (ccd_number, ccd_name) /\
      cards tmpl !! "CCD" = Some (Card (VInt ccd_number) (ccd_name +:+ " camera")) /\
      cards tmpl !! "WG6_VER"
        = Some (Card (VFloat WG6_VER) "WG6 standardisation code version") /\
      cards tmpl !! "WG6_HASH"
        = Some (Card (VStr WG6_GIT_HASH) "WG6 standardisation commit hash") /\
      (forall K, K ∈ ["CDELT2"; "CRPIX2"; "CRVAL2"; "CTYPE2"; "CUNIT2"] ->
         cards tmpl !! K = None) /\
      (forall K, K ∉ ["CDELT2"; "CRPIX2"; "CRVAL2"; "CTYPE2"; "CUNIT2";
                      "CCD"; "WG6_VER"; "WG6_HASH"] ->
         cards tmpl !! K = cards (hheader data_hdu) !! K) /\
      commentary tmpl = commentary (hheader data_hdu).
  Proof.
    unfold build_header_template. intros Hm.
    apply bind_Ok in Hm as (data_hdu & Hdata & Hm).
    apply bind_Ok in Hm as (h1 & Hdel & Hm).
    apply bind_Ok in Hm as ([ccd_number ccd_name] & Hccd & Hm).
    apply bind_Ok in Hm as (h2 & E2 & Hm).
    apply bind_Ok in Hm as (h3 & E3 & Hm).
    exists data_hdu, ccd_number, ccd_name.
    apply foldM_delitem_Ok in Hdel as (Dc & Din & Dout).
    assert (forall K, K <> "CCD" -> K <> "WG6_VER" -> K <> "WG6_HASH" ->
              cards tmpl !! K = cards h1 !! K) as Hframe.
    { intros K K1 K2 K3.
      rewrite (comments_setitem_lookup_ne _ _ _ _ K Hm) by done.
      rewrite (comments_setitem_lookup_ne _ _ _ _ K E3) by done.
      rewrite !header_setitem_lookup_ne by done.
      rewrite (comments_setitem_lookup_ne _ _ _ _ K E2) by done.
      by rewrite header_setitem_lookup_ne. }
    split_and!.
    - done.
    - done.
    - rewrite (comments_setitem_lookup_ne _ _ _ _ "CCD" Hm) by done.
      rewrite (comments_setitem_lookup_ne _ _ _ _ "CCD" E3) by done.
      rewrite !header_setitem_lookup_ne by done.
      apply (comments_setitem_card _ _ _ _ _ E2).
      by apply header_setitem_value.
    - rewrite (comments_setitem_lookup_ne _ _ _ _ "WG6_VER" Hm) by done.
      apply (comments_setitem_card _ _ _ _ _ E3).
      rewrite header_setitem_lookup_ne by done.
      by apply header_setitem_value.
    - apply (comments_setitem_card _ _ _ _ _ Hm).
      rewrite (comments_setitem_value _ _ _ _ "WG6_HASH" E3).
      by apply header_setitem_value.
    - intros K HK. rewrite Hframe by (cases_elem HK; done). by apply Din.
    - intros K HK. split_notin HK. rewrite Hframe by done. apply Dout.
      solve_notin.
    - rewrite (comments_setitem_commentary _ _ _ _ Hm).
      rewrite (comments_setitem_commentary _ _ _ _ E3).
      rewrite !header_setitem_commentary by done.
      rewrite (comments_setitem_commentary _ _ _ _ E2).
      by rewrite header_setitem_commentary.
  Qed.

Lemma extract_sources_Ok (image : list hdu) (dummy_hdus : bool)
      (products : list (list hdu)) :
    extract_sources image dummy_hdus = Ok products ->
    exists ext tmpl fibres types,
      read_2dfdr_extensions image = Ok ext /\
      verify_hermes_origin image = Ok tt /\
      build_header_template image ext = Ok tmpl /\
      getitem image (ext_fibres ext) = Ok fibres /\
      table_column fibres "TYPE" = Ok types /\
      Forall2 (fun i p => extract_source image ext tmpl dummy_hdus i = Ok p)
              (np_where_eq "P" types) products.
  Proof.
    unfold extract_sources, program_indices. intros Hm.
    apply bind_Ok in Hm as (ext & Hext & Hm).
    apply bind_Ok in Hm as ([] & Hver & Hm).
    apply bind_Ok in Hm as (tmpl & Htmpl & Hm).
    apply bind_Ok in Hm as (indices & Hidx & Hm).
    apply bind_Ok in Hidx as (fibres & Hfib & Hidx).
    apply bind_Ok in Hidx as (types & Htypes & Hidx).
    apply Ok_inj in Hidx as <-.
    exists ext, tmpl, fibres, types. split_and!; try done.
    by apply mapM_result_Forall2.
  Qed.

Lemma from_2dfdr_Ok (filename : string) (dummy_hdus : bool) (w w' : world)
      (products : list (list hdu)) :
    from_2dfdr filename dummy_hdus w = (Ok products, w') ->
    exists image,
      fits_open filename = Ok image /\
      extract_sources image dummy_hdus = Ok products /\
      w' = close filename (filename :: w).
  Proof.
    unfold from_2dfdr. destruct (fits_open filename) as [image|e]; [|done].
    destruct (extract_sources image dummy_hdus) as [srcs|e] eqn:Hs; [|done].
    intros Heq. apply pair_equal_spec in Heq as [Hr <-].
    apply Ok_inj in Hr as <-. exists image. by split_and!.
  Qed.
End run.


(** * The claims *)

(** ** C3: the guard of the coordinate conversion *)

(** C3, as the code has it: the test ["RA" in keywords and "DEC" in keywords]
    is true on the keyword list of [from_2dfdr], whose entries "RA" and "DEC"
    are bare strings. *)
Lemma ra_dec_guard_holds :
  keywords = [Str "NAME"; Str "RA"; Str "DEC"; Str "PMRA"; Str "PMDEC";
              Pair "MAGNITUDE" "MAG"; Pair "COMMENT" "DESCR"] /\
  str_in "RA" keywords && str_in "DEC" keywords = true.
Proof. split; reflexivity. Qed.

(** C3, amended: the guard is always true, so for every object the block of
    lines 186-188 is its conversion branch: RA and then DEC are multiplied by
    [180./np.pi]. *)
Theorem radians_to_degrees_always_converts (header : fits_header) :
  radians_to_degrees header
  = (header <- header_imul "RA" (180 / np_pi) header ;;
     header_imul "DEC" (180 / np_pi) header).
Proof. reflexivity. Qed.

(** ** C7: the exposure container *)

Lemma close_opened (name : string) (w : world) : close name (name :: w) = w.
Proof. cbn [close]. by destruct (decide (name = name)). Qed.

(** C7, as the code has it: when the motion service fails on the first
    object, [from_2dfdr] raises and the container it opened is still open. *)
Lemma exposure_left_open_on_error :
  @from_2dfdr (failing_motion_externals sample_image) "combined.fits" true []
  = (Raise ValueError, ["combined.fits"]).
Proof. vm_compute. reflexivity. Qed.

(** C7, amended: [from_2dfdr] closes the container it opened when it returns
    its products, and leaves it open when it raises after the opening. *)
Theorem exposure_closed_on_return_only `{Externals} (filename : string)
    (dummy_hdus : bool) (w : world) :
  match from_2dfdr filename dummy_hdus w with
  | (Ok _, w') => w' = w
  | (Raise _, w') =>
      match fits_open filename with
      | Ok _ => w' = filename :: w
      | Raise _ => w' = w
      end
  end.
Proof.
  unfold from_2dfdr. destruct (fits_open filename) as [image|e]; [|done].
  destruct (extract_sources image dummy_hdus); [|done].
  apply close_opened.
Qed.

(** ** C6: the origin of the exposure *)

Lemma verify_hermes_origin_mismatch (image : list hdu) (primary : hdu) :
  image !! 0 = Some primary ->
  origin_mismatch primary ->
  (exists e, verify_hermes_origin image = Raise e) /\
  (forall o, value_at "ORIGIN" primary = Some (VStr o) ->
             verify_hermes_origin image = Raise AssertionError).
Proof.
  intros Hp Hmis. unfold verify_hermes_origin, getitem. rewrite Hp. cbn [bind].
  unfold header_getitem. unfold origin_mismatch, value_at, card_of in *.
  destruct (cards (hheader primary) !! "ORIGIN") as [[vo co]|]; cbn in *.
  2:{ split; [eauto|]. intros o Ho. discriminate Ho. }
  destruct vo as [o| | |]; cbn [strip_method bind];
    try (split; [eauto|]; intros o' Ho; discriminate Ho).
  destruct (decide (strip o = "AAO")) as [Heq|Hne].
  2:{ split; [eauto|]. done. }
  destruct Hmis as [(o' & Ho' & Hno)|(s & Hs & Hns)].
  { congruence. }
  destruct (cards (hheader primary) !! "INSTRUME") as [[vi ci]|]; cbn in *;
    [|discriminate Hs].
  apply Some_inj in Hs as ->. cbn [strip_method bind].
  destruct (decide (strip s = "HERMES-2dF")); [done|]. split; [eauto|done].
Qed.

(** C6, as the code has it: an exposure of another instrument that lacks the
    VARIANCE extension fails in [read_2dfdr_extensions], which runs before
    the verification, with [ValueError]. *)
Lemma foreign_exposure_without_variance :
  (exists primary,
     foreign_image_without_variance !! 0 = Some primary /\
     value_at "INSTRUME" primary = Some (VStr "2dF") /\
     strip "2dF" <> "HERMES-2dF") /\
  @from_2dfdr (sample_externals foreign_image_without_variance)
     "combined.fits" true []
  = (Raise ValueError, ["combined.fits"]).
Proof.
  split.
  - eexists. split; [reflexivity|]. split; [by vm_compute|]. by vm_compute.
  - vm_compute. reflexivity.
Qed.

(** C6, amended: for every input whose ORIGIN (stripped) is not "AAO" or
    whose INSTRUME (stripped) is not "HERMES-2dF", [from_2dfdr] raises and
    returns no product, whatever the motion service would answer; the error
    is the failed assertion of [verify_hermes_origin] (the specification's
    OriginMismatchError) whenever the VARIANCE and FIBRES extensions are found
    and the ORIGIN card holds a string. *)
Theorem origin_mismatch_raises `{Externals} (filename : string)
    (dummy_hdus : bool) (w : world) (image : list hdu) (primary : hdu) :
  fits_open filename = Ok image ->
  image !! 0 = Some primary ->
  origin_mismatch primary ->
  (exists e, from_2dfdr filename dummy_hdus w = (Raise e, filename :: w)) /\
  (forall ext o,
     read_2dfdr_extensions image = Ok ext ->
     value_at "ORIGIN" primary = Some (VStr o) ->
     from_2dfdr filename dummy_hdus w = (Raise AssertionError, filename :: w)).
Proof.
  intros Hopen Hp Hmis.
  destruct (verify_hermes_origin_mismatch image primary Hp Hmis) as [[e He] Hassert].
  unfold from_2dfdr, extract_sources. rewrite Hopen. split.
  - destruct (read_2dfdr_extensions image) as [ext|e']; cbn [bind]; [|eauto].
    rewrite He. cbn [bind]. eauto.
  - intros ext o Hext Ho. rewrite Hext. cbn [bind].
    by rewrite (Hassert o Ho).
Qed.

Lemma origin_mismatch_raises_witness :
  (exists e, @from_2dfdr (sample_externals foreign_image) "combined.fits" true []
             = (Raise e, ["combined.fits"])) /\
  (forall ext o,
     read_2dfdr_extensions foreign_image = Ok ext ->
     value_at "ORIGIN" (sample_data_hdu
        (header_setitem "INSTRUME" (VStr "2dF") sample_primary_header))
       = Some (VStr o) ->
     @from_2dfdr (sample_externals foreign_image) "combined.fits" true []
     = (Raise AssertionError, ["combined.fits"])).
Proof.
  apply (@origin_mismatch_raises (sample_externals foreign_image)
           "combined.fits" true [] foreign_image).
  - reflexivity.
  - reflexivity.
  - right. exists "2dF". split; [by vm_compute|]. by vm_compute.
Defined.


(** ** C8: the channel of the exposure *)

Lemma get_ccd_number_spec (image : list hdu) (primary : hdu)
    (comment token : string) (pieces : list string) :
  image !! 0 = Some primary ->
  comments_getitem "SPLYTEMP" (hheader primary) = Ok comment ->
  split_space comment = token :: pieces ->
  get_ccd_number image
  = match ccd_of_channel token with
    | Some n => Ok (n, token)
    | None => Raise KeyError
    end.
Proof.
  intros Hp Hc Hs. unfold get_ccd_number, getitem. rewrite Hp. cbn [bind].
  rewrite Hc. cbn [bind]. rewrite Hs. cbn [lookup list_lookup bind].
  unfold ccd_of_channel.
  repeat (destruct (decide _); [done|]). done.
Qed.

(** C8: the token of the SPLYTEMP comment gives the CCD number by the mapping
    BLUE, GREEN, RED, IR to 1, 2, 3, 4 ("GREEN" gives 2): it is the value of
    the CCD card of the template and of every product; a token outside the
    four makes [get_ccd_number], and with it the building of the template,
    raise [KeyError] (the specification's UnknownChannelError). *)
Theorem channel_determines_ccd `{Externals} (image : list hdu) (primary : hdu)
    (comment token : string) (pieces : list string) :
  image !! 0 = Some primary ->
  comments_getitem "SPLYTEMP" (hheader primary) = Ok comment ->
  split_space comment = token :: pieces ->
  ccd_of_channel "GREEN" = Some 2%Z /\
  match ccd_of_channel token with
  | Some n =>
      get_ccd_number image = Ok (n, token) /\
      (forall ext tmpl,
         build_header_template image ext = Ok tmpl ->
         cards tmpl !! "CCD" = Some (Card (VInt n) (token +:+ " camera"))) /\
      (forall filename dummy_hdus w products w',
         fits_open filename = Ok image ->
         from_2dfdr filename dummy_hdus w = (Ok products, w') ->
         Forall (fun p => exists flux rest,
                   p = flux :: rest /\
                   extname flux = Some (VStr "input_spectrum") /\
                   card_of "CCD" flux
                   = Some (Card (VInt n) (token +:+ " camera")))
                products)
  | None =>
      get_ccd_number image = Raise KeyError /\
      (forall ext, ext_data ext = 0 ->
                   build_header_template image ext = Raise KeyError) /\
      (forall dummy_hdus,
         (exists ext, read_2dfdr_extensions image = Ok ext) ->
         verify_hermes_origin image = Ok tt ->
         extract_sources image dummy_hdus = Raise KeyError)
  end.
Proof.
  intros Hp Hc Hs. split; [reflexivity|].
  pose proof (get_ccd_number_spec image primary comment token pieces Hp Hc Hs)
    as Hccd.
  destruct (ccd_of_channel token) as [n|].
  - split; [done|].
    assert (forall ext tmpl,
              build_header_template image ext = Ok tmpl ->
              cards tmpl !! "CCD" = Some (Card (VInt n) (token +:+ " camera")))
      as Htmpl.
    { intros ext tmpl Ht.
      apply build_header_template_Ok in Ht
        as (data_hdu & n' & name' & _ & Hget & Hcard & _).
      rewrite Hccd in Hget. apply Ok_inj, pair_equal_spec in Hget as [-> ->].
      done. }
    split; [done|].
    intros filename dummy_hdus w products w' Hopen Hrun.
    apply from_2dfdr_Ok in Hrun as (image' & Hopen' & Hsrc & _).
    rewrite Hopen in Hopen'. apply Ok_inj in Hopen' as <-.
    apply extract_sources_Ok in Hsrc
      as (ext & tmpl & fibres & types & _ & _ & Ht & _ & _ & Hall).
    apply Htmpl in Ht.
    eapply Forall2_right; [exact Hall|]. intros i p Hp'. cbn beta in Hp'.
    apply extract_source_Ok in Hp'
      as (? & ? & ? & ? & ? & ? & ? & ? & flux & sigma & rest & -> & _
          & (_ & _ & _ & _ & _ & Hname & _ & _ & Hframe) & _).
    exists flux, (sigma :: rest). split; [done|]. split; [done|].
    rewrite Hframe; [done|reflexivity|]. unfold object_keys, catalogue_keys.
    cbn [app]. solve_notin.
  - split; [done|]. 
    assert (forall ext, ext_data ext = 0 ->
              build_header_template image ext = Raise KeyError) as Htmpl.
    { intros ext Hext. unfold build_header_template, getitem.
      rewrite Hext, Hp. cbn [bind].
      destruct (foldM _ (hheader primary) _) as [h|e] eqn:Hdel; cbn [bind].
      - by rewrite Hccd.
      - by apply foldM_delitem_raises in Hdel as ->. }
    split; [done|].
    intros dummy_hdus [ext Hext] Hver. unfold extract_sources.
    rewrite Hext. cbn [bind]. rewrite Hver. cbn [bind].
    rewrite Htmpl; [done|].
    unfold read_2dfdr_extensions in Hext.
    apply bind_Ok in Hext as (? & _ & Hext).
    apply bind_Ok in Hext as (? & _ & Hext).
    apply bind_Ok in Hext as (? & _ & Hext).
    by apply Ok_inj in Hext as <-.
Qed.

Lemma channel_determines_ccd_witness :
  ccd_of_channel "GREEN" = Some 2%Z /\
  get_ccd_number sample_image = Ok (2%Z, "GREEN") /\
  (forall ext tmpl,
     @build_header_template (sample_externals sample_image) sample_image ext
       = Ok tmpl ->
     cards tmpl !! "CCD" = Some (Card (VInt 2) "GREEN camera")) /\
  (forall filename dummy_hdus w products w',
     @fits_open (sample_externals sample_image) filename = Ok sample_image ->
     @from_2dfdr (sample_externals sample_image) filename dummy_hdus w
       = (Ok products, w') ->
     Forall (fun p => exists flux rest,
               p = flux :: rest /\
               extname flux = Some (VStr "input_spectrum") /\
               card_of "CCD" flux = Some (Card (VInt 2) "GREEN camera"))
            products).
Proof.
  apply (@channel_determines_ccd (sample_externals sample_image) sample_image
           (sample_data_hdu sample_primary_header)
           "GREEN spectrograph template" "GREEN" ["spectrograph"; "template"]).
  - reflexivity.
  - vm_compute. reflexivity.
  - reflexivity.
Defined.


(** ** Properties of every product of a run *)

Section products.
  Context `{Externals}.

  (** The products of a run are those of [extract_source] on the program
      fibres of the catalogue, in the order of [np.where]. *)
Lemma from_2dfdr_products (filename : string) (dummy_hdus : bool)
      (w w' : world) (products : list (list hdu)) :
    from_2dfdr filename dummy_hdus w = (Ok products, w') ->
    exists image ext tmpl fibres types,
      fits_open filename = Ok image /\
      read_2dfdr_extensions image = Ok ext /\
      fibre_table image = Ok fibres /\
      getitem image (ext_fibres ext) = Ok fibres /\
      table_column fibres "TYPE" = Ok types /\
      Forall2 (fun i p => extract_source image ext tmpl dummy_hdus i = Ok p)
              (np_where_eq "P" types) products.
  Proof.
    intros (image & Hopen & Hsrc & _)%from_2dfdr_Ok.
    apply extract_sources_Ok in Hsrc
      as (ext & tmpl & fibres & types & Hext & _ & _ & Hfib & Htypes & Hall).
    exists image, ext, tmpl, fibres, types. split_and!; try done.
    unfold fibre_table. rewrite Hext. done.
  Qed.
End products.

Lemma degrees_of_pi : (np_pi * (180 / np_pi))%float = 180%float.
Proof. vm_compute. reflexivity. Qed.

(** C4: a successful run returns one product for each catalogue row whose
    type is "P", in ascending order of the fibre index, and the FIBRE card of
    the product of index [i] is [i + 1]. *)
Theorem one_product_per_program_fibre `{Externals} (filename : string)
    (dummy_hdus : bool) (w w' : world) (products : list (list hdu)) :
  from_2dfdr filename dummy_hdus w = (Ok products, w') ->
  exists image fibres types,
    fits_open filename = Ok image /\
    fibre_table image = Ok fibres /\
    table_column fibres "TYPE" = Ok types /\
    length products = length (List.filter is_program types) /\
    StronglySorted lt (np_where_eq "P" types) /\
    (forall i, i ∈ np_where_eq "P" types <-> types !! i = Some (VStr "P")) /\
    Forall2 fibre_numbered (np_where_eq "P" types) products.
Proof.
  intros (image & ext & tmpl & fibres & types & Hopen & _ & Htab & _ & Htypes
          & Hall)%from_2dfdr_products.
  exists image, fibres, types. split_and!; try done.
  - rewrite <- (Forall2_length _ _ _ Hall). apply where_from_length.
  - apply where_from_sorted.
  - intros i. unfold np_where_eq. rewrite where_from_spec. split.
    + by intros (j & -> & Hj).
    + intros Hi. by exists i.
  - eapply Forall2_impl; [exact Hall|]. intros i p Hp. cbn beta in Hp.
    apply extract_source_Ok in Hp
      as (? & ? & ? & ? & ? & ? & ? & ? & flux & sigma & rest & -> & _
          & (_ & _ & Hfibre & _ & _ & Hname & _) & _).
    by exists flux, (sigma :: rest).
Qed.

Lemma one_product_per_program_fibre_witness :
  exists products w',
    sample_run true = (Ok products, w') /\
    exists image fibres types,
      @fits_open (sample_externals sample_image) "combined.fits" = Ok image /\
      fibre_table image = Ok fibres /\
      table_column fibres "TYPE" = Ok types /\
      length products = length (List.filter is_program types) /\
      StronglySorted lt (np_where_eq "P" types) /\
      (forall i, i ∈ np_where_eq "P" types <-> types !! i = Some (VStr "P")) /\
      Forall2 fibre_numbered (np_where_eq "P" types) products.
Proof.
  destruct (sample_run true) as [r w'] eqn:Hrun. destruct r as [products|e].
  - exists products, w'. split; [reflexivity|].
    exact (@one_product_per_program_fibre (sample_externals sample_image)
             "combined.fits" true [] w' products Hrun).
  - run_succeeded Hrun.
Defined.

(** C2: in every product the RA and DEC cards of the input_spectrum header
    are the catalogue values of the fibre multiplied by [180./np.pi]; a
    catalogue RA of [np.pi] gives exactly 180.0. *)
Theorem catalogue_coordinates_in_degrees `{Externals} (filename : string)
    (dummy_hdus : bool) (w w' : world) (products : list (list hdu)) :
  from_2dfdr filename dummy_hdus w = (Ok products, w') ->
  exists image fibres types,
    fits_open filename = Ok image /\
    fibre_table image = Ok fibres /\
    table_column fibres "TYPE" = Ok types /\
    Forall2 (coordinates_in_degrees fibres) (np_where_eq "P" types) products.
Proof.
  intros (image & ext & tmpl & fibres & types & Hopen & _ & Htab & Hfib & Htypes
          & Hall)%from_2dfdr_products.
  exists image, fibres, types. split_and!; try done.
  eapply Forall2_impl; [exact Hall|]. intros i p Hp. cbn beta in Hp.
  apply extract_source_Ok in Hp
    as (fibres' & ra & dec & ra' & dec' & ? & ? & ? & flux & sigma & rest & ->
        & (Hfib' & Tra & Tdec & Mra & Mdec & _)
        & (Hra & Hdec & _ & _ & _ & Hname & _) & _).
  rewrite Hfib in Hfib'. apply Ok_inj in Hfib' as <-.
  exists flux, (sigma :: rest), ra, dec, ra', dec'. split_and!; try done.
  - intros y ->. cbn [value_mul] in Mra. apply Ok_inj in Mra as <-. done.
  - intros y ->. cbn [value_mul] in Mdec. apply Ok_inj in Mdec as <-. done.
  - intros ->. cbn [value_mul] in Mra. apply Ok_inj in Mra as <-.
    by rewrite <- degrees_of_pi.
Qed.

Lemma catalogue_coordinates_in_degrees_witness :
  exists products w',
    sample_run true = (Ok products, w') /\
    exists image fibres types,
      @fits_open (sample_externals sample_image) "combined.fits" = Ok image /\
      fibre_table image = Ok fibres /\
      table_column fibres "TYPE" = Ok types /\
      Forall2 (coordinates_in_degrees fibres) (np_where_eq "P" types) products.
Proof.
  destruct (sample_run true) as [r w'] eqn:Hrun. destruct r as [products|e].
  - exists products, w'. split; [reflexivity|].
    exact (@catalogue_coordinates_in_degrees (sample_externals sample_image)
             "combined.fits" true [] w' products Hrun).
  - run_succeeded Hrun.
Defined.

(** C5: in every product the cards CRVAL1, CDELT1, CRPIX1, CTYPE1 and CUNIT1
    of the input_sigma header, value and comment, are those of the
    input_spectrum header, after the Doppler correction and the
    checksums. *)
Theorem sigma_axis_equals_flux_axis `{Externals} (filename : string)
    (dummy_hdus : bool) (w w' : world) (products : list (list hdu)) :
  from_2dfdr filename dummy_hdus w = (Ok products, w') ->
  Forall axis_shared products.
Proof.
  intros (image & ext & tmpl & fibres & types & _ & _ & _ & _ & _
          & Hall)%from_2dfdr_products.
  eapply Forall2_right; [exact Hall|]. intros i p Hp. cbn beta in Hp.
  apply extract_source_Ok in Hp
    as (? & ? & ? & ? & ? & ? & ? & ? & flux & sigma & rest & -> & _
        & (_ & _ & _ & _ & _ & Hname & _) & _ & (Hsname & _ & _ & Haxis) & _).
  by exists flux, sigma, rest.
Qed.

Lemma sigma_axis_equals_flux_axis_witness :
  exists products w',
    sample_run true = (Ok products, w') /\ Forall axis_shared products.
Proof.
  destruct (sample_run true) as [r w'] eqn:Hrun. destruct r as [products|e].
  - exists products, w'. split; [reflexivity|].
    exact (@sigma_axis_equals_flux_axis (sample_externals sample_image)
             "combined.fits" true [] w' products Hrun).
  - run_succeeded Hrun.
Defined.

(** C9: with the placeholder switch on, every product is the five extensions
    input_spectrum, input_sigma, normalised_spectrum, normalised_sigma, CCF in
    this order, and with the switch off the two extensions input_spectrum and
    input_sigma; the checksums that each extension carries are those of its
    final content. *)
Theorem product_extensions `{Externals} (filename : string)
    (dummy_hdus : bool) (w w' : world) (products : list (list hdu)) :
  from_2dfdr filename dummy_hdus w = (Ok products, w') ->
  Forall (fun p => extname <$> p = (fun name => Some (VStr name))
                                     <$> extension_names dummy_hdus /\
                   Forall checksum_valid p)
         products.
Proof.
  intros (image & ext & tmpl & fibres & types & _ & _ & _ & _ & _
          & Hall)%from_2dfdr_products.
  eapply Forall2_right; [exact Hall|]. intros i p Hp. cbn beta in Hp.
  apply extract_source_Ok in Hp
    as (? & ? & ? & ? & ? & ? & ? & ? & flux & sigma & rest & -> & _
        & (_ & _ & _ & _ & _ & Hname & _) & _ & (Hsname & _) & Hvalid & Hrest).
  split; [|done]. cbn [fmap list_fmap]. rewrite Hname, Hsname.
  change (list_fmap hdu (option value) extname rest) with (extname <$> rest).
  rewrite Hrest. by destruct dummy_hdus.
Qed.

Lemma product_extensions_witness :
  (exists products w',
     sample_run true = (Ok products, w') /\
     Forall (fun p => extname <$> p
                      = (fun name => Some (VStr name)) <$> extension_names true /\
                      Forall (@checksum_valid (sample_externals sample_image)) p)
            products) /\
  (exists products w',
     sample_run false = (Ok products, w') /\
     Forall (fun p => extname <$> p
                      = (fun name => Some (VStr name)) <$> extension_names false /\
                      Forall (@checksum_valid (sample_externals sample_image)) p)
            products).
Proof.
  split.
  - destruct (sample_run true) as [r w'] eqn:Hrun. destruct r as [products|e].
    + exists products, w'. split; [reflexivity|].
      exact (@product_extensions (sample_externals sample_image)
               "combined.fits" true [] w' products Hrun).
    + run_succeeded Hrun.
  - destruct (sample_run false) as [r w'] eqn:Hrun. destruct r as [products|e].
    + exists products, w'. split; [reflexivity|].
      exact (@product_extensions (sample_externals sample_image)
               "combined.fits" false [] w' products Hrun).
    + run_succeeded Hrun.
Defined.


(** ** C10: what the sigma header holds *)

(** C10, as the code has it: the sigma header of the first product of the
    sample run has the card XTENSION, which is none of the wavelength-axis
    cards, EXTNAME or a checksum card. *)
Lemma sigma_header_has_structural_cards :
  ("XTENSION" ∉ (wavelength_keys ++ ["EXTNAME"] ++ checksum_keys)%list) /\
  match fst (sample_run true) with
  | Ok ((flux :: sigma :: _) :: _) =>
      extname sigma = Some (VStr "input_sigma") /\
      header_contains "XTENSION" (hheader sigma) = true
  | _ => False
  end.
Proof.
  split.
  - unfold wavelength_keys, checksum_keys. cbn [app]. solve_notin.
  - vm_compute. split; reflexivity.
Qed.

(** C10, amended: the input_sigma header of every product holds the cards
    that the library writes for an image extension (XTENSION, BITPIX, NAXIS,
    NAXIS1, PCOUNT, GCOUNT), the five wavelength-axis cards, EXTNAME and the
    checksum cards CHECKSUM and DATASUM, and nothing else; V_BARY, V_HELIO,
    the HISTORY note and the catalogue fields are in the input_spectrum
    header only. *)
Theorem sigma_header_contents `{Externals} (filename : string)
    (dummy_hdus : bool) (w w' : world) (products : list (list hdu)) :
  from_2dfdr filename dummy_hdus w = (Ok products, w') ->
  Forall sigma_header_frame products.
Proof.
  intros (image & ext & tmpl & fibres & types & _ & _ & _ & _ & _
          & Hall)%from_2dfdr_products.
  eapply Forall2_right; [exact Hall|]. intros i p Hp. cbn beta in Hp.
  apply extract_source_Ok in Hp
    as (? & ? & ? & ? & ? & v_bary & v_helio & ? & flux & sigma & rest & -> & _
        & (_ & _ & _ & Hbary & Hhelio & Hname & Hcm & Hcat & _) & _
        & (Hsname & Hscm & Hdom & _) & _).
  exists flux, sigma, rest.
  assert (forall K, is_Some (card_of K sigma) <->
            K ∈ (image_extension_keys ++ wavelength_keys
                 ++ ["EXTNAME"] ++ checksum_keys)%list) as Hkeys.
  { intros K. unfold card_of. rewrite <- elem_of_dom, Hdom.
    unfold sigma_keys, checksum_keys.
    rewrite elem_of_union, elem_of_list_to_set, !elem_of_app.
    rewrite elem_of_union, !elem_of_singleton.
    rewrite (elem_of_cons _ K "CHECKSUM"), !list_elem_of_singleton. tauto. }
  split_and!; try done.
  - intros K HK. split.
    + apply eq_None_not_Some. rewrite Hkeys.
      unfold flux_only_keys, catalogue_keys in HK. cbn [app] in HK.
      unfold image_extension_keys, wavelength_keys, checksum_keys. cbn [app].
      cases_elem HK; solve_notin.
    + unfold flux_only_keys in HK. apply elem_of_app in HK as [HK|HK]; [|auto].
      cases_elem HK; [by rewrite Hbary | by rewrite Hhelio].
  - rewrite Hcm. apply elem_of_app. right. by apply list_elem_of_singleton.
Qed.

Lemma sigma_header_contents_witness :
  exists products w',
    sample_run true = (Ok products, w') /\ Forall sigma_header_frame products.
Proof.
  destruct (sample_run true) as [r w'] eqn:Hrun. destruct r as [products|e].
  - exists products, w'. split; [reflexivity|].
    exact (@sigma_header_contents (sample_externals sample_image)
             "combined.fits" true [] w' products Hrun).
  - run_succeeded Hrun.
Defined.

(** ** C1: the Doppler correction *)

(** What the code does for every object: CRVAL1 and CDELT1 of the template
    are multiplied once, on the flux header and on the sigma header, by
    [doppler_factor v_bary], where [v_bary] is the first velocity that the
    motion service returns for the header of the object; the second velocity
    is not used. *)
Lemma doppler_applied_once `{Externals} (filename : string)
    (dummy_hdus : bool) (w w' : world) (products : list (list hdu)) :
  from_2dfdr filename dummy_hdus w = (Ok products, w') ->
  exists tmpl,
    Forall (fun p => exists flux sigma rest hdr v_bary v_helio,
              p = flux :: sigma :: rest /\
              motions_from_header hdr = Ok (v_bary, v_helio) /\
              forall key, key ∈ ["CRVAL1"; "CDELT1"] ->
                exists c v',
                  cards tmpl !! key = Some c /\
                  value_mul (cvalue c) (doppler_factor v_bary) = Ok v' /\
                  card_of key flux = Some (Card v' (ccomment c)) /\
                  card_of key sigma = Some (Card v' (ccomment c)))
           products.
Proof.
  intros (image & ext & tmpl & fibres & types & _ & _ & _ & _ & _
          & Hall)%from_2dfdr_products.
  exists tmpl.
  eapply Forall2_right; [exact Hall|]. intros i p Hp. cbn beta in Hp.
  apply extract_source_Ok in Hp
    as (? & ? & ? & ? & ? & v_bary & v_helio & hdr & flux & sigma & rest & ->
        & (_ & _ & _ & _ & _ & _ & Hmot) & _ & Hresc & _).
  by exists flux, sigma, rest, hdr, v_bary, v_helio.
Qed.

(** C1 at a barycentric velocity of 30 km/s: the quotient
    [v_bary/speed_of_light] is the number 30/299792458 with the unit km/m
    beside it, its [.value] is that number, and CRVAL1 = 5000 becomes
    5000 * (1 + 30/299792458) on both headers; with the velocity brought to
    the unit of the speed of light the factor is 1 + 30000/299792458. *)
Theorem doppler_factor_ignores_units :
  @motions_from_header (sample_externals sample_image) empty_header
    = Ok (sample_v_bary, sample_v_helio) /\
  quantity_truediv sample_v_bary speed_of_light
    = Quotient (30 / 299792458) km_per_s m_per_s /\
  doppler_factor sample_v_bary = (1 + 30 / 299792458)%float /\
  doppler_factor_spec sample_v_bary = (1 + 30000 / 299792458)%float /\
  doppler_factor sample_v_bary <> doppler_factor_spec sample_v_bary /\
  (5000 * doppler_factor sample_v_bary)%float
    <> (5000 * doppler_factor_spec sample_v_bary)%float /\
  match fst (sample_run true) with
  | Ok ((flux :: sigma :: _) :: _) =>
      value_at "CRVAL1" flux
        = Some (VFloat (5000 * doppler_factor sample_v_bary)) /\
      value_at "CRVAL1" sigma
        = Some (VFloat (5000 * doppler_factor sample_v_bary)) /\
      value_at "CDELT1" flux
        = Some (VFloat (0.5 * doppler_factor sample_v_bary)) /\
      value_at "CDELT1" sigma
        = Some (VFloat (0.5 * doppler_factor sample_v_bary)) /\
      value_at "V_HELIO" flux = Some (VFloat 29.5)
  | _ => False
  end.
Proof.
  split_and!.
  - reflexivity.
  - reflexivity.
  - reflexivity.
  - vm_compute. reflexivity.
  - vm_compute. discriminate.
  - vm_compute. discriminate.
  - vm_compute. split_and!; reflexivity.
Qed.

(** * Further properties *)

(** ** The extensions of an exposure *)

Lemma list_index_Ok (x : string) (l : list string) (i : nat) :
  list_index x l = Ok i ->
  l !! i = Some x /\ forall j, j < i -> l !! j <> Some x.
Proof.
  revert i. induction l as [|y l IH]; intros i; cbn [list_index].
  - discriminate.
  - destruct (decide (y = x)) as [->|Hne].
    + intros Hi. apply Ok_inj in Hi as <-. split; [done|]. intros j Hj. lia.
    + intros Hi. apply bind_Ok in Hi as (i' & Hi' & Hi).
      apply Ok_inj in Hi as <-. destruct (IH _ Hi') as [Hx Hbefore].
      split; [done|]. intros [|j] Hj; cbn [lookup list_lookup].
      * intros E. apply Hne. by injection E.
      * apply Hbefore. lia.
Qed.

Lemma list_index_absent (x : string) (l : list string) :
  x ∉ l -> list_index x l = Raise ValueError.
Proof.
  induction l as [|y l IH]; intros Hx; cbn [list_index]; [done|].
  apply not_elem_of_cons in Hx as [Hne Hx].
  destruct (decide (y = x)) as [->|_]; [done|].
  by rewrite (IH Hx).
Qed.

Lemma list_index_raises (x : string) (l : list string) (e : exn) :
  list_index x l = Raise e -> e = ValueError.
Proof.
  revert e. induction l as [|y l IH]; intros e; cbn [list_index].
  - intros E. by injection E.
  - destruct (decide (y = x)); [discriminate|].
    destruct (list_index x l) as [i|e'] eqn:Hi; cbn [bind]; [discriminate|].
    intros E. injection E as <-. by apply IH.
Qed.

Lemma mapM_result_Forall {A B : Type} (f : A -> result B) (l : list A) :
  Forall (fun a => exists b, f a = Ok b) l -> exists bs, mapM_result f l = Ok bs.
Proof.
  induction 1 as [|a l [b Hb] _ [bs Hbs]]; cbn [mapM_result]; [by eexists|].
  rewrite Hb. cbn [bind]. rewrite Hbs. cbn [bind]. by eexists.
Qed.

(** The stripped names of the extensions, one for each HDU. *)
Lemma read_extnames (image : list hdu) (extnames : list string) :
  mapM_result str_strip
    (map (fun h => header_get "EXTNAME" (VStr EmptyString) (hheader h)) image)
  = Ok extnames ->
  Forall2 (fun h s => stripped_extname h = Ok s) image extnames.
Proof.
  intros Hm. apply mapM_result_Forall2 in Hm.
  apply Forall2_fmap_l in Hm. exact Hm.
Qed.

Lemma index_of_extension (image : list hdu) (extnames : list string)
    (name : string) (i : nat) :
  Forall2 (fun h s => stripped_extname h = Ok s) image extnames ->
  list_index name extnames = Ok i ->
  (exists h, image !! i = Some h /\ stripped_extname h = Ok name) /\
  (forall j h, j < i -> image !! j = Some h -> stripped_extname h <> Ok name).
Proof.
  intros Hall Hi. apply list_index_Ok in Hi as [Hx Hbefore]. split.
  - destruct (Forall2_lookup_r _ _ _ _ _ Hall Hx) as (h & Hh & Hs). eauto.
  - intros j h Hj Hh Hs.
    destruct (Forall2_lookup_l _ _ _ _ _ Hall Hh) as (s & Hs' & Hs'').
    rewrite Hs in Hs''. apply Ok_inj in Hs'' as <-. by apply (Hbefore j).
Qed.

(** The data are extension 0 and the variance index is that of an
    extension. *)
Lemma read_2dfdr_extensions_data (image : list hdu) (ext : extensions) :
  read_2dfdr_extensions image = Ok ext ->
  ext_data ext = 0 /\ exists h, image !! ext_variance ext = Some h.
Proof.
  unfold read_2dfdr_extensions. intros Hm.
  apply bind_Ok in Hm as (extnames & Hnames & Hm).
  apply bind_Ok in Hm as (variance & Hv & Hm).
  apply bind_Ok in Hm as (fibres & _ & Hm).
  apply Ok_inj in Hm as <-. cbn [ext_data ext_variance]. split; [done|].
  apply read_extnames in Hnames.
  destruct (index_of_extension _ _ _ _ Hnames Hv) as [(h & Hh & _) _]. eauto.
Qed.

(** X1: when [read_2dfdr_extensions] returns, the data are extension 0 and
    the variance and the fibre table are the first extensions whose EXTNAME,
    with the blanks around it removed, is VARIANCE and FIBRES: the extension
    at the index returned has that name and no extension before it has. *)
Theorem read_2dfdr_extensions_first_match (image : list hdu) (ext : extensions) :
  read_2dfdr_extensions image = Ok ext ->
  ext_data ext = 0 /\
  (exists h, image !! ext_variance ext = Some h /\
             stripped_extname h = Ok "VARIANCE") /\
  (forall j h, j < ext_variance ext -> image !! j = Some h ->
               stripped_extname h <> Ok "VARIANCE") /\
  (exists h, image !! ext_fibres ext = Some h /\
             stripped_extname h = Ok "FIBRES") /\
  (forall j h, j < ext_fibres ext -> image !! j = Some h ->
               stripped_extname h <> Ok "FIBRES").
Proof.
  unfold read_2dfdr_extensions. intros Hm.
  apply bind_Ok in Hm as (extnames & Hnames & Hm).
  apply bind_Ok in Hm as (variance & Hv & Hm).
  apply bind_Ok in Hm as (fibres & Hf & Hm).
  apply Ok_inj in Hm as <-. cbn [ext_data ext_variance ext_fibres].
  apply read_extnames in Hnames.
  destruct (index_of_extension _ _ _ _ Hnames Hv) as [V1 V2].
  destruct (index_of_extension _ _ _ _ Hnames Hf) as [F1 F2].
  by split_and!.
Qed.

Lemma read_2dfdr_extensions_first_match_witness :
  read_2dfdr_extensions sample_image = Ok (Extensions 0 1 2) /\
  (exists h, sample_image !! 1 = Some h /\ stripped_extname h = Ok "VARIANCE") /\
  (exists h, sample_image !! 2 = Some h /\ stripped_extname h = Ok "FIBRES").
Proof.
  assert (read_2dfdr_extensions sample_image = Ok (Extensions 0 1 2)) as Hrun
    by (vm_compute; reflexivity).
  split; [exact Hrun|].
  destruct (read_2dfdr_extensions_first_match sample_image (Extensions 0 1 2) Hrun)
    as (_ & Hv & _ & Hf & _).
  split; [exact Hv|exact Hf].
Defined.


Section missing_extension.
Context `{Externals}.

(** X2: an exposure in which every EXTNAME is a string (or is absent) and
    none of them is VARIANCE, or none of them is FIBRES, once stripped, makes
    [read_2dfdr_extensions] raise ValueError; [from_2dfdr] raises it too,
    before the origin is verified, and leaves the exposure open. *)
Theorem missing_extension_raises (filename : string) (dummy_hdus : bool)
    (w : world) (image : list hdu) (name : string) :
  fits_open filename = Ok image ->
  name ∈ ["VARIANCE"; "FIBRES"] ->
  Forall (fun h => exists s, stripped_extname h = Ok s /\ s <> name) image ->
  read_2dfdr_extensions image = Raise ValueError /\
  from_2dfdr filename dummy_hdus w = (Raise ValueError, filename :: w).
Proof.
  intros Hopen Hname Hall.
  assert (read_2dfdr_extensions image = Raise ValueError) as Hread.
  { unfold read_2dfdr_extensions.
    destruct (mapM_result str_strip _) as [extnames|e] eqn:Hnames.
    - cbn [bind]. apply read_extnames in Hnames.
      assert (name ∉ extnames) as Hnot.
      { intros Hin. apply list_elem_of_lookup in Hin as [i Hi].
        destruct (Forall2_lookup_r _ _ _ _ _ Hnames Hi) as (h & Hh & Hs).
        rewrite Forall_lookup in Hall. destruct (Hall _ _ Hh) as (s & Hs' & Hne).
        rewrite Hs in Hs'. apply Ok_inj in Hs'. by apply Hne. }
      destruct (list_index "VARIANCE" extnames) as [v|e] eqn:Hv; cbn [bind].
      + destruct (list_index "FIBRES" extnames) as [f|e] eqn:Hf; cbn [bind].
        * exfalso. cases_elem Hname.
          -- by rewrite (list_index_absent _ _ Hnot) in Hv.
          -- by rewrite (list_index_absent _ _ Hnot) in Hf.
        * by rewrite (list_index_raises _ _ _ Hf).
      + by rewrite (list_index_raises _ _ _ Hv).
    - exfalso.
      assert (exists bs, mapM_result str_strip
                (map (fun h => header_get "EXTNAME" (VStr EmptyString) (hheader h))
                     image) = Ok bs) as [bs Hbs].
      { apply mapM_result_Forall. apply Forall_fmap.
        eapply Forall_impl; [exact Hall|].
        intros h (s & Hs & _). cbv beta. unfold compose. eauto. }
      rewrite Hbs in Hnames. discriminate. }
  split; [exact Hread|].
  unfold from_2dfdr. rewrite Hopen. unfold extract_sources. by rewrite Hread.
Qed.

End missing_extension.

Lemma missing_extension_raises_witness :
  read_2dfdr_extensions image_without_fibres = Raise ValueError /\
  @from_2dfdr (sample_externals image_without_fibres) "combined.fits" true []
  = (Raise ValueError, ["combined.fits"]).
Proof.
  apply (@missing_extension_raises (sample_externals image_without_fibres)
           "combined.fits" true [] image_without_fibres "FIBRES").
  - reflexivity.
  - apply list_elem_of_further, list_elem_of_here.
  - unfold image_without_fibres.
    apply Forall_cons; split;
      [exists EmptyString; split; [vm_compute; reflexivity|discriminate]|].
    apply Forall_cons; split;
      [exists "VARIANCE"; split; [vm_compute; reflexivity|discriminate]|].
    apply Forall_nil_2.
Defined.

Lemma mapM_result_raises {A B : Type} (f : A -> result B) (l : list A) (e : exn) :
  mapM_result f l = Raise e -> exists a, a ∈ l /\ f a = Raise e.
Proof.
  induction l as [|a l IH]; cbn [mapM_result]; [discriminate|].
  destruct (f a) as [b|e'] eqn:Hf; cbn [bind].
  - destruct (mapM_result f l) as [bs|e'] eqn:Hl; cbn [bind]; [discriminate|].
    intros E. injection E as <-. destruct (IH eq_refl) as (a' & Ha & Hfa).
    exists a'. split; [by apply list_elem_of_further|done].
  - intros E. injection E as <-. exists a. split; [apply list_elem_of_here|done].
Qed.

Lemma list_index_raises_absent (x : string) (l : list string) (e : exn) :
  list_index x l = Raise e -> x ∉ l.
Proof.
  revert e. induction l as [|y l IH]; intros e; cbn [list_index].
  - intros _. apply not_elem_of_nil.
  - destruct (decide (y = x)) as [|Hne]; [discriminate|].
    destruct (list_index x l) as [i|e'] eqn:Hi; cbn [bind]; [discriminate|].
    intros _. apply not_elem_of_cons. split; [by apply not_eq_sym|by eapply IH].
Qed.

Lemma extension_absent (image : list hdu) (extnames : list string) (name : string) :
  Forall2 (fun h s => stripped_extname h = Ok s) image extnames ->
  name ∉ extnames ->
  Forall (fun h => exists s, stripped_extname h = Ok s /\ s <> name) image.
Proof.
  induction 1 as [|h s image extnames Hs _ IH]; intros Hnot; [apply Forall_nil_2|].
  apply not_elem_of_cons in Hnot as [Hne Hnot].
  apply Forall_cons. split; [|by apply IH]. exists s. split; [done|].
  by apply not_eq_sym.
Qed.

(** X3: [read_2dfdr_extensions] raises nothing but TypeError, when the
    EXTNAME of an extension is no string, and ValueError, when every EXTNAME
    is a string or is absent and VARIANCE or FIBRES is none of them once
    stripped. *)
Theorem read_2dfdr_extensions_errors (image : list hdu) (e : exn) :
  read_2dfdr_extensions image = Raise e ->
  (e = TypeError /\
   exists h, h ∈ image /\ stripped_extname h = Raise TypeError) \/
  (e = ValueError /\
   exists name,
     name ∈ ["VARIANCE"; "FIBRES"] /\
     Forall (fun h => exists s, stripped_extname h = Ok s /\ s <> name) image).
Proof.
  unfold read_2dfdr_extensions.
  destruct (mapM_result str_strip _) as [extnames|e'] eqn:Hnames; cbn [bind].
  - apply read_extnames in Hnames. intros Hm. right.
    destruct (list_index "VARIANCE" extnames) as [v|e'] eqn:Hv; cbn [bind] in Hm.
    + destruct (list_index "FIBRES" extnames) as [f|e'] eqn:Hf; cbn [bind] in Hm;
        [discriminate|].
      injection Hm as <-. split; [by eapply list_index_raises|].
      exists "FIBRES". split; [set_solver|].
      eapply extension_absent; [done|]. by eapply list_index_raises_absent.
    + injection Hm as <-. split; [by eapply list_index_raises|].
      exists "VARIANCE". split; [set_solver|].
      eapply extension_absent; [done|]. by eapply list_index_raises_absent.
  - intros E. injection E as <-. left.
    apply mapM_result_raises in Hnames as (v & Hv & Hstrip).
    apply list_elem_of_fmap in Hv as (h & -> & Hh).
    assert (e' = TypeError) as ->.
    { revert Hstrip. unfold str_strip.
      destruct (header_get _ _ _); [discriminate|by intros [= <-]..]. }
    split; [done|]. by exists h.
Qed.

Lemma read_2dfdr_extensions_errors_witness :
  read_2dfdr_extensions foreign_image_without_variance = Raise ValueError /\
  exists name,
    name ∈ ["VARIANCE"; "FIBRES"] /\
    Forall (fun h => exists s, stripped_extname h = Ok s /\ s <> name)
           foreign_image_without_variance.
Proof.
  assert (read_2dfdr_extensions foreign_image_without_variance = Raise ValueError)
    as Hrun by (vm_compute; reflexivity).
  split; [exact Hrun|].
  destruct (read_2dfdr_extensions_errors _ _ Hrun) as [[He _]|[_ Hname]];
    [discriminate He|exact Hname].
Defined.

(** ** The origin of an exposure *)

Lemma lstrip_all_space (r : string) : all_space r = true -> lstrip r = EmptyString.
Proof.
  induction r as [|a r IH]; cbn [all_space lstrip]; [done|].
  intros [Ha Hr]%andb_true_iff. rewrite Ha. by apply IH.
Qed.

Lemma rstrip_all_space (r : string) : all_space r = true -> rstrip r = EmptyString.
Proof.
  induction r as [|a r IH]; cbn [all_space rstrip]; [done|].
  intros [Ha Hr]%andb_true_iff. by rewrite (IH Hr), Ha.
Qed.

Lemma rstrip_app_space (s r : string) :
  all_space r = true -> rstrip (s +:+ r) = rstrip s.
Proof.
  intros Hr. induction s as [|a s IH].
  - change (EmptyString +:+ r) with r. by apply rstrip_all_space.
  - change (String a s +:+ r) with (String a (s +:+ r)).
    cbn [rstrip]. by rewrite IH.
Qed.

Lemma lstrip_app_space (l s : string) :
  all_space l = true -> lstrip (l +:+ s) = lstrip s.
Proof.
  induction l as [|a l IH].
  - done.
  - change (String a l +:+ s) with (String a (l +:+ s)). cbn [all_space lstrip].
    intros [Ha Hl]%andb_true_iff. rewrite Ha. by apply IH.
Qed.

(** Blanks around a string do not change what [strip] returns. *)
Lemma strip_padding (l s r : string) :
  all_space l = true -> all_space r = true ->
  strip (l +:+ s +:+ r) = strip s.
Proof.
  intros Hl Hr. unfold strip. rewrite (lstrip_app_space _ _ Hl).
  induction s as [|a s IH].
  - change (EmptyString +:+ r) with r. by rewrite (lstrip_all_space _ Hr).
  - change (String a s +:+ r) with (String a (s +:+ r)). cbn [lstrip].
    destruct (is_space a); [exact IH|].
    apply (rstrip_app_space (String a s) r Hr).
Qed.

(** X4: [verify_hermes_origin] returns exactly for an exposure whose first
    HDU has string cards ORIGIN and INSTRUME that are AAO and HERMES-2dF once
    the blanks around them are removed. *)
Theorem verify_hermes_origin_accepts (image : list hdu) :
  verify_hermes_origin image = Ok tt <->
  exists primary o s,
    image !! 0 = Some primary /\
    value_at "ORIGIN" primary = Some (VStr o) /\ strip o = "AAO" /\
    value_at "INSTRUME" primary = Some (VStr s) /\ strip s = "HERMES-2dF".
Proof.
  unfold verify_hermes_origin, getitem, header_getitem, value_at, card_of. split.
  - destruct (image !! 0) as [primary|]; cbn [bind]; [|discriminate].
    destruct (cards (hheader primary) !! "ORIGIN") as [[o co]|] eqn:Eo;
      cbn [bind cvalue]; [|discriminate].
    destruct o as [o| | |]; cbn [strip_method bind]; try discriminate.
    destruct (decide (strip o = "AAO")) as [Ho|]; [|discriminate].
    destruct (cards (hheader primary) !! "INSTRUME") as [[s cs]|] eqn:Es;
      cbn [bind cvalue]; [|discriminate].
    destruct s as [s| | |]; cbn [strip_method bind]; try discriminate.
    destruct (decide (strip s = "HERMES-2dF")) as [Hs|]; [|discriminate].
    intros _. exists primary, o, s. rewrite Eo, Es. by split_and!.
  - intros (primary & o & s & -> & Ho & Eo & Hs & Es). cbn [bind].
    destruct (cards (hheader primary) !! "ORIGIN") as [[o' co]|];
      cbn [fmap option_fmap option_map cvalue] in Ho; [|discriminate].
    injection Ho as ->. cbn [bind cvalue strip_method].
    rewrite decide_True by done.
    destruct (cards (hheader primary) !! "INSTRUME") as [[s' cs]|];
      cbn [fmap option_fmap option_map cvalue] in Hs; [|discriminate].
    injection Hs as ->. cbn [bind cvalue strip_method].
    by rewrite decide_True.
Qed.

(** X5: the identity cards are compared without the blanks around them, as
    FITS pads its strings: an exposure whose ORIGIN is AAO and whose INSTRUME
    is HERMES-2dF between any blanks passes [verify_hermes_origin]. *)
Theorem verify_hermes_origin_ignores_padding (image : list hdu) (primary : hdu)
    (l1 r1 l2 r2 : string) :
  image !! 0 = Some primary ->
  all_space l1 = true -> all_space r1 = true ->
  all_space l2 = true -> all_space r2 = true ->
  value_at "ORIGIN" primary = Some (VStr (l1 +:+ "AAO" +:+ r1)) ->
  value_at "INSTRUME" primary = Some (VStr (l2 +:+ "HERMES-2dF" +:+ r2)) ->
  verify_hermes_origin image = Ok tt.
Proof.
  intros Hp Hl1 Hr1 Hl2 Hr2 Ho Hs.
  unfold verify_hermes_origin, getitem, header_getitem. rewrite Hp. cbn [bind].
  unfold value_at, card_of in Ho, Hs.
  destruct (cards (hheader primary) !! "ORIGIN") as [[o' co]|];
    cbn [fmap option_fmap option_map cvalue] in Ho; [|discriminate].
  injection Ho as ->. cbn [bind cvalue strip_method].
  rewrite (strip_padding l1 "AAO" r1 Hl1 Hr1).
  rewrite decide_True by (vm_compute; reflexivity).
  destruct (cards (hheader primary) !! "INSTRUME") as [[s' cs]|];
    cbn [fmap option_fmap option_map cvalue] in Hs; [|discriminate].
  injection Hs as ->. cbn [bind cvalue strip_method].
  rewrite (strip_padding l2 "HERMES-2dF" r2 Hl2 Hr2).
  by rewrite decide_True by (vm_compute; reflexivity).
Qed.

Lemma verify_hermes_origin_ignores_padding_witness :
  value_at "ORIGIN" (sample_data_hdu sample_primary_header)
    = Some (VStr "AAO     ") /\
  verify_hermes_origin sample_image = Ok tt.
Proof.
  split; [vm_compute; reflexivity|].
  apply (verify_hermes_origin_ignores_padding sample_image
           (sample_data_hdu sample_primary_header)
           EmptyString "     " EmptyString EmptyString);
    vm_compute; reflexivity.
Defined.

(** X6: [verify_hermes_origin] raises nothing but IndexError, for an
    exposure with no HDU, KeyError, when the first HDU lacks the ORIGIN or
    the INSTRUME card, AttributeError, when one of the two is no string, and
    AssertionError, when one of the two differs from the expected
    identity. *)
Theorem verify_hermes_origin_errors (image : list hdu) (e : exn) :
  verify_hermes_origin image = Raise e ->
  (image = [] /\ e = IndexError) \/
  exists primary,
    image !! 0 = Some primary /\
    ((e = KeyError /\
      exists k, k ∈ ["ORIGIN"; "INSTRUME"] /\ card_of k primary = None) \/
     (e = AttributeError /\
      exists k v, k ∈ ["ORIGIN"; "INSTRUME"] /\ value_at k primary = Some v /\
                  strip_method v = Raise AttributeError) \/
     (e = AssertionError /\ origin_mismatch primary)).
Proof.
  unfold verify_hermes_origin, getitem, header_getitem.
  destruct image as [|primary image]; cbn [lookup list_lookup bind].
  - intros E. left. split; [done|]. by injection E.
  - intros Hm. right. exists primary. split; [done|].
    unfold origin_mismatch, value_at, card_of.
    destruct (cards (hheader primary) !! "ORIGIN") as [[o co]|] eqn:Eo;
      cbn [bind cvalue] in Hm.
    2:{ left. split; [by injection Hm|]. exists "ORIGIN". split; [set_solver|done]. }
    destruct (strip_method o) as [so|eo] eqn:So; cbn [bind] in Hm.
    2:{ right. left. injection Hm as <-.
        assert (eo = AttributeError) as ->
          by (destruct o; [discriminate So|by injection So..]).
        split; [done|]. exists "ORIGIN", o. split; [set_solver|].
        by rewrite ?Eo. }
    destruct o as [o| | |]; try discriminate So.
    cbn [strip_method] in So. apply Ok_inj in So as <-.
    destruct (decide (strip o = "AAO")) as [Ho|Ho].
    2:{ right. right. split; [by injection Hm|]. left. exists o.
        by rewrite ?Eo. }
    destruct (cards (hheader primary) !! "INSTRUME") as [[s cs]|] eqn:Es;
      cbn [bind cvalue] in Hm.
    2:{ left. split; [by injection Hm|]. exists "INSTRUME".
        split; [set_solver|done]. }
    destruct (strip_method s) as [ss|es] eqn:Ss; cbn [bind] in Hm.
    2:{ right. left. injection Hm as <-.
        assert (es = AttributeError) as ->
          by (destruct s; [discriminate Ss|by injection Ss..]).
        split; [done|]. exists "INSTRUME", s. split; [set_solver|].
        by rewrite ?Es. }
    destruct s as [s| | |]; try discriminate Ss.
    cbn [strip_method] in Ss. apply Ok_inj in Ss as <-.
    destruct (decide (strip s = "HERMES-2dF")) as [Hs|Hs]; [discriminate Hm|].
    right. right. split; [by injection Hm|]. right. exists s. by rewrite ?Es.
Qed.

Lemma verify_hermes_origin_errors_witness :
  verify_hermes_origin foreign_image = Raise AssertionError /\
  exists primary, foreign_image !! 0 = Some primary /\ origin_mismatch primary.
Proof.
  assert (verify_hermes_origin foreign_image = Raise AssertionError) as Hrun
    by (vm_compute; reflexivity).
  split; [exact Hrun|].
  destruct (verify_hermes_origin_errors _ _ Hrun)
    as [[Hnil _]|(primary & Hp & Hcase)]; [discriminate Hnil|].
  exists primary. split; [exact Hp|].
  destruct Hcase as [[He _]|[[He _]|[_ Hmis]]];
    [discriminate He|discriminate He|exact Hmis].
Defined.

(** ** The channel of an exposure *)

Lemma split_space_nonempty (s : string) : split_space s <> [].
Proof.
  destruct s as [|a s]; cbn [split_space]; [done|].
  destruct (Ascii.eqb a " "); [done|]. by destruct (split_space s).
Qed.

(** The first piece of [split_space] is what stands before the first
    space. *)
Lemma split_space_head (s w : string) (ws : list string) :
  split_space s = w :: ws ->
  (s = w /\ ws = []) \/ (exists rest, s = w +:+ " " +:+ rest /\ ws = split_space rest).
Proof.
  revert w ws. induction s as [|a s IH]; intros w ws; cbn [split_space].
  - intros E. injection E as <- <-. by left.
  - destruct (Ascii.eqb a " ") eqn:Ha.
    + apply Ascii.eqb_eq in Ha as ->. intros E. injection E as <- <-.
      right. by exists s.
    + destruct (split_space s) as [|w0 ws0] eqn:Hs.
      * by destruct (split_space_nonempty s).
      * intros E. injection E as <- <-.
        destruct (IH _ _ eq_refl) as [[-> ->]|(rest & -> & ->)].
        -- by left.
        -- right. by exists rest.
Qed.

(** X7: what [get_ccd_number] returns is a number from 1 to 4 and the name
    of its channel, and the name is what the comment of the SPLYTEMP card of
    the first HDU holds before its first space. *)
Theorem get_ccd_number_reads_first_word (image : list hdu) (n : Z) (name : string) :
  get_ccd_number image = Ok (n, name) ->
  (1 <= n <= 4)%Z /\
  (n, name) ∈ [(1%Z, "BLUE"); (2%Z, "GREEN"); (3%Z, "RED"); (4%Z, "IR")] /\
  exists primary comment,
    image !! 0 = Some primary /\
    comments_getitem "SPLYTEMP" (hheader primary) = Ok comment /\
    (comment = name \/ exists rest, comment = name +:+ " " +:+ rest).
Proof.
  unfold get_ccd_number, getitem. intros Hm.
  destruct (image !! 0) as [primary|] eqn:Hp; cbn [bind] in Hm; [|discriminate].
  apply bind_Ok in Hm as (comment & Hc & Hm).
  destruct (split_space comment) as [|token pieces] eqn:Hs;
    cbn [lookup list_lookup bind] in Hm; [discriminate|].
  apply bind_Ok in Hm as (number & Hn & Hm).
  apply Ok_inj in Hm. apply pair_equal_spec in Hm as [-> ->].
  assert (exists primary' comment,
            Some primary = Some primary' /\
            comments_getitem "SPLYTEMP" (hheader primary') = Ok comment /\
            (comment = name \/ exists rest, comment = name +:+ " " +:+ rest)) as Hword.
  { exists primary, comment. split; [done|]. split; [done|].
    destruct (split_space_head _ _ _ Hs) as [[-> _]|(rest & -> & _)]; eauto. }
  repeat match type of Hn with
         | (if decide (?a = ?b) then _ else _) = _ =>
             destruct (decide (a = b)) as [->|?]
         end;
    first [ discriminate Hn
          | apply Ok_inj in Hn as <-; split; [lia|]; split; [|exact Hword];
            set_solver ].
Qed.

Lemma get_ccd_number_reads_first_word_witness :
  get_ccd_number sample_image = Ok (2%Z, "GREEN") /\
  exists primary comment,
    sample_image !! 0 = Some primary /\
    comments_getitem "SPLYTEMP" (hheader primary) = Ok comment /\
    (comment = "GREEN" \/ exists rest, comment = "GREEN" +:+ " " +:+ rest).
Proof.
  assert (get_ccd_number sample_image = Ok (2%Z, "GREEN")) as Hrun
    by (vm_compute; reflexivity).
  split; [exact Hrun|].
  destruct (get_ccd_number_reads_first_word sample_image 2 "GREEN" Hrun)
    as (_ & _ & Hword).
  exact Hword.
Defined.

(** X8: [get_ccd_number] raises nothing but IndexError, for an exposure with
    no HDU, and KeyError, when the first HDU has no SPLYTEMP card or when
    the first word of its comment is none of the four channel names. *)
Theorem get_ccd_number_errors (image : list hdu) (e : exn) :
  get_ccd_number image = Raise e ->
  (image = [] /\ e = IndexError) \/
  (e = KeyError /\
   exists primary,
     image !! 0 = Some primary /\
     (card_of "SPLYTEMP" primary = None \/
      exists comment token pieces,
        comments_getitem "SPLYTEMP" (hheader primary) = Ok comment /\
        split_space comment = token :: pieces /\
        ccd_of_channel token = None)).
Proof.
  unfold get_ccd_number, getitem. intros Hm.
  destruct image as [|primary image]; cbn [lookup list_lookup bind] in Hm.
  - left. split; [done|]. by injection Hm.
  - right. unfold comments_getitem, card_of in *.
    destruct (cards (hheader primary) !! "SPLYTEMP") as [c|] eqn:Hc;
      cbn [bind] in Hm.
    + destruct (split_space (ccomment c)) as [|token pieces] eqn:Hs.
      { by destruct (split_space_nonempty (ccomment c)). }
      cbn [lookup list_lookup bind] in Hm.
      assert (ccd_of_channel token = None /\ e = KeyError) as [Hnone ->].
      { unfold ccd_of_channel.
        repeat match type of Hm with
               | context [decide (?a = ?b)] => destruct (decide (a = b)) as [->|?]
               end; cbn [bind] in Hm; try discriminate Hm.
        split; [done|]. by injection Hm. }
      split; [done|]. exists primary. split; [done|]. right.
      exists (ccomment c), token, pieces. by rewrite Hc.
    + split; [by injection Hm|]. exists primary. split; [done|]. by left.
Qed.

Lemma get_ccd_number_errors_witness :
  get_ccd_number [ImageHDU None] = Raise KeyError /\
  exists primary,
    [ImageHDU None] !! 0 = Some primary /\ card_of "SPLYTEMP" primary = None.
Proof.
  assert (get_ccd_number [ImageHDU None] = Raise KeyError) as Hrun
    by (vm_compute; reflexivity).
  split; [exact Hrun|].
  destruct (get_ccd_number_errors [ImageHDU None] KeyError Hrun)
    as [[Hnil _]|(_ & primary & Hp & Hcase)]; [discriminate Hnil|].
  exists primary. split; [exact Hp|].
  destruct Hcase as [Hnone|(comment & token & pieces & Hc & _)]; [exact Hnone|].
  exfalso. cbn [lookup list_lookup] in Hp. injection Hp as <-.
  revert Hc. vm_compute. discriminate.
Defined.


(** ** The placeholders *)

(** A card written with [header[k] = v] and [header.comments[k] = c] is the
    card that [header.set(k, v, c)] writes. *)
Lemma set_card (k : string) (v : value) (c : string) (h : hdu) :
  is_commentary k = false ->
  with_headerM (comments_setitem k c) (with_header (header_setitem k v) h)
  = Ok (with_header (header_set k v c) h).
Proof.
  intros Hk. unfold with_headerM, with_header, comments_setitem, header_set.
  cbn [hheader hclass hdata].
  destruct (header_setitem_inv k v (hheader h) Hk) as [c' ->].
  cbn [cards commentary]. rewrite lookup_insert_eq. cbn [bind cvalue].
  by rewrite insert_insert_eq.
Qed.

Lemma ImageHDU_None :
  hclass (ImageHDU None) = ImageClass /\ hdata (ImageHDU None) = NoData /\
  commentary (hheader (ImageHDU None)) = [] /\
  dom (cards (hheader (ImageHDU None))) = list_to_set empty_extension_keys.
Proof.
  by split_and!.
Qed.

Section copy_axis_total.
Variable source : fits_header.

Let copy_card (h : hdu) (key : string) : result hdu :=
  v <- header_getitem key source ;;
  let h := with_header (header_setitem key v) h in
  c <- comments_getitem key source ;;
  with_headerM (comments_setitem key c) h.

Lemma copy_card_step (h : hdu) (key : string) :
  is_commentary key = false ->
  copy_card h key
  = match cards source !! key with
    | Some c => Ok (with_header (header_set key (cvalue c) (ccomment c)) h)
    | None => Raise KeyError
    end.
Proof.
  intros Hk. unfold copy_card, header_getitem, comments_getitem.
  destruct (cards source !! key) as [c|]; [|done].
  cbn [bind]. by apply set_card.
Qed.


Lemma copy_cards_raises (l : list string) (h : hdu) (e : exn) :
  Forall (fun key => is_commentary key = false) l ->
  foldM copy_card h l = Raise e ->
  e = KeyError /\ exists key, key ∈ l /\ cards source !! key = None.
Proof.
  intros Hl. revert h. induction Hl as [|key l Hkey Hl IH]; intros h.
  - discriminate.
  - cbn [foldM]. rewrite (copy_card_step _ _ Hkey).
    destruct (cards source !! key) as [c|] eqn:Hc; cbn [bind].
    + intros Hm. destruct (IH _ Hm) as (-> & K & HK & HN).
      split; [done|]. exists K. split; [by apply list_elem_of_further|done].
    + intros E. split; [by injection E|].
      exists key. split; [apply list_elem_of_here|done].
Qed.

End copy_axis_total.

Lemma wavelength_keys_cards :
  Forall (fun key => is_commentary key = false) wavelength_keys.
Proof. unfold wavelength_keys. by repeat constructor. Qed.


Lemma copy_wavelength_axis_raises (source : fits_header) (h : hdu) (e : exn) :
  copy_wavelength_axis source h = Raise e ->
  e = KeyError /\ exists key, key ∈ wavelength_keys /\ cards source !! key = None.
Proof. apply copy_cards_raises, wavelength_keys_cards. Qed.

(** The loop of [dummy_ccf_hdu] over its default cards. *)
Lemma default_cards_Ok (l : list (string * string)) (h h' : hdu) :
  Forall (fun key => is_commentary key = false) l.*1 ->
  NoDup l.*1 ->
  foldM (fun h '(key, comment) =>
           let h := with_header (header_setitem key (VStr "NaN")) h in
           with_headerM (comments_setitem key comment) h) h l = Ok h' ->
  hclass h' = hclass h /\ hdata h' = hdata h /\
  commentary (hheader h') = commentary (hheader h) /\
  Forall (fun '(key, comment) =>
            cards (hheader h') !! key = Some (Card (VStr "NaN") comment)) l /\
  (forall K, K ∉ l.*1 -> cards (hheader h') !! K = cards (hheader h) !! K) /\
  dom (cards (hheader h')) = dom (cards (hheader h)) ∪ list_to_set l.*1.
Proof.
  revert h. induction l as [|[key comment] l IH]; intros h Hl Hnd Hm.
  - cbn [foldM] in Hm. apply Ok_inj in Hm as <-. split_and!; try done.
    cbn [fmap list_fmap list_to_set foldr]. set_solver.
  - cbn [fmap list_fmap fst] in Hl, Hnd.
    apply Forall_cons in Hl as [Hkey Hl]. apply NoDup_cons in Hnd as [Hnew Hnd].
    cbn [foldM] in Hm. rewrite (set_card _ _ _ _ Hkey) in Hm. cbn [bind] in Hm.
    destruct (IH _ Hl Hnd Hm) as (Hc & Hd & Hcm & Hin & Hout & Hdom).
    unfold with_header in Hc, Hd, Hcm, Hout, Hdom.
    cbn [hclass hdata hheader] in Hc, Hd, Hcm, Hout, Hdom.
    rewrite header_set_commentary in Hcm.
    split_and!; try done.
    + apply Forall_cons; split; [|done].
      rewrite (Hout _ Hnew). apply header_set_lookup_eq.
    + intros K HK. cbn [fmap list_fmap fst] in HK.
      apply not_elem_of_cons in HK as [Hne HK].
      by rewrite (Hout _ HK), header_set_lookup_ne.
    + rewrite Hdom, header_set_cards, dom_insert_L.
      cbn [fmap list_fmap fst list_to_set foldr]. set_solver.
Qed.

Lemma default_cards_total (l : list (string * string)) (h : hdu) :
  Forall (fun key => is_commentary key = false) l.*1 ->
  exists h',
    foldM (fun h '(key, comment) =>
             let h := with_header (header_setitem key (VStr "NaN")) h in
             with_headerM (comments_setitem key comment) h) h l = Ok h'.
Proof.
  revert h. induction l as [|[key comment] l IH]; intros h Hl.
  - by eexists.
  - cbn [fmap list_fmap fst] in Hl. apply Forall_cons in Hl as [Hkey Hl].
    cbn [foldM]. rewrite (set_card _ _ _ _ Hkey). cbn [bind]. by apply IH.
Qed.

Lemma keys_single (k : string) : ({[k]} : gset string) = list_to_set [k].
Proof. cbn [list_to_set foldr]. set_solver. Qed.

Lemma keys_pair (k1 k2 : string) : ({[k1; k2]} : gset string) = list_to_set [k1; k2].
Proof. cbn [list_to_set foldr]. set_solver. Qed.

Section placeholders.
Context `{Externals}.

Lemma dummy_ccf_hdu_total (hdulist : option (list hdu)) :
  exists ccf, dummy_ccf_hdu hdulist = Ok ccf.
Proof.
  unfold dummy_ccf_hdu. rewrite set_card by done. cbn [bind].
  match goal with
  | |- context [foldM ?f ?h default_headers] =>
      assert (exists b, foldM f h default_headers = Ok b) as [b ->]
  end.
  - apply default_cards_total.
    unfold default_headers. cbn [fmap list_fmap fst]. by repeat constructor.
  - cbn [bind]. by eexists.
Qed.

(** The contents of the CCF placeholder. *)
Lemma ccf_placeholder (hdulist : option (list hdu)) (ccf : hdu) :
  dummy_ccf_hdu hdulist = Ok ccf ->
  hclass ccf = ImageClass /\ hdata ccf = NoData /\
  commentary (hheader ccf) = [] /\
  card_of "EXTNAME" ccf
    = Some (Card (VStr "CCF") "CCF from best-fitting template") /\
  Forall (fun '(key, comment) =>
            card_of key ccf = Some (Card (VStr "NaN") comment))
         default_headers /\
  dom (cards (hheader ccf))
    = list_to_set (empty_extension_keys ++ ["EXTNAME"] ++ default_headers.*1
                   ++ checksum_keys)%list /\
  checksum_valid ccf.
Proof.
  unfold dummy_ccf_hdu. intros Hccf.
  apply bind_Ok in Hccf as (a & E & Hm).
  apply bind_Ok in Hm as (b & Hloop & Hm).
  apply Ok_inj in Hm as <-.
  apply set_extname_Ok in E as (Bc & Bd & Bcm & Bn & Bf & Bdom).
  apply default_cards_Ok in Hloop as (Lc & Ld & Lcm & Lin & Lout & Ldom).
  2:{ unfold default_headers. cbn [fmap list_fmap fst]. by repeat constructor. }
  2:{ unfold default_headers. cbn [fmap list_fmap fst].
      repeat (apply NoDup_cons; split; [solve_notin|]). apply NoDup_nil_2. }
  destruct (add_checksum_frame b) as (Cc & Cd & Ccm & Cf & Cdom).
  destruct ImageHDU_None as (Ic & Id & Icm & Idom).
  split_and!.
  - by rewrite Cc, Lc, Bc.
  - by rewrite Cd, Ld, Bd.
  - by rewrite Ccm, Lcm, Bcm.
  - unfold card_of. rewrite Cf, Lout, Bn; [done| |done..].
    unfold default_headers. cbn [fmap list_fmap fst]. solve_notin.
  - unfold default_headers in Lin |- *.
    repeat (apply Forall_cons in Lin as [?%eq_sym Lin]).
    repeat (apply Forall_cons; split;
            [unfold card_of; rewrite Cf by done; by symmetry|]).
    apply Forall_nil_2.
  - rewrite Cdom, Ldom, Bdom, Idom, keys_single, keys_pair.
    rewrite !list_to_set_app_L. unfold checksum_keys.
    by rewrite <- !(assoc_L (∪)).
  - apply add_checksum_valid.
Qed.

(** X9: [dummy_ccf_hdu] returns, whatever it is given, an image extension
    with no data that is named CCF, whose six result cards VRAD, U_VRAD,
    TEFF, LOGG, FE_H and ALPHA_FE hold the string NaN with their comments,
    and whose other cards are those of an empty image extension and the
    checksums of its final content. *)
Theorem dummy_ccf_hdu_contents (hdulist : option (list hdu)) :
  exists ccf,
    dummy_ccf_hdu hdulist = Ok ccf /\
    dummy_ccf_hdu None = Ok ccf /\
    hclass ccf = ImageClass /\ hdata ccf = NoData /\
    commentary (hheader ccf) = [] /\
    card_of "EXTNAME" ccf
      = Some (Card (VStr "CCF") "CCF from best-fitting template") /\
    Forall (fun '(key, comment) =>
              card_of key ccf = Some (Card (VStr "NaN") comment))
           default_headers /\
    dom (cards (hheader ccf))
      = list_to_set (empty_extension_keys ++ ["EXTNAME"] ++ default_headers.*1
                     ++ checksum_keys)%list /\
    checksum_valid ccf.
Proof.
  destruct (dummy_ccf_hdu_total hdulist) as [ccf Hccf].
  exists ccf. split; [exact Hccf|]. split; [exact Hccf|].
  exact (ccf_placeholder hdulist ccf Hccf).
Qed.

(** A placeholder of [dummy_normalisation_hdus], from what the loop over the
    wavelength axis leaves. *)
Lemma normalisation_placeholder (source : fits_header) (name comment : string)
    (h u : hdu) :
  copy_wavelength_axis source (ImageHDU None) = Ok h ->
  with_headerM (comments_setitem "EXTNAME" comment)
    (with_header (header_setitem "EXTNAME" (VStr name)) h) = Ok u ->
  card_of "EXTNAME" (add_checksum u) = Some (Card (VStr name) comment) /\
  hclass (add_checksum u) = ImageClass /\ hdata (add_checksum u) = NoData /\
  commentary (hheader (add_checksum u)) = [] /\
  (forall key, key ∈ wavelength_keys ->
     is_Some (cards source !! key) /\
     card_of key (add_checksum u) = cards source !! key) /\
  dom (cards (hheader (add_checksum u)))
    = list_to_set (empty_extension_keys ++ wavelength_keys ++ ["EXTNAME"]
                   ++ checksum_keys)%list /\
  checksum_valid (add_checksum u).
Proof.
  intros Hcopy Hname.
  apply copy_wavelength_axis_Ok in Hcopy as (Ac & Ad & Acm & Ain & Aout & Adom).
  apply set_extname_Ok in Hname as (Bc & Bd & Bcm & Bn & Bf & Bdom).
  destruct (add_checksum_frame u) as (Cc & Cd & Ccm & Cf & Cdom).
  destruct ImageHDU_None as (Ic & Id & Icm & Idom).
  split_and!.
  - unfold card_of. by rewrite Cf.
  - by rewrite Cc, Bc, Ac.
  - by rewrite Cd, Bd, Ad.
  - by rewrite Ccm, Bcm, Acm.
  - intros key Hkey. destruct (Ain key Hkey) as [Hs Heq]. split; [done|].
    unfold card_of. unfold wavelength_keys in Hkey.
    rewrite Cf, Bf, Heq; [done|cases_elem Hkey; done..].
  - rewrite Cdom, Bdom, Adom, Idom, keys_single, keys_pair.
    rewrite !list_to_set_app_L. unfold checksum_keys.
    by rewrite <- !(assoc_L (∪)).
  - apply add_checksum_valid.
Qed.

(** The two placeholders that [dummy_normalisation_hdus] makes for a
    list. *)
Lemma dummy_normalisation_hdus_inv (first : hdu) (rest ns : list hdu) :
  dummy_normalisation_hdus (Some (first :: rest)) = Ok ns ->
  exists h1 u1 h2 u2,
    copy_wavelength_axis (hheader first) (ImageHDU None) = Ok h1 /\
    with_headerM (comments_setitem "EXTNAME" "Normalised spectrum flux")
      (with_header (header_setitem "EXTNAME" (VStr "normalised_spectrum")) h1)
    = Ok u1 /\
    copy_wavelength_axis (hheader first) (ImageHDU None) = Ok h2 /\
    with_headerM (comments_setitem "EXTNAME" "Normalised flux sigma")
      (with_header (header_setitem "EXTNAME" (VStr "normalised_sigma")) h2)
    = Ok u2 /\
    ns = [add_checksum u1; add_checksum u2].
Proof.
  unfold dummy_normalisation_hdus. cbn [getitem lookup list_lookup bind].
  intros Hm.
  apply bind_Ok in Hm as (h1 & Hc1 & Hm).
  apply bind_Ok in Hm as (u1 & E1 & Hm).
  apply bind_Ok in Hm as (h2 & Hc2 & Hm).
  apply bind_Ok in Hm as (u2 & E2 & Hm).
  apply Ok_inj in Hm as <-.
  by exists h1, u1, h2, u2.
Qed.

(** X10: given a list, [dummy_normalisation_hdus] returns two image
    extensions with no data, named normalised_spectrum and normalised_sigma;
    each has the cards CRVAL1, CDELT1, CRPIX1, CTYPE1 and CUNIT1 of the first
    HDU of the list, value and comment, and besides them only the cards of
    an empty image extension, EXTNAME and the checksums of its final
    content. *)
Theorem dummy_normalisation_hdus_copies_axis (first : hdu) (rest ns : list hdu) :
  dummy_normalisation_hdus (Some (first :: rest)) = Ok ns ->
  exists n1 n2,
    ns = [n1; n2] /\
    card_of "EXTNAME" n1
      = Some (Card (VStr "normalised_spectrum") "Normalised spectrum flux") /\
    card_of "EXTNAME" n2
      = Some (Card (VStr "normalised_sigma") "Normalised flux sigma") /\
    Forall (fun n =>
              hclass n = ImageClass /\ hdata n = NoData /\
              commentary (hheader n) = [] /\
              (forall key, key ∈ wavelength_keys ->
                 is_Some (card_of key first) /\
                 card_of key n = card_of key first) /\
              dom (cards (hheader n))
                = list_to_set (empty_extension_keys ++ wavelength_keys
                               ++ ["EXTNAME"] ++ checksum_keys)%list /\
              checksum_valid n)
           [n1; n2].
Proof.
  intros (h1 & u1 & h2 & u2 & Hc1 & E1 & Hc2 & E2 & ->)%dummy_normalisation_hdus_inv.
  destruct (normalisation_placeholder _ _ _ _ _ Hc1 E1)
    as (N1 & P1c & P1d & P1cm & P1w & P1dom & P1v).
  destruct (normalisation_placeholder _ _ _ _ _ Hc2 E2)
    as (N2 & P2c & P2d & P2cm & P2w & P2dom & P2v).
  eexists _, _. split; [reflexivity|]. split; [exact N1|]. split; [exact N2|].
  apply Forall_cons; split; [by split_and!|].
  apply Forall_cons; split; [by split_and!|]. apply Forall_nil_2.
Qed.

(** X11: given a list, [dummy_normalisation_hdus] returns exactly when the
    list has a first HDU with the five cards of the wavelength axis; it
    raises IndexError for an empty list and KeyError when one of the five
    cards is missing. *)
Theorem dummy_normalisation_hdus_needs_axis (hdulist : list hdu) :
  match dummy_normalisation_hdus (Some hdulist) with
  | Ok _ =>
      exists first rest,
        hdulist = first :: rest /\
        forall key, key ∈ wavelength_keys -> is_Some (card_of key first)
  | Raise e =>
      (hdulist = [] /\ e = IndexError) \/
      (e = KeyError /\
       exists first rest key,
         hdulist = first :: rest /\ key ∈ wavelength_keys /\
         card_of key first = None)
  end.
Proof.
  unfold dummy_normalisation_hdus.
  destruct hdulist as [|first rest]; cbn [getitem lookup list_lookup bind].
  - left. by split.
  - destruct (copy_wavelength_axis (hheader first) (ImageHDU None))
      as [h|e] eqn:Hcopy; cbn [bind].
    + rewrite set_card by done. cbn [bind]. rewrite set_card by done.
      cbn [bind]. exists first, rest. split; [done|].
      apply copy_wavelength_axis_Ok in Hcopy as (_ & _ & _ & Hin & _).
      intros key Hkey. by destruct (Hin key Hkey).
    + right. apply copy_wavelength_axis_raises in Hcopy as (-> & key & Hkey & Hn).
      split; [done|]. by exists first, rest, key.
Qed.

(** X12: without a list, [dummy_normalisation_hdus] always returns its two
    placeholders, with no data and with none of the cards of the wavelength
    axis. *)
Theorem dummy_normalisation_hdus_default :
  exists n1 n2,
    dummy_normalisation_hdus None = Ok [n1; n2] /\
    card_of "EXTNAME" n1
      = Some (Card (VStr "normalised_spectrum") "Normalised spectrum flux") /\
    card_of "EXTNAME" n2
      = Some (Card (VStr "normalised_sigma") "Normalised flux sigma") /\
    Forall (fun n =>
              hclass n = ImageClass /\ hdata n = NoData /\
              (forall key, key ∈ wavelength_keys -> card_of key n = None) /\
              dom (cards (hheader n))
                = list_to_set (empty_extension_keys ++ ["EXTNAME"]
                               ++ checksum_keys)%list /\
              checksum_valid n)
           [n1; n2].
Proof.
  unfold dummy_normalisation_hdus. cbn [bind]. rewrite !set_card by done.
  cbn [bind]. eexists _, _. split; [reflexivity|].
  assert (forall name comment,
    let n := add_checksum
               (with_header (header_set "EXTNAME" (VStr name) comment)
                  (ImageHDU None)) in
    card_of "EXTNAME" n = Some (Card (VStr name) comment) /\
    hclass n = ImageClass /\ hdata n = NoData /\
    (forall key, key ∈ wavelength_keys -> card_of key n = None) /\
    dom (cards (hheader n))
      = list_to_set (empty_extension_keys ++ ["EXTNAME"] ++ checksum_keys)%list /\
    checksum_valid n) as Hgen.
  { intros name comment n.
    destruct (add_checksum_frame
                (with_header (header_set "EXTNAME" (VStr name) comment)
                   (ImageHDU None))) as (Cc & Cd & Ccm & Cf & Cdom).
    destruct ImageHDU_None as (Ic & Id & Icm & Idom).
    assert (dom (cards (hheader n))
            = list_to_set (empty_extension_keys ++ ["EXTNAME"]
                           ++ checksum_keys)%list) as Hdom.
    { unfold n. rewrite Cdom. unfold with_header. cbn [hheader].
      rewrite header_set_cards, dom_insert_L, Idom, keys_pair.
      rewrite !list_to_set_app_L. unfold checksum_keys.
      rewrite (union_comm_L {["EXTNAME"]}), keys_single.
      by rewrite <- !(assoc_L (∪)). }
    split_and!.
    - unfold card_of, n. rewrite Cf by done. apply header_set_lookup_eq.
    - done.
    - done.
    - intros key Hkey. unfold card_of. apply not_elem_of_dom. rewrite Hdom.
      unfold wavelength_keys in Hkey.
      unfold empty_extension_keys, checksum_keys. cbn [app].
      rewrite elem_of_list_to_set. cases_elem Hkey; solve_notin.
    - exact Hdom.
    - apply add_checksum_valid. }
  destruct (Hgen "normalised_spectrum" "Normalised spectrum flux")
    as (N1 & P1c & P1d & P1w & P1dom & P1v).
  destruct (Hgen "normalised_sigma" "Normalised flux sigma")
    as (N2 & P2c & P2d & P2w & P2dom & P2v).
  split; [exact N1|]. split; [exact N2|].
  apply Forall_cons; split; [by split_and!|].
  apply Forall_cons; split; [by split_and!|]. apply Forall_nil_2.
Qed.

End placeholders.

Lemma dummy_normalisation_hdus_copies_axis_witness :
  exists n1 n2,
    @dummy_normalisation_hdus (sample_externals sample_image) (Some sample_image)
      = Ok [n1; n2] /\
    card_of "CRVAL1" n1
      = Some (Card (VFloat 5000) "Co-ordinate value of axis 1") /\
    card_of "CRVAL1" n2 = card_of "CRVAL1" n1.
Proof.
  destruct (@dummy_normalisation_hdus (sample_externals sample_image)
              (Some sample_image)) as [ns|e] eqn:Hrun.
  - destruct (@dummy_normalisation_hdus_copies_axis (sample_externals sample_image)
                (sample_data_hdu sample_primary_header)
                [sample_variance_hdu; sample_fibres_hdu] ns Hrun)
      as (n1 & n2 & -> & _ & _ & Hall).
    exists n1, n2. split; [reflexivity|].
    apply Forall_cons in Hall as [(_ & _ & _ & H1 & _) Hall].
    apply Forall_cons in Hall as [(_ & _ & _ & H2 & _) _].
    assert ("CRVAL1" ∈ wavelength_keys) as Hkey by apply list_elem_of_here.
    destruct (H1 _ Hkey) as [_ E1]. destruct (H2 _ Hkey) as [_ E2].
    split; [rewrite E1; vm_compute; reflexivity|].
    by rewrite E1, E2.
  - exfalso. revert Hrun. vm_compute. discriminate.
Defined.


(** ** The stages of a run *)

Section stages.
Context `{Externals}.

(** The stages that the body of the loop went through when it returned. *)
Lemma extract_source_stages (image : list hdu) (ext : extensions)
    (tmpl : fits_header) (dummy_hdus : bool) (i : nat) (p : list hdu) :
  extract_source image ext tmpl dummy_hdus i = Ok p ->
  exists data_hdu row variance_hdu vrow hdr f0 s0 f1 s1,
    getitem image (ext_data ext) = Ok data_hdu /\
    image_row data_hdu i = Ok row /\
    getitem image (ext_variance ext) = Ok variance_hdu /\
    image_row variance_hdu i = Ok vrow /\
    object_header image ext tmpl i = Ok hdr /\
    input_hdus row vrow hdr = Ok (f0, s0) /\
    barycentric_correction hdr f0 s0 = Ok (f1, s1) /\
    assemble dummy_hdus f1 s1 = Ok p.
Proof.
  unfold extract_source. intros Hm.
  apply bind_Ok in Hm as (data_hdu & Hd & Hm).
  apply bind_Ok in Hm as (row & Hrow & Hm).
  apply bind_Ok in Hm as (variance_hdu & Hv & Hm).
  apply bind_Ok in Hm as (vrow & Hvrow & Hm).
  apply bind_Ok in Hm as (hdr & Hhdr & Hm).
  apply bind_Ok in Hm as ([f0 s0] & Hin & Hm).
  apply bind_Ok in Hm as ([f1 s1] & Hcor & Hm).
  cbn [fst snd] in Hcor, Hm.
  exists data_hdu, row, variance_hdu, vrow, hdr, f0, s0, f1, s1.
  by split_and!.
Qed.

(** The product with the placeholders is the product without them, followed
    by what [dummy_normalisation_hdus] makes of it and by the CCF
    placeholder. *)
Lemma assemble_placeholders (f s : hdu) (p : list hdu) :
  assemble true f s = Ok p ->
  exists flux sigma n1 n2 ccf,
    p = [flux; sigma; n1; n2; ccf] /\
    assemble false f s = Ok [flux; sigma] /\
    dummy_normalisation_hdus (Some [flux; sigma]) = Ok [n1; n2] /\
    dummy_ccf_hdu None = Ok ccf.
Proof.
  unfold assemble.
  destruct (HDUList_pair f s) as (f' & -> & _ & _ & _ & _ & Fs).
  cbn [map]. intros Hm.
  apply bind_Ok in Hm as (ns & Hn & Hm).
  apply bind_Ok in Hm as (ccf & Hccf & Hm).
  apply Ok_inj in Hm as <-.
  destruct (dummy_normalisation_hdus_Ok _ _ Hn) as (n1 & n2 & -> & _).
  unfold hdulist_append. cbn [app].
  rewrite update_extend_settled by by apply add_checksum_settled.
  exists (add_checksum f'), (add_checksum s), n1, n2, ccf.
  by split_and!.
Qed.

(** What a run went through when it returned. *)
Lemma from_2dfdr_stages (filename : string) (dummy_hdus : bool)
    (w w' : world) (products : list (list hdu)) :
  from_2dfdr filename dummy_hdus w = (Ok products, w') ->
  exists image ext tmpl primary variance_hdu fibres types,
    fits_open filename = Ok image /\
    read_2dfdr_extensions image = Ok ext /\
    ext_data ext = 0 /\
    verify_hermes_origin image = Ok tt /\
    build_header_template image ext = Ok tmpl /\
    image !! 0 = Some primary /\
    image !! ext_variance ext = Some variance_hdu /\
    fibre_table image = Ok fibres /\
    getitem image (ext_fibres ext) = Ok fibres /\
    table_column fibres "TYPE" = Ok types /\
    Forall2 (fun i p => extract_source image ext tmpl dummy_hdus i = Ok p)
            (np_where_eq "P" types) products /\
    w' = w.
Proof.
  intros (image & Hopen & Hsrc & ->)%from_2dfdr_Ok.
  apply extract_sources_Ok in Hsrc
    as (ext & tmpl & fibres & types & Hext & Hver & Htmpl & Hfib & Htypes & Hall).
  destruct (read_2dfdr_extensions_data _ _ Hext)
    as (Hdata & variance_hdu & Hv).
  destruct (build_header_template_Ok _ _ _ Htmpl) as (primary & _ & _ & Hp & _).
  rewrite Hdata in Hp. unfold getitem in Hp.
  destruct (image !! 0) as [primary'|] eqn:Hp'; [|discriminate].
  apply Ok_inj in Hp as ->.
  exists image, ext, tmpl, primary, variance_hdu, fibres, types.
  split_and!; try done.
  - unfold fibre_table. by rewrite Hext.
  - apply close_opened.
Qed.

End stages.


(** ** The data and the placeholders of a product *)


Section product_data.
Context `{Externals}.

(** The placeholders of a product. *)
Lemma placeholders_Ok (flux sigma n1 n2 ccf : hdu) :
  dummy_normalisation_hdus (Some [flux; sigma]) = Ok [n1; n2] ->
  dummy_ccf_hdu None = Ok ccf ->
  Forall (fun h => hclass h = ImageClass /\ hdata h = NoData) [n1; n2; ccf] /\
  (forall key, key ∈ wavelength_keys ->
     is_Some (card_of key flux) /\
     card_of key n1 = card_of key flux /\
     card_of key n2 = card_of key flux /\
     card_of key ccf = None) /\
  Forall (fun '(key, comment) =>
            card_of key ccf = Some (Card (VStr "NaN") comment))
         default_headers.
Proof.
  intros Hn Hccf.
  destruct (ccf_placeholder _ _ Hccf) as (Cc & Cd & _ & _ & Hnan & Hdom & _).
  clear Hccf.
  apply dummy_normalisation_hdus_inv in Hn
    as (h1 & u1 & h2 & u2 & Hc1 & E1 & Hc2 & E2 & Hns).
  assert (n1 = add_checksum u1 /\ n2 = add_checksum u2) as [-> ->]
    by (by injection Hns).
  clear Hns.
  destruct (normalisation_placeholder _ _ _ _ _ Hc1 E1)
    as (_ & N1c & N1d & _ & N1w & _).
  destruct (normalisation_placeholder _ _ _ _ _ Hc2 E2)
    as (_ & N2c & N2d & _ & N2w & _).
  split_and!.
  - repeat (apply Forall_cons; split; [done|]). apply Forall_nil_2.
  - intros key Hkey. destruct (N1w key Hkey) as [Hs E1'].
    destruct (N2w key Hkey) as [_ E2']. split_and!; try done.
    unfold card_of. apply not_elem_of_dom. rewrite Hdom.
    unfold wavelength_keys in Hkey.
    unfold empty_extension_keys, default_headers, checksum_keys.
    cbn [app fmap list_fmap fst]. rewrite elem_of_list_to_set.
    cases_elem Hkey; solve_notin.
  - exact Hnan.
Qed.



Lemma extract_source_placeholders (image : list hdu) (ext : extensions)
    (tmpl : fits_header) (i : nat) (p : list hdu) :
  extract_source image ext tmpl true i = Ok p -> placeholders_of p.
Proof.
  intros (data_hdu & row & variance_hdu & vrow & hdr & f0 & s0 & f1 & s1
          & _ & _ & _ & _ & _ & _ & _ & Hasm)%extract_source_stages.
  apply assemble_placeholders in Hasm
    as (flux & sigma & n1 & n2 & ccf & -> & _ & Hn & Hccf).
  destruct (placeholders_Ok _ _ _ _ _ Hn Hccf) as (_ & Haxis & Hnan).
  clear Hccf. by exists flux, sigma, n1, n2, ccf.
Qed.

(** X14: with the placeholder switch on, every product of a run is five
    HDUs; normalised_spectrum and normalised_sigma have the five cards of the
    wavelength axis of input_spectrum as they are after the Doppler
    correction, value and comment; the CCF has none of them and holds its six
    result cards, each the string NaN. *)
Theorem placeholders_follow_corrected_axis (filename : string)
    (w w' : world) (products : list (list hdu)) :
  from_2dfdr filename true w = (Ok products, w') ->
  Forall placeholders_of products.
Proof.
  intros (image & ext & tmpl & primary & variance_hdu & fibres & types
          & _ & _ & _ & _ & _ & _ & _ & _ & _ & _ & Hall & _)%from_2dfdr_stages.
  eapply Forall2_right; [exact Hall|]. intros i p Hprod. cbn beta in Hprod.
  by apply extract_source_placeholders in Hprod.
Qed.

End product_data.


Lemma placeholders_follow_corrected_axis_witness :
  exists products w',
    sample_run true = (Ok products, w') /\ Forall placeholders_of products.
Proof.
  destruct (sample_run true) as [r w'] eqn:Hrun. destruct r as [products|e].
  - exists products, w'. split; [reflexivity|].
    exact (@placeholders_follow_corrected_axis (sample_externals sample_image)
             "combined.fits" [] w' products Hrun).
  - run_succeeded Hrun.
Defined.


(** ** The header of the flux extension *)

Lemma card_of_parts (c : option card) (v : value) (comment : string) :
  cvalue <$> c = Some v -> ccomment <$> c = Some comment ->
  c = Some (Card v comment).
Proof.
  destruct c as [[v' c']|]; cbn [fmap option_fmap option_map cvalue ccomment];
    [|discriminate].
  intros Hv Hc. injection Hv as ->. by injection Hc as ->.
Qed.

(** The comments that the loop over [keyword_comments] leaves. *)
Lemma set_comments_comment (l : list (string * string)) (h h' : fits_header) :
  NoDup l.*1 ->
  foldM (fun h '(key, comment) => comments_setitem key comment h) h l = Ok h' ->
  Forall (fun '(key, comment) => ccomment <$> cards h' !! key = Some comment) l.
Proof.
  revert h. induction l as [|[key comment] l IH]; intros h Hnd Hm.
  - apply Forall_nil_2.
  - cbn [fmap list_fmap fst] in Hnd. apply NoDup_cons in Hnd as [Hnew Hnd].
    cbn [foldM] in Hm. apply bind_Ok in Hm as (h1 & E & Hm).
    apply Forall_cons. split; [|by apply (IH h1)].
    destruct (set_comments_Ok _ _ _ Hm) as (_ & Hframe & _).
    rewrite (Hframe _ Hnew). by apply (comments_setitem_comment _ _ _ _ E).
Qed.

(** The fields that [add_fibre_information] stores as it reads them. *)
Lemma add_fibre_information_fields (fibres : hdu) (i : nat) (h h' : fits_header) :
  add_fibre_information fibres i h = Ok h' ->
  Forall (fun '(column, key, _) =>
            exists v, table_field fibres i column = Ok v /\
                      cvalue <$> cards h' !! key = Some v)
         copied_fields.
Proof.
  unfold add_fibre_information. simpl foldM. intros Hm.
  apply bind_Ok in Hm as (h1 & F1 & Hm). apply bind_Ok in F1 as (v1 & E1 & F1).
  apply Ok_inj in F1 as <-.
  apply bind_Ok in Hm as (h2 & F2 & Hm). apply bind_Ok in F2 as (v2 & E2 & F2).
  apply Ok_inj in F2 as <-.
  apply bind_Ok in Hm as (h3 & F3 & Hm). apply bind_Ok in F3 as (v3 & E3 & F3).
  apply Ok_inj in F3 as <-.
  apply bind_Ok in Hm as (h4 & F4 & Hm). apply bind_Ok in F4 as (v4 & E4 & F4).
  apply Ok_inj in F4 as <-.
  apply bind_Ok in Hm as (h5 & F5 & Hm). apply bind_Ok in F5 as (v5 & E5 & F5).
  apply Ok_inj in F5 as <-.
  apply bind_Ok in Hm as (h6 & F6 & Hm). apply bind_Ok in F6 as (v6 & E6 & F6).
  apply Ok_inj in F6 as <-.
  apply bind_Ok in Hm as (h7 & F7 & Hm). apply bind_Ok in F7 as (v7 & E7 & F7).
  apply Ok_inj in F7 as <-.
  apply Ok_inj in Hm as <-.
  unfold copied_fields.
  apply Forall_cons; split; [exists v1; split; [exact E1|by through_setitem]|].
  apply Forall_cons; split; [exists v4; split; [exact E4|by through_setitem]|].
  apply Forall_cons; split; [exists v5; split; [exact E5|by through_setitem]|].
  apply Forall_cons; split; [exists v6; split; [exact E6|by through_setitem]|].
  apply Forall_cons; split; [exists v7; split; [exact E7|by through_setitem]|].
  apply Forall_nil_2.
Qed.

(** The cards of the catalogue in the header of an object. *)
Lemma object_header_fields (image : list hdu) (ext : extensions)
    (tmpl : fits_header) (i : nat) (hdr : fits_header) :
  object_header image ext tmpl i = Ok hdr ->
  exists fibres,
    getitem image (ext_fibres ext) = Ok fibres /\
    Forall (fun '(column, key, comment) =>
              exists v, table_field fibres i column = Ok v /\
                        cards hdr !! key = Some (Card v comment))
           copied_fields /\
    cards hdr !! "FIBRE" = Some (Card (VInt (Z.of_nat i + 1)) "Fibre number") /\
    ccomment <$> cards hdr !! "RA" = Some "Right Ascension (degrees)" /\
    ccomment <$> cards hdr !! "DEC" = Some "Declination (degrees)".
Proof.
  intros Hm. pose proof (object_header_Ok _ _ _ _ _ Hm)
    as (fibres & ra & dec & ra' & dec' & _ & _ & _ & _ & _ & _ & _ & Hfibre & _).
  unfold object_header in Hm. apply bind_Ok in Hm as (fibres' & Hfib & Hm).
  apply bind_Ok in Hm as (h1 & Hadd & Hm).
  apply bind_Ok in Hm as (h2 & Hdeg & Hm).
  exists fibres'. split; [done|].
  apply add_fibre_information_fields in Hadd.
  apply radians_to_degrees_Ok in Hdeg
    as (_ & _ & _ & _ & _ & _ & _ & _ & _ & _ & Hframe & _).
  destruct (set_comments_Ok _ _ _ Hm) as (Hvalues & _ & _).
  apply set_comments_comment in Hm.
  2:{ unfold keyword_comments. cbn [fmap list_fmap fst].
      repeat (apply NoDup_cons; split; [solve_notin|]). apply NoDup_nil_2. }
  unfold keyword_comments in Hm. unfold copied_fields in Hadd |- *.
  apply Forall_cons in Hm as [Cname Hm]. apply Forall_cons in Hm as [Cdescr Hm].
  apply Forall_cons in Hm as [Cmag Hm]. apply Forall_cons in Hm as [Cra Hm].
  apply Forall_cons in Hm as [Cdec Hm]. apply Forall_cons in Hm as [Cpmra Hm].
  apply Forall_cons in Hm as [Cpmdec Hm]. apply Forall_cons in Hm as [Cfibre _].
  apply Forall_cons in Hadd as [(v1 & T1 & V1) Hadd].
  apply Forall_cons in Hadd as [(v2 & T2 & V2) Hadd].
  apply Forall_cons in Hadd as [(v3 & T3 & V3) Hadd].
  apply Forall_cons in Hadd as [(v4 & T4 & V4) Hadd].
  apply Forall_cons in Hadd as [(v5 & T5 & V5) _].
  split_and!.
  - apply Forall_cons; split.
    { exists v1. split; [exact T1|]. apply card_of_parts; [|exact Cname].
      by rewrite Hvalues, Hframe. }
    apply Forall_cons; split.
    { exists v2. split; [exact T2|]. apply card_of_parts; [|exact Cpmra].
      by rewrite Hvalues, Hframe. }
    apply Forall_cons; split.
    { exists v3. split; [exact T3|]. apply card_of_parts; [|exact Cpmdec].
      by rewrite Hvalues, Hframe. }
    apply Forall_cons; split.
    { exists v4. split; [exact T4|]. apply card_of_parts; [|exact Cmag].
      by rewrite Hvalues, Hframe. }
    apply Forall_cons; split.
    { exists v5. split; [exact T5|]. apply card_of_parts; [|exact Cdescr].
      by rewrite Hvalues, Hframe. }
    apply Forall_nil_2.
  - by apply card_of_parts.
  - exact Cra.
  - exact Cdec.
Qed.

Section flux_header.
Context `{Externals}.

(** The cards of the flux extension that are those of the header of the
    object. *)
Lemma extract_source_flux_frame (image : list hdu) (ext : extensions)
    (tmpl : fits_header) (dummy_hdus : bool) (i : nat) (p : list hdu) :
  extract_source image ext tmpl dummy_hdus i = Ok p ->
  exists hdr flux rest,
    p = flux :: rest /\
    object_header image ext tmpl i = Ok hdr /\
    forall K, reserved K = false ->
      K ∉ ["EXTNAME"; "V_BARY"; "V_HELIO"; "CRVAL1"; "CDELT1";
           "CHECKSUM"; "DATASUM"] ->
      card_of K flux = cards hdr !! K.
Proof.
  intros (data_hdu & row & variance_hdu & vrow & hdr & f0 & s0 & f1 & s1
          & _ & _ & _ & _ & Hhdr & Hin & Hcor & Hasm)%extract_source_stages.
  apply input_hdus_Ok in Hin as ((_ & _ & _ & _ & B1f) & _).
  apply barycentric_correction_Ok in Hcor
    as (v_bary & v_helio & _ & (_ & _ & _ & _ & _ & _ & _ & C1f) & _).
  apply assemble_Ok in Hasm
    as (flux & sigma & placeholders & -> & (_ & _ & _ & D1f) & _).
  exists hdr, flux, (sigma :: placeholders). split; [done|]. split; [done|].
  intros K Hres HK. split_notin HK. unfold card_of.
  rewrite D1f.
  - rewrite C1f.
    + by apply B1f.
    + solve_notin.
  - repeat (apply not_elem_of_cons; split;
            [first [key_ne | by not_reserved Hres]|]).
    apply not_elem_of_nil.
Qed.

(** X15: the flux header of every product of a run has the fields NAME,
    PMRA and PMDEC of the catalogue row of its fibre, the field MAGNITUDE
    under the keyword MAG and the field COMMENT under the keyword DESCR, each
    as it is in the catalogue and with the comment of [keyword_comments]; the
    FIBRE card has the comment Fibre number and the RA and DEC cards say that
    they are in degrees. *)
Theorem catalogue_fields_copied (filename : string) (dummy_hdus : bool)
    (w w' : world) (products : list (list hdu)) :
  from_2dfdr filename dummy_hdus w = (Ok products, w') ->
  exists image fibres types,
    fits_open filename = Ok image /\
    fibre_table image = Ok fibres /\
    table_column fibres "TYPE" = Ok types /\
    Forall2 (catalogue_copied fibres) (np_where_eq "P" types) products.
Proof.
  intros (image & ext & tmpl & primary & variance_hdu & fibres & types
          & Hopen & _ & _ & _ & _ & _ & _ & Htab & Hfib & Htypes & Hall
          & _)%from_2dfdr_stages.
  exists image, fibres, types. split_and!; try done.
  eapply Forall2_impl; [exact Hall|]. intros i p Hprod. cbn beta in Hprod.
  apply extract_source_flux_frame in Hprod
    as (hdr & flux & rest & -> & Hhdr & Hframe).
  apply object_header_fields in Hhdr
    as (fibres' & Hfib' & Hfields & Hfibre & Hra & Hdec).
  rewrite Hfib in Hfib'. apply Ok_inj in Hfib' as <-.
  exists flux, rest. split; [done|].
  unfold copied_fields in Hfields |- *.
  apply Forall_cons in Hfields as [(v1 & T1 & V1) Hfields].
  apply Forall_cons in Hfields as [(v2 & T2 & V2) Hfields].
  apply Forall_cons in Hfields as [(v3 & T3 & V3) Hfields].
  apply Forall_cons in Hfields as [(v4 & T4 & V4) Hfields].
  apply Forall_cons in Hfields as [(v5 & T5 & V5) _].
  split_and!.
  - apply Forall_cons; split.
    { exists v1. split; [exact T1|]. rewrite Hframe; [exact V1|done|solve_notin]. }
    apply Forall_cons; split.
    { exists v2. split; [exact T2|]. rewrite Hframe; [exact V2|done|solve_notin]. }
    apply Forall_cons; split.
    { exists v3. split; [exact T3|]. rewrite Hframe; [exact V3|done|solve_notin]. }
    apply Forall_cons; split.
    { exists v4. split; [exact T4|]. rewrite Hframe; [exact V4|done|solve_notin]. }
    apply Forall_cons; split.
    { exists v5. split; [exact T5|]. rewrite Hframe; [exact V5|done|solve_notin]. }
    apply Forall_nil_2.
  - rewrite Hframe; [exact Hfibre|done|solve_notin].
  - rewrite Hframe; [exact Hra|done|solve_notin].
  - rewrite Hframe; [exact Hdec|done|solve_notin].
Qed.

(** X16: the flux header of every product of a run carries the version and
    the revision hash of the conversion, with their comments, and none of the
    cards CDELT2, CRPIX2, CRVAL2, CTYPE2 and CUNIT2 of the fibre axis. *)
Theorem products_carry_template_stamps (filename : string) (dummy_hdus : bool)
    (w w' : world) (products : list (list hdu)) :
  from_2dfdr filename dummy_hdus w = (Ok products, w') ->
  Forall template_stamped products.
Proof.
  intros (image & ext & tmpl & primary & variance_hdu & fibres & types
          & _ & _ & _ & _ & Htmpl & _ & _ & _ & _ & _ & Hall & _)%from_2dfdr_stages.
  apply build_header_template_Ok in Htmpl
    as (data_hdu & n & name & _ & _ & _ & Hver & Hhash & Hgone & _).
  eapply Forall2_right; [exact Hall|]. intros i p Hprod. cbn beta in Hprod.
  apply extract_source_Ok in Hprod
    as (? & ? & ? & ? & ? & ? & ? & ? & flux & sigma & rest & -> & _
        & (_ & _ & _ & _ & _ & _ & _ & _ & Hframe) & _).
  exists flux, (sigma :: rest). split; [done|].
  assert (forall K, K ∈ ["WG6_VER"; "WG6_HASH"] ∨ K ∈ second_axis_keys ->
            reserved K = false /\ (K ∉ object_keys)) as Hfree.
  { intros K [HK|HK]; [|unfold second_axis_keys in HK];
      unfold object_keys, catalogue_keys; cbn [app];
      cases_elem HK; (split; [reflexivity|solve_notin]). }
  split_and!.
  - destruct (Hfree "WG6_VER") as [Hr Ho]; [left; set_solver|].
    by rewrite (Hframe _ Hr Ho).
  - destruct (Hfree "WG6_HASH") as [Hr Ho]; [left; set_solver|].
    by rewrite (Hframe _ Hr Ho).
  - intros K HK. destruct (Hfree K) as [Hr Ho]; [by right|].
    rewrite (Hframe _ Hr Ho). by apply Hgone.
Qed.


(** X18: the motion service is asked once for each product, with the header
    of the object, whose coordinates are those the flux header shows; the
    V_BARY and V_HELIO cards of the flux header hold the two velocities it
    returns, each brought to km/s from the unit it came in, with their
    comments. *)
Theorem velocities_of_object_header (filename : string) (dummy_hdus : bool)
    (w w' : world) (products : list (list hdu)) :
  from_2dfdr filename dummy_hdus w = (Ok products, w') ->
  exists image ext tmpl fibres types,
    fits_open filename = Ok image /\
    read_2dfdr_extensions image = Ok ext /\
    build_header_template image ext = Ok tmpl /\
    fibre_table image = Ok fibres /\
    table_column fibres "TYPE" = Ok types /\
    Forall2 (fun i p => exists hdr,
               object_header image ext tmpl i = Ok hdr /\
               velocities_stored hdr p)
            (np_where_eq "P" types) products.
Proof.
  intros (image & ext & tmpl & primary & variance_hdu & fibres & types
          & Hopen & Hext & _ & _ & Htmpl & _ & _ & Htab & _ & Htypes & Hall
          & _)%from_2dfdr_stages.
  exists image, ext, tmpl, fibres, types. split_and!; try done.
  eapply Forall2_impl; [exact Hall|]. intros i p Hprod. cbn beta in Hprod.
  pose proof (extract_source_flux_frame _ _ _ _ _ _ Hprod)
    as (hdr' & flux' & rest' & Hp' & Hhdr' & Hframe).
  apply extract_source_Ok in Hprod
    as (? & ? & ? & ? & ? & v_bary & v_helio & hdr & flux & sigma & rest & ->
        & (_ & _ & _ & _ & _ & Hhdr & Hmot)
        & (_ & _ & _ & Hbary & Hhelio & _) & _).
  rewrite Hhdr in Hhdr'. apply Ok_inj in Hhdr' as <-.
  injection Hp' as <- <-.
  exists hdr. split; [done|].
  exists flux, (sigma :: rest), v_bary, v_helio. split_and!; try done.
  - unfold value_at. rewrite Hframe; [done|done|solve_notin].
  - unfold value_at. rewrite Hframe; [done|done|solve_notin].
Qed.

End flux_header.

Lemma catalogue_fields_copied_witness :
  exists products w',
    sample_run true = (Ok products, w') /\
    exists image fibres types,
      @fits_open (sample_externals sample_image) "combined.fits" = Ok image /\
      fibre_table image = Ok fibres /\
      table_column fibres "TYPE" = Ok types /\
      Forall2 (catalogue_copied fibres) (np_where_eq "P" types) products.
Proof.
  destruct (sample_run true) as [r w'] eqn:Hrun. destruct r as [products|e].
  - exists products, w'. split; [reflexivity|].
    exact (@catalogue_fields_copied (sample_externals sample_image)
             "combined.fits" true [] w' products Hrun).
  - run_succeeded Hrun.
Defined.

Lemma products_carry_template_stamps_witness :
  exists products w',
    sample_run true = (Ok products, w') /\
    Forall (@template_stamped (sample_externals sample_image)) products.
Proof.
  destruct (sample_run true) as [r w'] eqn:Hrun. destruct r as [products|e].
  - exists products, w'. split; [reflexivity|].
    exact (@products_carry_template_stamps (sample_externals sample_image)
             "combined.fits" true [] w' products Hrun).
  - run_succeeded Hrun.
Defined.


Lemma velocities_of_object_header_witness :
  exists products w',
    sample_run true = (Ok products, w') /\
    exists image ext tmpl fibres types,
      @fits_open (sample_externals sample_image) "combined.fits" = Ok image /\
      read_2dfdr_extensions image = Ok ext /\
      @build_header_template (sample_externals sample_image) image ext = Ok tmpl /\
      fibre_table image = Ok fibres /\
      table_column fibres "TYPE" = Ok types /\
      Forall2 (fun i p => exists hdr,
                 object_header image ext tmpl i = Ok hdr /\
                 @velocities_stored (sample_externals sample_image) hdr p)
              (np_where_eq "P" types) products.
Proof.
  destruct (sample_run true) as [r w'] eqn:Hrun. destruct r as [products|e].
  - exists products, w'. split; [reflexivity|].
    exact (@velocities_of_object_header (sample_externals sample_image)
             "combined.fits" true [] w' products Hrun).
  - run_succeeded Hrun.
Defined.


(** ** Runs that raise and runs without objects *)

Lemma where_from_none (x : string) (column : list value) (n : nat) :
  Forall (fun v => v <> VStr x) column -> where_from n x column = [].
Proof.
  intros Hall. revert n. induction Hall as [|v column Hv _ IH]; intros n; [done|].
  cbn [where_from]. destruct v as [s| | |]; try apply IH.
  destruct (decide (s = x)) as [->|_]; [done|]. apply IH.
Qed.



Section failures.
Context `{Externals}.


(** X20: an exposure that passes the checks and whose catalogue has no row
    of type P gives the empty list, and the exposure is closed; the motion
    service is not needed for it. *)
Theorem no_program_fibres_no_products (filename : string) (dummy_hdus : bool)
    (w : world) (image : list hdu) (ext : extensions) (tmpl : fits_header)
    (fibres : hdu) (types : list value) :
  fits_open filename = Ok image ->
  read_2dfdr_extensions image = Ok ext ->
  verify_hermes_origin image = Ok tt ->
  build_header_template image ext = Ok tmpl ->
  getitem image (ext_fibres ext) = Ok fibres ->
  table_column fibres "TYPE" = Ok types ->
  Forall (fun v => v <> VStr "P") types ->
  from_2dfdr filename dummy_hdus w = (Ok [], w).
Proof.
  intros Hopen Hext Hver Htmpl Hfib Htypes Hnone.
  unfold from_2dfdr. rewrite Hopen. unfold extract_sources.
  rewrite Hext. cbn [bind]. rewrite Hver. cbn [bind]. rewrite Htmpl. cbn [bind].
  unfold program_indices. rewrite Hfib. cbn [bind]. rewrite Htypes. cbn [bind].
  unfold np_where_eq. rewrite (where_from_none _ _ _ Hnone). cbn [mapM_result].
  by rewrite close_opened.
Qed.

(** X21: the rows of the flux image are not checked against the catalogue
    beforehand: for a row of type P whose index is beyond the rows of the
    flux image the body of the loop raises IndexError, and the run raises and
    leaves the exposure open. *)
Theorem fibre_beyond_image_raises (filename : string) (dummy_hdus : bool)
    (w : world) (image : list hdu) (primary : hdu) (rows : list (list float))
    (fibres : hdu) (types : list value) (i : nat) :
  fits_open filename = Ok image ->
  image !! 0 = Some primary ->
  hdata primary = Image rows ->
  fibre_table image = Ok fibres ->
  table_column fibres "TYPE" = Ok types ->
  types !! i = Some (VStr "P") ->
  length rows <= i ->
  (forall ext tmpl,
     read_2dfdr_extensions image = Ok ext ->
     extract_source image ext tmpl dummy_hdus i = Raise IndexError) /\
  exists e, from_2dfdr filename dummy_hdus w = (Raise e, filename :: w).
Proof.
  intros Hopen Hp Hrows Htab Htypes Hi Hlen.
  assert (forall ext tmpl,
            read_2dfdr_extensions image = Ok ext ->
            extract_source image ext tmpl dummy_hdus i = Raise IndexError) as Hone.
  { intros ext tmpl Hext.
    destruct (read_2dfdr_extensions_data _ _ Hext) as (Hdata & _).
    unfold extract_source, getitem. rewrite Hdata, Hp. cbn [bind].
    unfold image_row, getitem. rewrite Hrows.
    by rewrite (lookup_ge_None_2 rows i Hlen). }
  split; [exact Hone|].
  unfold from_2dfdr. rewrite Hopen.
  destruct (extract_sources image dummy_hdus) as [products|e] eqn:Hsrc;
    [|by eexists].
  exfalso.
  apply extract_sources_Ok in Hsrc
    as (ext & tmpl & fibres' & types' & Hext & _ & _ & Hfib & Htypes' & Hall).
  unfold fibre_table in Htab. rewrite Hext in Htab. cbn [bind] in Htab.
  rewrite Hfib in Htab. apply Ok_inj in Htab as ->.
  rewrite Htypes in Htypes'. apply Ok_inj in Htypes' as <-.
  assert (i ∈ np_where_eq "P" types) as Hin.
  { unfold np_where_eq. apply where_from_spec. by exists i. }
  apply list_elem_of_lookup in Hin as [k Hk].
  destruct (Forall2_lookup_l _ _ _ _ _ Hall Hk) as (p & _ & Hprod).
  cbn beta in Hprod. by rewrite (Hone _ _ Hext) in Hprod.
Qed.

(** X22: a failure of the motion service is never replaced by a default
    velocity: with a service that raises for every header, a run returns
    only when there is no program fibre, and then with no product. *)
Theorem motion_failure_is_not_swallowed (filename : string) (dummy_hdus : bool)
    (w w' : world) (products : list (list hdu)) :
  (forall hdr, exists e, motions_from_header hdr = Raise e) ->
  from_2dfdr filename dummy_hdus w = (Ok products, w') ->
  products = [].
Proof.
  intros Hfail (image & ext & tmpl & primary & variance_hdu & fibres & types
          & _ & _ & _ & _ & _ & _ & _ & _ & _ & _ & Hall & _)%from_2dfdr_stages.
  destruct Hall as [|i p indices ps Hprod _]; [done|]. exfalso.
  apply extract_source_Ok in Hprod
    as (? & ? & ? & ? & ? & v_bary & v_helio & hdr & flux & sigma & rest & _
        & (_ & _ & _ & _ & _ & _ & Hmot) & _).
  destruct (Hfail hdr) as [e He]. by rewrite He in Hmot.
Qed.

End failures.


Lemma no_program_fibres_no_products_witness :
  @from_2dfdr (failing_motion_externals sky_image) "combined.fits" true []
  = (Ok [], []).
Proof.
  assert (exists tmpl,
            @build_header_template (failing_motion_externals sky_image)
              sky_image (Extensions 0 1 2) = Ok tmpl) as [tmpl Htmpl].
  { destruct (@build_header_template (failing_motion_externals sky_image)
                sky_image (Extensions 0 1 2)) as [tmpl|e] eqn:Hrun; [by eexists|].
    exfalso. revert Hrun. vm_compute. discriminate. }
  apply (@no_program_fibres_no_products (failing_motion_externals sky_image)
           "combined.fits" true [] sky_image (Extensions 0 1 2) tmpl
           sky_fibres_hdu [VStr "S"; VStr "S"; VStr "N"]).
  - reflexivity.
  - vm_compute. reflexivity.
  - vm_compute. reflexivity.
  - exact Htmpl.
  - reflexivity.
  - vm_compute. reflexivity.
  - repeat (apply Forall_cons; split; [discriminate|]). apply Forall_nil_2.
Defined.

Lemma fibre_beyond_image_raises_witness :
  (forall ext tmpl,
     read_2dfdr_extensions short_image = Ok ext ->
     @extract_source (sample_externals short_image) short_image ext tmpl true 2
     = Raise IndexError) /\
  exists e,
    @from_2dfdr (sample_externals short_image) "combined.fits" true []
    = (Raise e, ["combined.fits"]).
Proof.
  apply (@fibre_beyond_image_raises (sample_externals short_image)
           "combined.fits" true [] short_image short_data_hdu
           [[1; 2; 3; 4]; [0; 0; 0; 0]]%float
           sample_fibres_hdu [VStr "P"; VStr "S"; VStr "P"] 2).
  - reflexivity.
  - reflexivity.
  - reflexivity.
  - vm_compute. reflexivity.
  - vm_compute. reflexivity.
  - reflexivity.
  - cbn [length]. lia.
Defined.

Lemma motion_failure_is_not_swallowed_witness :
  exists products w',
    @from_2dfdr (failing_motion_externals sky_image) "combined.fits" true []
    = (Ok products, w') /\
    products = [].
Proof.
  destruct (@from_2dfdr (failing_motion_externals sky_image) "combined.fits"
              true []) as [r w'] eqn:Hrun.
  destruct r as [products|e].
  - exists products, w'. split; [reflexivity|].
    apply (@motion_failure_is_not_swallowed (failing_motion_externals sky_image)
             "combined.fits" true [] w' products); [|exact Hrun].
    intros hdr. exists ValueError. reflexivity.
  - run_succeeded Hrun.
Defined.


(** ** The placeholder switch *)

Section switch.
Context `{Externals}.









End switch.





(** ** When the header of an object can be built *)








